(** * The profiler integration: a shallow embedding and its properties

    Source: [homeassistant/components/profiler/__init__.py].

    The integration registers eight administrative services.  Their
    handlers are embedded below as functions over an explicit host state
    ([World]); what the handlers delegate to the host and to third-party
    libraries (the notification store, the interval timers, the logger,
    the profilers) appears as fields of that state or as recorded effects. *)

From Stdlib Require Import ZArith QArith Qround String DecimalString.
From stdpp Require Import gmap strings list.

(** ** Python values the handlers look at *)

Module Py.

(** How a call that does not return ends.  All but the last are
    exceptions; [UserException] stands for an instance of [Exception]
    raised by code the handlers call into (the class of a live object, a
    library writing a file), whatever its class, and [BaseException] for
    one raised outside the [Exception] hierarchy.  [NeverReturns] is no
    exception: the call is suspended at an [await] that never completes,
    and no [except] or [finally] clause sees it. *)
Inductive exn :=
| HomeAssistantError (msg : string)
| ImportError (module : string)
| KeyError (key : string)
| TypeError
| ValueError
| OverflowError
| AttributeError
| LoggingError
| UserException
| BaseException (name : string)
| NeverReturns.

(** A Python [float]: an IEEE 754 double.  The finite ones are given by
    their value, a rational (the two zeros are not told apart). *)
Inductive pyfloat :=
| Finite (x : Q)
| Inf (negative : bool)
| NaN.

(** The values a service call can carry under a key. *)
Inductive pyobj :=
| VNone
| VBool (b : bool)
| VInt (n : Z)
| VFloat (x : pyfloat)
| VStr (s : string)
| VTimedelta (seconds : Q).

(** *** Rounding to a double *)

(** [floor (log2 (n/d))] *)
Definition ilog2 (n d : positive) : Z :=
  let e0 := (Z.log2 (Zpos n) - Z.log2 (Zpos d))%Z in
  if (if (0 <=? e0)%Z
      then (Zpos d * 2 ^ e0 <=? Zpos n)%Z
      else (Zpos d <=? Zpos n * 2 ^ (- e0))%Z)
  then e0 else (e0 - 1)%Z.

(** [a/b] rounded to the nearest integer, a tie going to the even one. *)
Definition round_half_even (a b : Z) : Z :=
  let m := (a / b)%Z in
  let r := (a mod b)%Z in
  if (2 * r <? b)%Z then m
  else if (b <? 2 * r)%Z then (m + 1)%Z
  else if Z.even m then m else (m + 1)%Z.

(** The double nearest to the positive rational [n/d]: 53 significant
    bits, the exponent not below that of the subnormal numbers, and
    infinity from [2^1024 - 2^970] on. *)
Definition round_double_pos (n d : positive) : pyfloat :=
  let e := ilog2 n d in
  let qe := (Z.max e (-1022) - 52)%Z in
  let m := if (0 <=? qe)%Z
           then round_half_even (Zpos n) (Zpos d * 2 ^ qe)
           else round_half_even (Zpos n * 2 ^ (- qe)) (Zpos d) in
  if ((971 <? qe) || ((qe =? 971) && (2 ^ 53 <=? m)))%Z then Inf false
  else Finite (Qred (if (0 <=? qe)%Z
                     then Qmake (m * 2 ^ qe) 1
                     else Qmake m (Z.to_pos (2 ^ (- qe))))).

Definition float_neg (a : pyfloat) : pyfloat :=
  match a with
  | Finite x => Finite (Qred (- x))
  | Inf negative => Inf (negb negative)
  | NaN => NaN
  end.

(** The double nearest to a rational, ties to even: what an arithmetic
    operation on doubles returns for its exact result. *)
Definition round_double (x : Q) : pyfloat :=
  match Qnum x with
  | Z0 => Finite 0
  | Zpos n => round_double_pos n (Qden x)
  | Zneg n => float_neg (round_double_pos n (Qden x))
  end.

(** [a * b] on floats *)
Definition float_mul (a b : pyfloat) : pyfloat :=
  match a, b with
  | NaN, _ => NaN
  | _, NaN => NaN
  | Finite x, Finite y => round_double (x * y)
  | Inf s, Inf t => Inf (xorb s t)
  | Inf s, Finite y =>
      match Qnum y with
      | Z0 => NaN
      | Zpos _ => Inf s
      | Zneg _ => Inf (negb s)
      end
  | Finite x, Inf s =>
      match Qnum x with
      | Z0 => NaN
      | Zpos _ => Inf s
      | Zneg _ => Inf (negb s)
      end
  end.

(** [float(n)] of an int: the nearest double, or [OverflowError] for an
    int too large for one. *)
Definition float_of_int (n : Z) : exn + pyfloat :=
  match round_double (inject_Z n) with
  | Finite x => inr (Finite x)
  | _ => inl OverflowError
  end.

(** [int(x)] of a finite float: truncation toward zero. *)
Definition int_of_float (x : Q) : Z := Z.quot (Qnum x) (Zpos (Qden x)).

(** [int(x)] of a float: infinities and nan have no integer. *)
Definition int_of (x : pyfloat) : exn + Z :=
  match x with
  | Finite q => inr (int_of_float q)
  | Inf _ => inl OverflowError
  | NaN => inl ValueError
  end.

(** [str(n)] of an int, as an f-string renders it. *)
Definition str_of_int (n : Z) : string := NilZero.string_of_int (Z.to_int n).

(** *** [sys.version_info] *)

(** Elements of [sys.version_info] and of the tuple it is compared to. *)
Inductive elt :=
| EInt (n : Z)
| EStr (s : string).

Definition elt_eqb (a b : elt) : bool :=
  match a, b with
  | EInt x, EInt y => (x =? y)%Z
  | EStr x, EStr y => String.eqb x y
  | _, _ => false
  end.

(** [a >= b] on two elements; [None] is the [TypeError] of comparing an
    [int] with a [str]. *)
Definition elt_ge (a b : elt) : option bool :=
  match a, b with
  | EInt x, EInt y => Some (y <=? x)%Z
  | EStr x, EStr y =>
      Some (match String.compare x y with Lt => false | _ => true end)
  | _, _ => None
  end.

(** [a >= b] on tuples: the first pair of unequal elements decides, and
    when one tuple is a prefix of the other the lengths decide. *)
Fixpoint tuple_ge (a b : list elt) : option bool :=
  match a, b with
  | _, [] => Some true
  | [], _ :: _ => Some false
  | x :: a', y :: b' => if elt_eqb x y then tuple_ge a' b' else elt_ge x y
  end.

Record version_info := {
  major : Z;
  minor : Z;
  micro : Z;
  releaselevel : string;
  serial : Z;
}.

Definition as_tuple (v : version_info) : list elt :=
  [EInt (major v); EInt (minor v); EInt (micro v);
   EStr (releaselevel v); EInt (serial v)].

End Py.

(** ** The parameter schema of the two profile services *)

Module Schema.
Import Py.

Definition CONF_SECONDS : string := "seconds".

(** What a [vol.Schema] does with the data of a call: it returns the
    validated data, raises [vol.MultipleInvalid] with one error for each
    offending key (given here by key, since the order of the errors
    follows the order of the keys in the call), or lets through an
    exception of a validator that is neither. *)
Inductive validated (A : Type) :=
| Valid (a : A)
| Invalid (errors : gmap string string)
| Escapes (e : exn).
Arguments Valid {A} a.
Arguments Invalid {A} errors.
Arguments Escapes {A} e.

(** The error of every key of the data but the one the schema names. *)
Definition extra_keys (allowed : string) (data : gmap string pyobj)
  : gmap string string :=
  (fun _ => "extra keys not allowed") <$> delete allowed data.

Section Coerce.
(** [float(s)] of a string, [None] when it raises [ValueError]; the
    parser is the interpreter's. *)
Variable float_of_str : string -> option pyfloat.

(** [float(v)] *)
Definition float_of (v : pyobj) : exn + pyfloat :=
  match v with
  | VNone => inl TypeError
  | VBool b => inr (Finite (if b then 1 else 0))
  | VInt n => float_of_int n
  | VFloat x => inr x
  | VStr s =>
      match float_of_str s with
      | Some x => inr x
      | None => inl ValueError
      end
  | VTimedelta _ => inl TypeError
  end.

(** [vol.Coerce(float)]: the value is passed to [float]; a [ValueError]
    or [TypeError] becomes the validation error "expected float", and
    any other exception is not caught.  Nothing else is checked. *)
Definition coerce_float (v : pyobj) : exn + (string + pyfloat) :=
  match float_of v with
  | inr x => inr (inr x)
  | inl ValueError => inr (inl "expected float")
  | inl TypeError => inr (inl "expected float")
  | inl e => inl e
  end.

(** [vol.Schema({vol.Optional(CONF_SECONDS, default=60.0):
    vol.Coerce(float)})] applied to the data of a call: a missing
    [seconds] is filled in with the default before the values are
    validated, and a key other than [seconds] is an error. *)
Definition seconds_schema (data : gmap string pyobj)
  : validated (gmap string pyobj) :=
  match coerce_float (default (VFloat (Finite 60)) (data !! CONF_SECONDS)) with
  | inl e => Escapes e
  | inr (inl msg) =>
      Invalid (<[CONF_SECONDS := msg]> (extra_keys CONF_SECONDS data))
  | inr (inr x) =>
      if decide (extra_keys CONF_SECONDS data = ∅)
      then Valid {[CONF_SECONDS := VFloat x]}
      else Invalid (extra_keys CONF_SECONDS data)
  end.
End Coerce.

End Schema.

(** ** The host state the handlers act on *)

Module Host.
Import Py.

(** The limits of [reprlib.aRepr], the shared [reprlib.Repr] instance. *)
Record Repr := {
  maxlevel : Z;
  maxtuple : Z;
  maxlist : Z;
  maxarray : Z;
  maxdict : Z;
  maxset : Z;
  maxfrozenset : Z;
  maxdeque : Z;
  maxstring : Z;
  maxlong : Z;
  maxother : Z;
}.

Definition set_maxstring (n : Z) (r : Repr) : Repr :=
  {| maxlevel := maxlevel r; maxtuple := maxtuple r; maxlist := maxlist r;
     maxarray := maxarray r; maxdict := maxdict r; maxset := maxset r;
     maxfrozenset := maxfrozenset r; maxdeque := maxdeque r;
     maxstring := n; maxlong := maxlong r; maxother := maxother r |}.

Definition set_maxother (n : Z) (r : Repr) : Repr :=
  {| maxlevel := maxlevel r; maxtuple := maxtuple r; maxlist := maxlist r;
     maxarray := maxarray r; maxdict := maxdict r; maxset := maxset r;
     maxfrozenset := maxfrozenset r; maxdeque := maxdeque r;
     maxstring := maxstring r; maxlong := maxlong r; maxother := n |}.

(** An [asyncio.TimerHandle] in the loop's [_scheduled] heap. *)
Record Handle := {
  handle_id : nat;
  cancelled : bool;
}.

(** What asking an object for a string does: the call runs code of the
    object's class, which returns the string, raises an [Exception], or
    raises outside the [Exception] hierarchy. *)
Inductive repr_result :=
| ReprReturns (s : string)
| ReprRaisesException
| ReprRaisesBaseException (name : string).

(** A live object as the dump looks at it: the name [objgraph] matches it
    by, what formatting [type(obj)] in an f-string does (it calls the
    [__repr__] of the object's metaclass), and what [repr(obj)] does. *)
Record LiveObject := {
  type_name : string;
  type_str : repr_result;
  repr_of : repr_result;
}.

(** An argument of a logging call, before the record is formatted. *)
Inductive logarg :=
| AStr (s : string)
| AList (l : list string)
| AHandle (h : Handle)
| AGrowth.

Record logrecord := {
  log_format : string;
  log_args : list logarg;
}.

(** What a handler has done to the world outside the host state: a
    record handed to the logger, a call to a profiler, a sleep begun, a
    file written. *)
Inductive effect :=
| Critical (r : logrecord)
| ProfilerEnable
| ProfilerDisable
| Sleep (seconds : pyfloat)
| HpyNew
| HpySetref
| HpyHeap
| DumpStats (path : string)
| Callgrind (path : string)
| HeapDump (path : string).

(** The host: [hass.data[DOMAIN]] and whether it exists, the registered
    services, the interval listeners, the persistent notifications, what
    [time.time()] reads, [reprlib.aRepr], the loop's [_scheduled] queue,
    and the effects so far. *)
Record World := {
  domain_data : gmap string nat;
  has_domain : bool;
  services : gset string;
  listeners : gmap nat pyobj;
  next_listener : nat;
  notifications : gmap string (string * string);
  clock : pyfloat;
  arepr : Repr;
  scheduled : list Handle;
  trace : list effect;
}.

Definition set_domain_data (d : gmap string nat) (w : World) : World :=
  {| domain_data := d; has_domain := has_domain w; services := services w;
     listeners := listeners w; next_listener := next_listener w;
     notifications := notifications w; clock := clock w; arepr := arepr w;
     scheduled := scheduled w; trace := trace w |}.

Definition set_has_domain (b : bool) (w : World) : World :=
  {| domain_data := domain_data w; has_domain := b; services := services w;
     listeners := listeners w; next_listener := next_listener w;
     notifications := notifications w; clock := clock w; arepr := arepr w;
     scheduled := scheduled w; trace := trace w |}.

Definition set_services (s : gset string) (w : World) : World :=
  {| domain_data := domain_data w; has_domain := has_domain w; services := s;
     listeners := listeners w; next_listener := next_listener w;
     notifications := notifications w; clock := clock w; arepr := arepr w;
     scheduled := scheduled w; trace := trace w |}.

Definition set_listeners (l : gmap nat pyobj) (w : World) : World :=
  {| domain_data := domain_data w; has_domain := has_domain w;
     services := services w; listeners := l;
     next_listener := next_listener w; notifications := notifications w;
     clock := clock w; arepr := arepr w; scheduled := scheduled w;
     trace := trace w |}.

Definition set_next_listener (n : nat) (w : World) : World :=
  {| domain_data := domain_data w; has_domain := has_domain w;
     services := services w; listeners := listeners w; next_listener := n;
     notifications := notifications w; clock := clock w; arepr := arepr w;
     scheduled := scheduled w; trace := trace w |}.

Definition set_notifications (n : gmap string (string * string)) (w : World)
  : World :=
  {| domain_data := domain_data w; has_domain := has_domain w;
     services := services w; listeners := listeners w;
     next_listener := next_listener w; notifications := n; clock := clock w;
     arepr := arepr w; scheduled := scheduled w; trace := trace w |}.

Definition set_clock (t : pyfloat) (w : World) : World :=
  {| domain_data := domain_data w; has_domain := has_domain w;
     services := services w; listeners := listeners w;
     next_listener := next_listener w; notifications := notifications w;
     clock := t; arepr := arepr w; scheduled := scheduled w;
     trace := trace w |}.

Definition set_arepr (r : Repr) (w : World) : World :=
  {| domain_data := domain_data w; has_domain := has_domain w;
     services := services w; listeners := listeners w;
     next_listener := next_listener w; notifications := notifications w;
     clock := clock w; arepr := r; scheduled := scheduled w;
     trace := trace w |}.

Definition set_trace (t : list effect) (w : World) : World :=
  {| domain_data := domain_data w; has_domain := has_domain w;
     services := services w; listeners := listeners w;
     next_listener := next_listener w; notifications := notifications w;
     clock := clock w; arepr := arepr w; scheduled := scheduled w;
     trace := t |}.

(** What [asyncio.sleep] does with a delay that is not a number: on the
    interpreters the integration runs on the timer is queued with a
    deadline that compares with nothing, and whether it ever fires is up
    to the loop's timer heap; later interpreters refuse the delay with
    [ValueError]. *)
Inductive nan_sleep :=
| NanReturns
| NanNeverReturns
| NanRaises.

(** What the handlers cannot know of the interpreter and the machine:
    whether [pyprof2calltree] can be imported, whether writing a file
    raises, what [asyncio.sleep] does with nan, and what [time.time()]
    reads once a sleep is over. *)
Record Runtime := {
  pyprof2calltree_importable : bool;
  write_fails : effect -> World -> bool;
  sleep_nan : nan_sleep;
  clock_after_sleep : World -> pyfloat -> pyfloat;
}.

(** *** Handlers as state transformers that may raise *)

Definition M (A : Type) : Type := World -> World * (exn + A).

Definition ret {A} (a : A) : M A := fun w => (w, inr a).

Definition raise {A} (e : exn) : M A := fun w => (w, inl e).

Definition bind {A B} (m : M A) (k : A -> M B) : M B :=
  fun w =>
    match m w with
    | (w', inr a) => k a w'
    | (w', inl e) => (w', inl e)
    end.

(** [try: m finally: f], with a [finally] block that does not raise;
    the block is not reached while [m] is suspended for good. *)
Definition finally {A} (m : M A) (f : World -> World) : M A :=
  fun w =>
    match m w with
    | (w', inl NeverReturns) => (w', inl NeverReturns)
    | (w', r) => (f w', r)
    end.

Definition get : M World := fun w => (w, inr w).

Definition modify (f : World -> World) : M unit := fun w => (f w, inr tt).

Definition emit (e : effect) : M unit :=
  modify (fun w => set_trace (trace w ++ [e]) w).

(** [for x in l: body x] *)
Fixpoint for_each {A} (l : list A) (body : A -> M unit) : M unit :=
  match l with
  | [] => ret tt
  | x :: l' => bind (body x) (fun _ => for_each l' body)
  end.

(** [[f x for x in l]] *)
Fixpoint comprehension {A B} (l : list A) (f : A -> M B) : M (list B) :=
  match l with
  | [] => ret []
  | x :: l' =>
      bind (f x) (fun y => bind (comprehension l' f) (fun ys => ret (y :: ys)))
  end.

End Host.

(** ** The handlers *)

Module Profiler.
Import Py Host.

Notation "x <- m ;; k" := (bind m (fun x => k))
  (at level 100, m at next level, right associativity, only parsing).
Notation "m ;; k" := (bind m (fun _ => k))
  (at level 100, right associativity, only parsing).

Definition SERVICE_START : string := "start".
Definition SERVICE_MEMORY : string := "memory".
Definition SERVICE_START_LOG_OBJECTS : string := "start_log_objects".
Definition SERVICE_STOP_LOG_OBJECTS : string := "stop_log_objects".
Definition SERVICE_DUMP_LOG_OBJECTS : string := "dump_log_objects".
Definition SERVICE_LRU_STATS : string := "lru_stats".
Definition SERVICE_LOG_THREAD_FRAMES : string := "log_thread_frames".
Definition SERVICE_LOG_EVENT_LOOP_SCHEDULED : string :=
  "log_event_loop_scheduled".

Definition SERVICES : list string :=
  [SERVICE_START; SERVICE_MEMORY; SERVICE_START_LOG_OBJECTS;
   SERVICE_STOP_LOG_OBJECTS; SERVICE_DUMP_LOG_OBJECTS; SERVICE_LRU_STATS;
   SERVICE_LOG_THREAD_FRAMES; SERVICE_LOG_EVENT_LOOP_SCHEDULED].

Definition CONF_SECONDS : string := Schema.CONF_SECONDS.
Definition CONF_SCAN_INTERVAL : string := "scan_interval".
Definition CONF_TYPE : string := "type".
Definition LOG_INTERVAL_SUB : string := "log_interval_subscription".

Definition unsupported_message : string :=
  "Memory profiling is not supported on Python 3.11. Please use Python 3.10.".

Section Handlers.

(** [DOMAIN], from the integration's [const] module. *)
Variable DOMAIN : string.
(** [float(s)] on a string. *)
Variable float_of_str : string -> option pyfloat.
(** [hass.config.path(name)]: the path of [name] under the host's
    configuration directory. *)
Variable config_path : string -> string.
(** [objgraph.by_type(name)]: the live instances of the type. *)
Variable by_type : string -> list LiveObject.
(** Whether handing a record to the logger raises, under the limits
    [reprlib.aRepr] has at that moment. *)
Variable emit_raises : logrecord -> Repr -> bool.
(** [sys.version_info], and whether [guppy] can be imported. *)
Variable version : version_info.
Variable guppy_importable : bool.
(** The rest of what the interpreter and the machine decide. *)
Variable runtime : Runtime.

(** *** What the handlers call *)

Definition critical (fmt : string) (args : list logarg) : M unit :=
  fun w =>
    let r := {| log_format := fmt; log_args := args |} in
    if emit_raises r (arepr w) then (w, inl LoggingError)
    else emit (Critical r) w.

Definition notification_create (id title message : string) : M unit :=
  modify (fun w =>
    set_notifications (<[id := (title, message)]> (notifications w)) w).

Definition notification_dismiss (id : string) : M unit :=
  modify (fun w => set_notifications (delete id (notifications w)) w).

(** [call.data[key]] *)
Definition call_data (call : gmap string pyobj) (key : string) : M pyobj :=
  match call !! key with
  | Some v => ret v
  | None => raise (KeyError key)
  end.

(** A call of a function that returns or raises and does nothing else. *)
Definition lift {A} (r : exn + A) : M A :=
  match r with
  | inr a => ret a
  | inl e => raise e
  end.

(** [float(v)] *)
Definition float (v : pyobj) : M pyfloat :=
  lift (Schema.float_of float_of_str v).

(** [int(x)] *)
Definition int (x : pyfloat) : M Z := lift (int_of x).

(** [time.time()] *)
Definition time_time : M pyfloat := fun w => (w, inr (clock w)).

(** The sleep is over: the clock reads what it reads by then. *)
Definition wake_up (seconds : pyfloat) : M unit :=
  modify (fun w => set_clock (clock_after_sleep runtime w seconds) w).

(** [await asyncio.sleep(seconds)].  A delay that is [<= 0] gives way to
    the loop once and returns; any other is handed to
    [loop.call_later], whose timer fires after a finite delay and never
    after an infinite one. *)
Definition sleep (seconds : pyfloat) : M unit :=
  emit (Sleep seconds) ;;
  match seconds with
  | Finite _ => wake_up seconds
  | Inf true => wake_up seconds
  | Inf false => raise NeverReturns
  | NaN =>
      match sleep_nan runtime with
      | NanReturns => wake_up seconds
      | NanNeverReturns => raise NeverReturns
      | NanRaises => raise ValueError
      end
  end.

(** [async_track_time_interval(hass, action, interval)]: a new listener
    is registered with the host; the result is the callable that removes
    it, named by the listener's number. *)
Definition async_track_time_interval (interval : pyobj) : M nat :=
  fun w =>
    let id := next_listener w in
    (set_next_listener (S id)
       (set_listeners (<[id := interval]> (listeners w)) w), inr id).

(** Calling the callable [async_track_time_interval] returned. *)
Definition remove_listener (id : nat) : M unit :=
  modify (fun w => set_listeners (delete id (listeners w)) w).

(** *** [_log_objects] *)
Definition _log_objects : M unit :=
  critical "Memory Growth: %s" [AGrowth].

(** *** [_async_start_log_objects], up to its [await] and after it *)
Definition start_log_objects_begin : M unit :=
  w <- get ;;
  match domain_data w !! LOG_INTERVAL_SUB with
  | Some id => remove_listener id
  | None => ret tt
  end ;;
  notification_create "profile_object_logging"
    "Object growth logging started"
    "Object growth logging has started. See [the logs](/config/logs) to track the growth of new objects.".

Definition start_log_objects_end (call : gmap string pyobj) : M unit :=
  interval <- call_data call CONF_SCAN_INTERVAL ;;
  id <- async_track_time_interval interval ;;
  modify (fun w =>
    set_domain_data (<[LOG_INTERVAL_SUB := id]> (domain_data w)) w).

Definition _async_start_log_objects (call : gmap string pyobj) : M unit :=
  start_log_objects_begin ;;
  _log_objects ;;
  start_log_objects_end call.

(** *** [_async_stop_log_objects] *)
Definition _async_stop_log_objects : M unit :=
  w <- get ;;
  match domain_data w !! LOG_INTERVAL_SUB with
  | None => ret tt
  | Some id =>
      notification_dismiss "profile_object_logging" ;;
      modify (fun w =>
        set_domain_data (delete LOG_INTERVAL_SUB (domain_data w)) w) ;;
      remove_listener id
  end.

(** *** [_safe_repr] and [_dump_log_objects] *)

(** The [try] covers [repr(obj)] alone: the placeholder is built in the
    [except] block, where what formatting the type raises is not
    caught. *)
Definition _safe_repr (obj : LiveObject) : M string :=
  match repr_of obj with
  | ReprReturns s => ret s
  | ReprRaisesException =>
      match type_str obj with
      | ReprReturns t => ret ("Failed to serialize " +:+ t)
      | ReprRaisesException => raise UserException
      | ReprRaisesBaseException name => raise (BaseException name)
      end
  | ReprRaisesBaseException name => raise (BaseException name)
  end.

Definition _dump_log_objects (call : gmap string pyobj) : M unit :=
  v <- call_data call CONF_TYPE ;;
  match v with
  | VStr obj_type =>
      reprs <- comprehension (by_type obj_type) _safe_repr ;;
      critical "%s objects in memory: %s" [AStr obj_type; AList reprs] ;;
      notification_create "profile_object_dump" "Object dump completed"
        ("Objects with type " +:+ obj_type +:+
         " have been dumped to the log. See [the logs](/config/logs) to review the repr of the objects.")
  | _ => raise TypeError
  end.

(** *** [_async_dump_scheduled] *)
Definition _async_dump_scheduled : M unit :=
  w <- get ;;
  let original_maxstring := maxstring (arepr w) in
  let original_maxother := maxother (arepr w) in
  modify (fun w => set_arepr (set_maxstring 300 (arepr w)) w) ;;
  modify (fun w => set_arepr (set_maxother 300 (arepr w)) w) ;;
  finally
    (for_each (scheduled w) (fun handle =>
       if negb (cancelled handle)
       then critical "Scheduled: %s" [AHandle handle]
       else ret tt))
    (fun w =>
       set_arepr
         (set_maxother original_maxother
            (set_maxstring original_maxstring (arepr w))) w).

(** *** [async_setup_entry] and [async_unload_entry] *)
Definition async_setup_entry : M bool :=
  modify (fun w => set_has_domain true (set_domain_data ∅ w)) ;;
  modify (fun w => set_services (services w ∪ list_to_set SERVICES) w) ;;
  ret true.

Definition async_unload_entry : M bool :=
  modify (fun w => set_services (services w ∖ list_to_set SERVICES) w) ;;
  w <- get ;;
  (if has_domain w then ret tt else raise (KeyError DOMAIN)) ;;
  match domain_data w !! LOG_INTERVAL_SUB with
  | Some id => remove_listener id
  | None => ret tt
  end ;;
  modify (set_has_domain false) ;;
  ret true.

(** *** [_write_profile] and [_write_memory_profile] *)

(** A call that writes a file: it raises, or the file is there. *)
Definition write (e : effect) : M unit :=
  fun w => if write_fails runtime e w then (w, inl UserException) else emit e w.

Definition _write_profile (cprofile_path callgrind_path : string) : M unit :=
  (if pyprof2calltree_importable runtime then ret tt
   else raise (ImportError "pyprof2calltree")) ;;
  write (DumpStats cprofile_path) ;;
  write (Callgrind callgrind_path).

Definition _write_memory_profile (heap_path : string) : M unit :=
  write (HeapDump heap_path).

(** *** [_async_generate_profile] *)
Definition _async_generate_profile (call : gmap string pyobj) : M unit :=
  now <- time_time ;;
  start_time <- int (float_mul now (Finite 1000000)) ;;
  notification_create ("profiler_" +:+ str_of_int start_time)
    "Profile Started"
    "The profile has started. This notification will be updated when it is complete." ;;
  emit ProfilerEnable ;;
  v <- call_data call CONF_SECONDS ;;
  seconds <- float v ;;
  sleep seconds ;;
  emit ProfilerDisable ;;
  let cprofile_path :=
    config_path ("profile." +:+ str_of_int start_time +:+ ".cprof") in
  let callgrind_path :=
    config_path ("callgrind.out." +:+ str_of_int start_time) in
  _write_profile cprofile_path callgrind_path ;;
  notification_create ("profiler_" +:+ str_of_int start_time)
    "Profile Complete"
    ("Wrote cProfile data to " +:+ cprofile_path +:+
     " and callgrind data to " +:+ callgrind_path).

(** *** [_async_generate_memory_profile] *)
Definition _async_generate_memory_profile (call : gmap string pyobj)
  : M unit :=
  match tuple_ge (as_tuple version) [EInt 3; EInt 11] with
  | None => raise TypeError
  | Some true => raise (HomeAssistantError unsupported_message)
  | Some false =>
      (if guppy_importable then ret tt else raise (ImportError "guppy")) ;;
      now <- time_time ;;
      start_time <- int (float_mul now (Finite 1000000)) ;;
      notification_create ("memory_profiler_" +:+ str_of_int start_time)
        "Profile Started"
        "The memory profile has started. This notification will be updated when it is complete." ;;
      emit HpyNew ;;
      emit HpySetref ;;
      v <- call_data call CONF_SECONDS ;;
      seconds <- float v ;;
      sleep seconds ;;
      emit HpyHeap ;;
      let heap_path :=
        config_path ("heap_profile." +:+ str_of_int start_time +:+ ".hpy") in
      _write_memory_profile heap_path ;;
      notification_create ("memory_profiler_" +:+ str_of_int start_time)
        "Profile Complete"
        ("Wrote heapy memory profile to " +:+ heap_path)
  end.

End Handlers.

End Profiler.

(** ** The lock around the two profile handlers

    [async_setup_entry] creates an [asyncio.Lock], and the
    [_async_run_profile] and [_async_run_memory_profile] it registers
    run their bodies inside [async with lock].  The event loop runs one
    task at a time, from one [await] to the next; a step below is one
    such run of one task.  [Mutex] is the lock of one set-up with the
    requests its handlers serve; [Process] has one for each set-up. *)

Module Mutex.

Inductive action :=
| CpuProfile
| MemoryProfile.

(** Where a request is: not yet run, suspended in [lock.acquire()],
    suspended at an [await] of its body with [awaits_left] more to come,
    or returned (normally or by an exception, which [async with] treats
    alike: the lock is released). *)
Inductive pc :=
| NotStarted
| Waiting
| InBody (awaits_left : nat)
| Finished.

(** A request: its handler, the number of [await]s its body goes
    through, and the [await] that never completes, if there is one,
    given by the number of [await]s that would follow it. *)
Record task := {
  what : action;
  body_awaits : nat;
  hangs_at : option nat;
  at_pc : pc;
}.

Definition with_pc (p : pc) (t : task) : task :=
  {| what := what t; body_awaits := body_awaits t; hangs_at := hangs_at t;
     at_pc := p |}.

Definition in_body (t : task) : bool :=
  match at_pc t with
  | InBody _ => true
  | _ => false
  end.

(** The lock's [_locked] flag and its [_waiters]: for each waiting task
    its number and whether its future has been given a result. *)
Record state := {
  locked : bool;
  waiters : list (nat * bool);
  tasks : list task;
}.

Definition set_locked (b : bool) (s : state) : state :=
  {| locked := b; waiters := waiters s; tasks := tasks s |}.

Definition set_waiters (ws : list (nat * bool)) (s : state) : state :=
  {| locked := locked s; waiters := ws; tasks := tasks s |}.

Definition set_pc (i : nat) (p : pc) (s : state) : state :=
  {| locked := locked s; waiters := waiters s;
     tasks := alter (with_pc p) i (tasks s) |}.

(** [Lock._wake_up_first] *)
Definition wake_up_first (ws : list (nat * bool)) : list (nat * bool) :=
  match ws with
  | [] => []
  | (j, _) :: rest => (j, true) :: rest
  end.

(** [Lock.release], called by [async with] when the body is left. *)
Definition release (s : state) : state :=
  set_waiters (wake_up_first (waiters s)) (set_locked false s).

(** Task [i] holds the lock and runs its body up to the next [await];
    with none left the body is over and the lock is released. *)
Definition run_body (i : nat) (awaits : nat) (s : state) : state :=
  match awaits with
  | 0 => release (set_pc i Finished s)
  | S k => set_pc i (InBody k) s
  end.

Definition woken (i : nat) (ws : list (nat * bool)) : bool :=
  existsb (fun w => Nat.eqb (fst w) i && snd w) ws.

Definition remove_waiter (i : nat) (ws : list (nat * bool))
  : list (nat * bool) :=
  List.filter (fun w => negb (Nat.eqb (fst w) i)) ws.

(** Whether the [await] a task is suspended at in its body completes. *)
Definition hangs (t : task) (awaits_left : nat) : bool :=
  bool_decide (hangs_at t = Some awaits_left).

(** The loop runs task [i]; [None] when it is not runnable.  No future
    is ever cancelled, so the test [all(w.cancelled() for w in waiters)]
    of [Lock.acquire] holds exactly when there is no waiter. *)
Definition step (i : nat) (s : state) : option state :=
  match tasks s !! i with
  | None => None
  | Some t =>
      match at_pc t with
      | NotStarted =>
          if negb (locked s) && bool_decide (waiters s = [])
          then Some (run_body i (body_awaits t) (set_locked true s))
          else Some (set_pc i Waiting
                       (set_waiters (waiters s ++ [(i, false)]) s))
      | Waiting =>
          if woken i (waiters s)
          then Some (run_body i (body_awaits t)
                       (set_locked true
                          (set_waiters (remove_waiter i (waiters s)) s)))
          else None
      | InBody k => if hangs t k then None else Some (run_body i k s)
      | Finished => None
      end
  end.

Fixpoint run (schedule : list nat) (s : state) : state :=
  match schedule with
  | [] => s
  | i :: rest => run rest (default s (step i s))
  end.

(** A call as it arrives. *)
Record request := {
  req_action : action;
  req_awaits : nat;
  req_hangs : option nat;
}.

Definition arrive (r : request) : task :=
  {| what := req_action r; body_awaits := req_awaits r;
     hangs_at := req_hangs r; at_pc := NotStarted |}.

(** The lock as [asyncio.Lock()] makes it, with the requests the
    handlers of its set-up are going to serve. *)
Definition init (requests : list request) : state :=
  {| locked := false; waiters := []; tasks := map arrive requests |}.

(** A call reaches a handler: one more task. *)
Definition add_task (r : request) (s : state) : state :=
  {| locked := locked s; waiters := waiters s;
     tasks := tasks s ++ [arrive r] |}.

(** The [await]s of the two bodies: each sleeps and then waits for its
    executor job; the memory profile on an interpreter it refuses raises
    before either.  A sleep of infinite length is the first [await],
    with one to follow. *)
Definition awaits_of (supported : bool) (a : action) : nat :=
  match a with
  | CpuProfile => 2
  | MemoryProfile => if supported then 2 else 0
  end.

Definition profile_request (supported : bool) (a : action) : request :=
  {| req_action := a; req_awaits := awaits_of supported a;
     req_hangs := None |}.

Definition endless_request (a : action) : request :=
  {| req_action := a; req_awaits := 2; req_hangs := Some 1 |}.

End Mutex.

(** *** One lock for each set-up *)

Module Process.

(** The locks created so far, each with the requests that went to the
    handlers registered with it, and whether the services are
    registered. *)
Record state := {
  entries : list Mutex.state;
  loaded : bool;
}.

Inductive event :=
| SetUp
| Unload
| Call (r : Mutex.request)
| Resume (entry task : nat).

Definition init : state := {| entries := []; loaded := false |}.

(** The lock a new call goes through: the one of the last set-up. *)
Definition current (p : state) : nat := pred (length (entries p)).

(** [SetUp]: [async_setup_entry] creates a lock and registers handlers
    that hold on to it.  [Unload]: [async_unload_entry] removes the
    services, and leaves the requests that are being served alone.
    [Call]: a call to [start] or [memory] goes to the handler that is
    registered, if one is.  [Resume]: the loop runs a request. *)
Definition step (ev : event) (p : state) : option state :=
  match ev with
  | SetUp =>
      Some {| entries := entries p ++ [Mutex.init []]; loaded := true |}
  | Unload => Some {| entries := entries p; loaded := false |}
  | Call r =>
      if loaded p
      then Some {| entries := alter (Mutex.add_task r) (current p) (entries p);
                   loaded := true |}
      else None
  | Resume e i =>
      match entries p !! e with
      | None => None
      | Some s =>
          match Mutex.step i s with
          | None => None
          | Some s' =>
              Some {| entries := <[e := s']> (entries p);
                      loaded := loaded p |}
          end
      end
  end.

Fixpoint run (evs : list event) (p : state) : state :=
  match evs with
  | [] => p
  | ev :: rest => run rest (default p (step ev p))
  end.

(** The requests that are inside their bodies, whatever their lock. *)
Definition bodies_running (p : state) : nat :=
  list_sum (map (fun s => length (List.filter Mutex.in_body (Mutex.tasks s)))
              (entries p)).

End Process.
(** ** Vocabulary of the properties *)

Import Py Host.

(** The interpreter is 3.11 or later. *)
Definition at_least_3_11 (v : version_info) : Prop :=
  (3 < major v \/ (major v = 3 /\ 11 <= minor v))%Z.

(** The file-writing effects of a trace, in order. *)
Definition files_written (t : list effect) : list effect :=
  List.filter
    (fun e => match e with
              | DumpStats _ | Callgrind _ | HeapDump _ => true
              | _ => false
              end) t.

(** The entry of an object in the dump: its [repr] when that returns,
    the placeholder naming its type when its [repr] raises an
    [Exception] and its type can be formatted, and none otherwise. *)
Definition representation (obj : LiveObject) : option string :=
  match repr_of obj, type_str obj with
  | ReprReturns s, _ => Some s
  | ReprRaisesException, ReprReturns t => Some ("Failed to serialize " +:+ t)
  | _, _ => None
  end.

(** A float that is a positive number. *)
Definition is_positive (x : pyfloat) : Prop :=
  match x with
  | Finite q => (0 < q)%Q
  | Inf negative => negative = false
  | NaN => False
  end.

(** Whether [asyncio.sleep] returns for a delay. *)
Definition sleep_returns (runtime : Runtime) (seconds : pyfloat) : bool :=
  match seconds with
  | Finite _ => true
  | Inf negative => negative
  | NaN =>
      match sleep_nan runtime with
      | NanReturns => true
      | _ => false
      end
  end.

(** No write raises. *)
Definition writes_succeed (runtime : Runtime) : Prop :=
  forall e w, write_fails runtime e w = false.

(** The record [_async_dump_scheduled] logs for a handle. *)
Definition scheduled_record (h : Handle) : effect :=
  Critical {| log_format := "Scheduled: %s"; log_args := [AHandle h] |}.

(** Every active listener is the one the installation state stores. *)
Definition stored_only (w : World) : Prop :=
  forall id, is_Some (listeners w !! id) ->
             domain_data w !! Profiler.LOG_INTERVAL_SUB = Some id.

(** Calls to the three services that touch the subscription. *)
Inductive op :=
| Start (call : gmap string pyobj)
| Stop
| Unload.

Section Operations.
Variable DOMAIN : string.
Variable emit_raises : logrecord -> Repr -> bool.

Definition handler (o : op) : M unit :=
  match o with
  | Start call => Profiler._async_start_log_objects emit_raises call
  | Stop => Profiler._async_stop_log_objects
  | Unload => bind (Profiler.async_unload_entry DOMAIN) (fun _ => ret tt)
  end.

(** The state a call leaves, whether it returned or raised. *)
Definition exec (o : op) (w : World) : World := fst (handler o w).

(** The states a call passes through at its [await]s. *)
Definition midway (o : op) (w : World) : list World :=
  match o with
  | Start _ => [fst (Profiler.start_log_objects_begin w)]
  | _ => []
  end.

(** Every state seen while the calls run one after the other. *)
Fixpoint history (ops : list op) (w : World) : list World :=
  w :: match ops with
       | [] => []
       | o :: rest => midway o w ++ history rest (exec o w)
       end.

(** The body of the loop of [_async_dump_scheduled]. *)
Definition log_handle (handle : Handle) : M unit :=
  if negb (cancelled handle)
  then Profiler.critical emit_raises "Scheduled: %s" [AHandle handle]
  else ret tt.

End Operations.

(** What holds of the lock and the tasks in every reachable state. *)
Record mutex_inv (s : Mutex.state) : Prop := {
  inv_free : Mutex.locked s = false ->
    forall i t, Mutex.tasks s !! i = Some t -> Mutex.in_body t = false;
  inv_exclusive : forall i j ti tj,
    Mutex.tasks s !! i = Some ti -> Mutex.tasks s !! j = Some tj ->
    Mutex.in_body ti = true -> Mutex.in_body tj = true -> i = j;
  inv_locked_none_woken : Mutex.locked s = true ->
    Forall (fun w => snd w = false) (Mutex.waiters s);
  inv_woken_first : Forall (fun w => snd w = false) (tail (Mutex.waiters s));
}.

(** ** Concrete values for the examples *)

Definition default_repr : Repr :=
  {| maxlevel := 6; maxtuple := 6; maxlist := 6; maxarray := 5;
     maxdict := 4; maxset := 6; maxfrozenset := 6; maxdeque := 6;
     maxstring := 30; maxlong := 40; maxother := 30 |}.

(** A host before the integration is set up, at 2023-11-14 22:13:20.25. *)
Definition fresh_world : World :=
  {| domain_data := ∅; has_domain := false; services := ∅;
     listeners := ∅; next_listener := 0; notifications := ∅;
     clock := Finite (6800000001 # 4); arepr := default_repr;
     scheduled := [];
     trace := [] |}.

Definition with_scheduled (hs : list Handle) (w : World) : World :=
  {| domain_data := domain_data w; has_domain := has_domain w;
     services := services w; listeners := listeners w;
     next_listener := next_listener w; notifications := notifications w;
     clock := clock w; arepr := arepr w; scheduled := hs;
     trace := trace w |}.

Definition never_raises : logrecord -> Repr -> bool := fun _ _ => false.

Definition no_float_of_str : string -> option pyfloat := fun _ => None.

Definition under_config (name : string) : string := "/config/" +:+ name.

Definition python_3_10 : version_info :=
  {| major := 3; minor := 10; micro := 12; releaselevel := "final";
     serial := 0 |}.

Definition python_3_11 : version_info :=
  {| major := 3; minor := 11; micro := 4; releaselevel := "final";
     serial := 0 |}.

Definition python_3_12 : version_info :=
  {| major := 3; minor := 12; micro := 0; releaselevel := "final";
     serial := 0 |}.

Definition printable : LiveObject :=
  {| type_name := "Timer"; type_str := ReprReturns "<class 'app.Timer'>";
     repr_of := ReprReturns "<Timer 1>" |}.

Definition unprintable : LiveObject :=
  {| type_name := "Timer"; type_str := ReprReturns "<class 'app.Timer'>";
     repr_of := ReprRaisesException |}.

(** An object whose [__repr__] raises [KeyboardInterrupt], which is not
    an [Exception]. *)
Definition interrupting : LiveObject :=
  {| type_name := "Timer"; type_str := ReprReturns "<class 'app.Timer'>";
     repr_of := ReprRaisesBaseException "KeyboardInterrupt" |}.

(** An object whose [__repr__] raises and whose metaclass has a
    [__repr__] that raises too. *)
Definition unformattable : LiveObject :=
  {| type_name := "Timer"; type_str := ReprRaisesException;
     repr_of := ReprRaisesException |}.

(** A machine on which nothing fails: [pyprof2calltree] is installed,
    the files can be written, and the clock has moved on by the delay
    when a sleep is over. *)
Definition sound_runtime : Runtime :=
  {| pyprof2calltree_importable := true;
     write_fails := fun _ _ => false;
     sleep_nan := NanNeverReturns;
     clock_after_sleep := fun w seconds =>
       match clock w, seconds with
       | Finite t, Finite d =>
           if Qle_bool d 0 then Finite t else round_double (t + d)
       | t, _ => t
       end |}.

(** The same machine with a configuration directory that cannot be
    written to. *)
Definition read_only_runtime : Runtime :=
  {| pyprof2calltree_importable := true;
     write_fails := fun _ _ => true;
     sleep_nan := NanNeverReturns;
     clock_after_sleep := clock_after_sleep sound_runtime |}.

Definition call_60_seconds : gmap string pyobj :=
  {[Profiler.CONF_SECONDS := VFloat (Finite 60)]}.

Definition call_for_ever : gmap string pyobj :=
  {[Profiler.CONF_SECONDS := VFloat (Inf false)]}.

Definition call_every_30_seconds : gmap string pyobj :=
  {[Profiler.CONF_SCAN_INTERVAL := VTimedelta 30]}.

Definition call_dump_timers : gmap string pyobj :=
  {[Profiler.CONF_TYPE := VStr "Timer"]}.

Definition timers (name : string) : list LiveObject :=
  if String.eqb name "Timer" then [printable; unprintable; printable] else [].

Definition pending_and_cancelled : list Handle :=
  [{| handle_id := 1; cancelled := false |};
   {| handle_id := 2; cancelled := true |};
   {| handle_id := 3; cancelled := false |}].

(** A logger that raises on the record of handle 3 when it is called
    under the widened limits. *)
Definition raises_on_third : logrecord -> Repr -> bool :=
  fun r limits =>
    match log_args r with
    | [AHandle h] =>
        Nat.eqb (handle_id h) 3
        && (maxstring limits =? 300)%Z && (maxother limits =? 300)%Z
    | _ => false
    end.

(** The record [_dump_log_objects] logs. *)
Definition dump_record (obj_type : string) (reprs : list string) : effect :=
  Critical {| log_format := "%s objects in memory: %s";
              log_args := [AStr obj_type; AList reprs] |}.

(** ** The remaining services *)

Module Diagnostics.
Import Py Host Profiler.

Definition _LRU_CACHE_WRAPPER_OBJECT : string := "_lru_cache_wrapper".

Definition _KNOWN_LRU_CLASSES : list string :=
  ["EventDataManager"; "EventTypeManager"; "StatesMetaManager";
   "StateAttributesManager"; "StatisticsMetaManager"; "DomainData";
   "IntegrationMatcher"].

(** What [inspect.getabsfile] does on an object. *)
Inductive absfile_result :=
| AbsfileReturns (path : string)
| AbsfileRaisesException
| AbsfileRaisesBaseException (name : string).

(** [lru.cache_info()] of a [functools.lru_cache] wrapper. *)
Record CacheInfo := {
  hits : Z;
  misses : Z;
  maxsize : option Z;
  currsize : Z;
}.

(** An object [objgraph] finds under the name [_lru_cache_wrapper]:
    whether it has a [__wrapped__], as the wrappers [functools.lru_cache]
    makes have and an object of another class by that name need not,
    and then [str(lru.__wrapped__)], what
    [inspect.getabsfile(lru.__wrapped__)] does, and its statistics. *)
Record LruCacheWrapper := {
  has_wrapped : bool;
  wrapped_str : string;
  wrapped_absfile : absfile_result;
  cache_info : CacheInfo;
}.

(** A value of an instance's [__dict__]: an [LRU] with what
    [get_stats()] returns, or anything else. *)
Inductive attribute :=
| LruAttr (lru_hits lru_misses : Z)
| OtherAttr.

(** An object [objgraph] finds under the name of one of the known
    classes: [str(type(obj))], what [inspect.getabsfile(obj)] does, and
    [obj.__dict__.values()], which an instance of a class with
    [__slots__] does not have. *)
Record CacheHolder := {
  holder_type_str : string;
  holder_absfile : absfile_result;
  holder_dict_values : option (list attribute);
}.

(** How [%s] renders the statistics. *)
Definition str_of_cache_info (c : CacheInfo) : string :=
  "CacheInfo(hits=" +:+ str_of_int (hits c) +:+ ", misses="
  +:+ str_of_int (misses c) +:+ ", maxsize="
  +:+ match maxsize c with Some n => str_of_int n | None => "None" end
  +:+ ", currsize=" +:+ str_of_int (currsize c) +:+ ")".

Definition str_of_stats (lru_hits lru_misses : Z) : string :=
  "(" +:+ str_of_int lru_hits +:+ ", " +:+ str_of_int lru_misses +:+ ")".

(** A live thread: the object's identity, its name and its [ident]. *)
Record Thread := {
  thread_obj : nat;
  thread_name : string;
  thread_ident : nat;
}.

Section Handlers.

Variable emit_raises : logrecord -> Repr -> bool.
(** [objgraph.by_type(name)], read at the two kinds of object
    [_lru_stats] asks for. *)
Variable wrappers_by_type : string -> list LruCacheWrapper.
Variable holders_by_type : string -> list CacheHolder.
(** [threading.enumerate()] and [threading.main_thread()]. *)
Variable threading_enumerate : list Thread.
Variable main_thread : Thread.
(** [sys._current_frames()], each frame given by the lines
    [traceback.format_stack] makes of it, and the lines it makes of the
    caller's own stack when it is handed [None]. *)
Variable current_frames : gmap nat (list string).
Variable own_stack : list string.
(** [str.strip()] *)
Variable strip : string -> string.

(** *** [_get_function_absfile], on what [inspect.getabsfile] does *)
Definition _get_function_absfile (func : absfile_result) : M string :=
  match func with
  | AbsfileReturns abs_file => ret abs_file
  | AbsfileRaisesException => ret "unknown"
  | AbsfileRaisesBaseException name => raise (BaseException name)
  end.

(** *** [_lru_stats] *)
Definition log_lru_cache (lru : LruCacheWrapper) : M unit :=
  (if has_wrapped lru then ret tt else raise AttributeError) ;;
  abs_file <- _get_function_absfile (wrapped_absfile lru) ;;
  critical emit_raises "Cache stats for lru_cache %s at %s: %s"
    [AStr (wrapped_str lru); AStr abs_file;
     AStr (str_of_cache_info (cache_info lru))].

Definition log_maybe_lru (class_with_lru_attr : CacheHolder)
    (maybe_lru : attribute) : M unit :=
  match maybe_lru with
  | LruAttr lru_hits lru_misses =>
      abs_file <- _get_function_absfile (holder_absfile class_with_lru_attr) ;;
      critical emit_raises "Cache stats for LRU %s at %s: %s"
        [AStr (holder_type_str class_with_lru_attr); AStr abs_file;
         AStr (str_of_stats lru_hits lru_misses)]
  | OtherAttr => ret tt
  end.

Definition _lru_stats : M unit :=
  for_each (wrappers_by_type _LRU_CACHE_WRAPPER_OBJECT) log_lru_cache ;;
  for_each _KNOWN_LRU_CLASSES (fun _class =>
    for_each (holders_by_type _class) (fun class_with_lru_attr =>
      match holder_dict_values class_with_lru_attr with
      | None => raise AttributeError
      | Some values => for_each values (log_maybe_lru class_with_lru_attr)
      end)) ;;
  notification_create "profile_lru_stats" "LRU stats completed"
    "LRU cache states have been dumped to the log. See [the logs](/config/logs) to review the stats.".

(** *** [_async_dump_thread_frames] *)
Definition format_stack (frame : option (list string)) : list string :=
  match frame with
  | Some lines => lines
  | None => own_stack
  end.

Definition log_thread (thread : Thread) : M unit :=
  if Nat.eqb (thread_obj thread) (thread_obj main_thread) then ret tt
  else
    let ident := thread_ident thread in
    critical emit_raises "Thread [%s]: %s"
      [AStr (thread_name thread);
       AStr (strip (String.concat ""
                      (format_stack (current_frames !! ident))))].

Definition _async_dump_thread_frames : M unit :=
  for_each threading_enumerate log_thread.

End Handlers.


End Diagnostics.

(** ** Vocabulary of the further properties *)

(** A handler leaves the subscription, the services and the installation
    state alone. *)
Definition same_installation (w w' : World) : Prop :=
  domain_data w' = domain_data w /\ has_domain w' = has_domain w
  /\ services w' = services w /\ listeners w' = listeners w
  /\ next_listener w' = next_listener w.

(** A handler changes nothing but the log and the notifications. *)
Definition only_reports (w w' : World) : Prop :=
  same_installation w w' /\ clock w' = clock w /\ arepr w' = arepr w
  /\ scheduled w' = scheduled w.

(** [m] relates every state it is run in to the state it leaves, whether
    it returns or raises. *)
Definition keeps {A} (R : World -> World -> Prop) (m : M A) : Prop :=
  forall w, R w (fst (m w)).







(** A call to one of the eight services, or the unload of the entry. *)
Inductive service_call :=
| CallStart (call : gmap string pyobj)
| CallMemory (call : gmap string pyobj)
| CallStartLogObjects (call : gmap string pyobj)
| CallStopLogObjects
| CallDumpLogObjects (call : gmap string pyobj)
| CallLruStats
| CallLogThreadFrames
| CallLogEventLoopScheduled
| CallUnload.

(** What the rest of the interpreter looks like to the handlers. *)
Record Environment := {
  env_DOMAIN : string;
  env_float_of_str : string -> option pyfloat;
  env_config_path : string -> string;
  env_by_type : string -> list LiveObject;
  env_emit_raises : logrecord -> Repr -> bool;
  env_version : version_info;
  env_guppy_importable : bool;
  env_runtime : Runtime;
  env_wrappers_by_type : string -> list Diagnostics.LruCacheWrapper;
  env_holders_by_type : string -> list Diagnostics.CacheHolder;
  env_threading_enumerate : list Diagnostics.Thread;
  env_main_thread : Diagnostics.Thread;
  env_current_frames : gmap nat (list string);
  env_own_stack : list string;
  env_strip : string -> string;
}.

(** The handler [async_setup_entry] registered for the call, run with no
    other call in flight (so the lock of the two profile handlers is
    free). *)
Definition serve (E : Environment) (c : service_call) : M unit :=
  match c with
  | CallStart call =>
      Profiler._async_generate_profile (env_float_of_str E)
        (env_config_path E) (env_runtime E) call
  | CallMemory call =>
      Profiler._async_generate_memory_profile (env_float_of_str E)
        (env_config_path E) (env_version E) (env_guppy_importable E)
        (env_runtime E) call
  | CallStartLogObjects call =>
      Profiler._async_start_log_objects (env_emit_raises E) call
  | CallStopLogObjects => Profiler._async_stop_log_objects
  | CallDumpLogObjects call =>
      Profiler._dump_log_objects (env_by_type E) (env_emit_raises E) call
  | CallLruStats =>
      Diagnostics._lru_stats (env_emit_raises E) (env_wrappers_by_type E)
        (env_holders_by_type E)
  | CallLogThreadFrames =>
      Diagnostics._async_dump_thread_frames (env_emit_raises E)
        (env_threading_enumerate E) (env_main_thread E)
        (env_current_frames E) (env_own_stack E) (env_strip E)
  | CallLogEventLoopScheduled =>
      Profiler._async_dump_scheduled (env_emit_raises E)
  | CallUnload =>
      bind (Profiler.async_unload_entry (env_DOMAIN E)) (fun _ => ret tt)
  end.

(** The state after the calls, made one after the other. *)
Fixpoint serve_all (E : Environment) (cs : list service_call) (w : World)
  : World :=
  match cs with
  | [] => w
  | c :: rest => serve_all E rest (fst (serve E c w))
  end.

(** *** The lock: what else holds in every reachable state *)

Definition is_waiting (t : Mutex.task) : bool :=
  match Mutex.at_pc t with
  | Mutex.Waiting => true
  | _ => false
  end.

Definition is_finished (t : Mutex.task) : bool :=
  match Mutex.at_pc t with
  | Mutex.Finished => true
  | _ => false
  end.

Record mutex_live (s : Mutex.state) : Prop := {
  live_holder : Mutex.locked s = true ->
    exists i t, Mutex.tasks s !! i = Some t /\ Mutex.in_body t = true;
  live_head_woken : Mutex.locked s = false ->
    forall j b rest, Mutex.waiters s = (j, b) :: rest -> b = true;
  live_waiters_wait : forall j b, In (j, b) (Mutex.waiters s) ->
    exists t, Mutex.tasks s !! j = Some t /\ is_waiting t = true;
  live_waiting_queued : forall j t,
    Mutex.tasks s !! j = Some t -> is_waiting t = true ->
    exists b, In (j, b) (Mutex.waiters s);
}.

(** No request is suspended for good. *)
Definition none_hangs (s : Mutex.state) : Prop :=
  Forall (fun t => Mutex.hangs_at t = None) (Mutex.tasks s).

(** The steps a request still has to take. *)
Definition task_weight (t : Mutex.task) : nat :=
  match Mutex.at_pc t with
  | Mutex.NotStarted => Mutex.body_awaits t + 2
  | Mutex.Waiting => Mutex.body_awaits t + 1
  | Mutex.InBody k => k + 1
  | Mutex.Finished => 0
  end.

Definition weight (s : Mutex.state) : nat :=
  list_sum (map task_weight (Mutex.tasks s)).

(** The first request the loop can run, if any. *)
Fixpoint first_runnable_from (i n : nat) (s : Mutex.state) : option nat :=
  match n with
  | 0 => None
  | S n' =>
      match Mutex.step i s with
      | Some _ => Some i
      | None => first_runnable_from (S i) n' s
      end
  end.

Definition first_runnable (s : Mutex.state) : option nat :=
  first_runnable_from 0 (length (Mutex.tasks s)) s.

(** The loop runs the first runnable request, [fuel] times at most. *)
Fixpoint run_to_end (fuel : nat) (s : Mutex.state) : Mutex.state :=
  match fuel with
  | 0 => s
  | S fuel' =>
      match first_runnable s with
      | Some i => run_to_end fuel' (default s (Mutex.step i s))
      | None => s
      end
  end.

(** A handler leaves the entry's registration alone. *)
Definition same_entry (w w' : World) : Prop :=
  has_domain w' = has_domain w /\ services w' = services w.

Definition is_unload (c : service_call) : bool :=
  match c with
  | CallUnload => true
  | _ => false
  end.

(** The record [_log_objects] logs. *)
Definition growth_record : logrecord :=
  {| log_format := "Memory Growth: %s"; log_args := [AGrowth] |}.

(** A start running from its [await] on: the sample, then the install. *)
Definition start_resume (emit_raises : logrecord -> Repr -> bool)
    (call : gmap string pyobj) : M unit :=
  bind (Profiler._log_objects emit_raises)
    (fun _ => Profiler.start_log_objects_end call).

(** ** Concrete values for the further examples *)


Definition example_wrappers (name : string)
  : list Diagnostics.LruCacheWrapper :=
  if String.eqb name "_lru_cache_wrapper" then
    [{| Diagnostics.has_wrapped := true;
        Diagnostics.wrapped_str := "<function slugify at 0x7f00>";
        Diagnostics.wrapped_absfile :=
          Diagnostics.AbsfileReturns "/usr/src/util.py";
        Diagnostics.cache_info :=
          {| Diagnostics.hits := 10; Diagnostics.misses := 2;
             Diagnostics.maxsize := Some 128%Z; Diagnostics.currsize := 2 |} |};
     {| Diagnostics.has_wrapped := true;
        Diagnostics.wrapped_str := "<built-in function len>";
        Diagnostics.wrapped_absfile := Diagnostics.AbsfileRaisesException;
        Diagnostics.cache_info :=
          {| Diagnostics.hits := 0; Diagnostics.misses := 0;
             Diagnostics.maxsize := None; Diagnostics.currsize := 0 |} |}]
  else [].

Definition example_holders (name : string) : list Diagnostics.CacheHolder :=
  if String.eqb name "DomainData" then
    [{| Diagnostics.holder_type_str := "<class 'app.DomainData'>";
        Diagnostics.holder_absfile := Diagnostics.AbsfileRaisesException;
        Diagnostics.holder_dict_values :=
          Some [Diagnostics.OtherAttr; Diagnostics.LruAttr 5 1;
                Diagnostics.OtherAttr] |}]
  else if String.eqb name "Unlisted" then
    [{| Diagnostics.holder_type_str := "<class 'app.Unlisted'>";
        Diagnostics.holder_absfile := Diagnostics.AbsfileRaisesException;
        Diagnostics.holder_dict_values := Some [Diagnostics.LruAttr 9 9] |}]
  else [].

Definition example_main_thread : Diagnostics.Thread :=
  {| Diagnostics.thread_obj := 0; Diagnostics.thread_name := "MainThread";
     Diagnostics.thread_ident := 100 |}.

Definition example_threads : list Diagnostics.Thread :=
  [example_main_thread;
   {| Diagnostics.thread_obj := 1; Diagnostics.thread_name := "SyncWorker_0";
      Diagnostics.thread_ident := 101 |};
   {| Diagnostics.thread_obj := 2; Diagnostics.thread_name := "Recorder";
      Diagnostics.thread_ident := 102 |}].

Definition example_frames : gmap nat (list string) :=
  {[100 := ["main"]; 101 := ["worker a"; "worker b"]]}.

Definition example_env : Environment :=
  {| env_DOMAIN := "profiler"; env_float_of_str := no_float_of_str;
     env_config_path := under_config; env_by_type := timers;
     env_emit_raises := never_raises; env_version := python_3_10;
     env_guppy_importable := true; env_runtime := sound_runtime;
     env_wrappers_by_type := example_wrappers;
     env_holders_by_type := example_holders;
     env_threading_enumerate := example_threads;
     env_main_thread := example_main_thread;
     env_current_frames := example_frames; env_own_stack := ["handler"];
     env_strip := fun s => s |}.

Definition every_service_once : list service_call :=
  [CallStartLogObjects call_every_30_seconds; CallStart call_60_seconds;
   CallLruStats; CallStartLogObjects call_every_30_seconds;
   CallMemory call_60_seconds; CallDumpLogObjects call_dump_timers;
   CallLogThreadFrames; CallLogEventLoopScheduled; CallStopLogObjects;
   CallStartLogObjects call_every_30_seconds].


(** [float(call.data[CONF_SECONDS])] *)
Definition seconds_of (float_of_str : string -> option pyfloat)
    (call : gmap string pyobj) : exn + pyfloat :=
  match call !! Profiler.CONF_SECONDS with
  | Some v => Schema.float_of float_of_str v
  | None => inl (KeyError Profiler.CONF_SECONDS)
  end.

(** Two start calls that overlap: the second runs up to its [await]
    while the first is suspended at its own, then the first runs on and
    then the second. *)
Definition overlapping_starts (emit_raises : logrecord -> Repr -> bool)
    (call1 call2 : gmap string pyobj) (w : World) : World :=
  let w1 := fst (Profiler.start_log_objects_begin w) in
  let w2 := fst (Profiler.start_log_objects_begin w1) in
  let w3 := fst (start_resume emit_raises call1 w2) in
  fst (start_resume emit_raises call2 w3).

(** The record [_async_dump_thread_frames] logs for a thread. *)
Definition thread_record (current_frames : gmap nat (list string))
    (own_stack : list string) (strip : string -> string)
    (thread : Diagnostics.Thread) : effect :=
  Critical
    {| log_format := "Thread [%s]: %s";
       log_args :=
         [AStr (Diagnostics.thread_name thread);
          AStr (strip
                  (String.concat ""
                     (default own_stack
                        (current_frames
                           !! Diagnostics.thread_ident thread))))] |}.

Definition is_main (main_thread thread : Diagnostics.Thread) : bool :=
  Nat.eqb (Diagnostics.thread_obj thread)
    (Diagnostics.thread_obj main_thread).

(** [m] returns, having logged the records [recs] and changed neither
    the limits of [reprlib.aRepr] nor the notifications. *)
Definition logs (m : M unit) (recs : list effect) : Prop :=
  forall w,
    exists w',
      m w = (w', inr tt)
      /\ trace w' = trace w ++ recs
      /\ arepr w' = arepr w
      /\ notifications w' = notifications w.

(** The same heap without the instances of a class [_lru_stats] does not
    know. *)
Definition example_holders_known_only (name : string)
  : list Diagnostics.CacheHolder :=
  if String.eqb name "Unlisted" then [] else example_holders name.

(** ** Vocabulary for errors, written files and the requests of one set-up *)

(** [m] raises nothing but what [P] allows. *)
Definition raises_only {A} (P : exn -> Prop) (m : M A) : Prop :=
  forall w e, snd (m w) = inl e -> P e.

(** Anything but the error of an unsupported interpreter. *)
Definition not_unsupported (e : exn) : Prop :=
  forall msg, e <> HomeAssistantError msg.

(** The host at another reading of the clock. *)
Definition at_time (t : pyfloat) (w : World) : World := set_clock t w.

(** Run in [w], [m] writes the files [allowed], in that order, as far as
    it gets, and nothing else: all of them when it returns. *)
Definition writes_at {A} (allowed : list effect) (m : M A) (w : World)
  : Prop :=
  exists written,
    files_written (trace (fst (m w))) = files_written (trace w) ++ written
    /\ written `prefix_of` allowed
    /\ (forall a, snd (m w) = inr a -> written = allowed).

(** *** Two requests of one set-up *)

(** The request that arrived first is in its body with [m] more
    [await]s to come, and the second waits for the lock. *)
Definition first_inside (r0 r1 : Mutex.request) (m : nat) : Process.state :=
  {| Process.entries :=
       [{| Mutex.locked := true;
           Mutex.waiters := [(1, false)];
           Mutex.tasks :=
             [Mutex.with_pc (Mutex.InBody m) (Mutex.arrive r0);
              Mutex.with_pc Mutex.Waiting (Mutex.arrive r1)] |}];
     Process.loaded := true |}.

(** Where every request is, lock by lock. *)
Definition positions (p : Process.state) : list (list Mutex.pc) :=
  map (fun s => map Mutex.at_pc (Mutex.tasks s)) (Process.entries p).

(** A set-up, a call that starts to run, and a second call that starts
    to run then. *)
Definition two_calls (r0 r1 : Mutex.request) : list Process.event :=
  [Process.SetUp; Process.Call r0; Process.Resume 0 0;
   Process.Call r1; Process.Resume 0 1].

(** A profile in flight when the entry is unloaded and set up again,
    and a profile requested then. *)
Definition reload_during_a_profile : list Process.event :=
  [Process.SetUp;
   Process.Call (Mutex.profile_request true Mutex.CpuProfile);
   Process.Resume 0 0;
   Process.Unload;
   Process.SetUp;
   Process.Call (Mutex.profile_request true Mutex.MemoryProfile);
   Process.Resume 1 0].

(** The notification a profile shows while it runs. *)
Definition profile_started : string * string :=
  ("Profile Started",
   "The profile has started. This notification will be updated when it is complete.").

Definition memory_profile_started : string * string :=
  ("Profile Started",
   "The memory profile has started. This notification will be updated when it is complete.").

(** * Properties *)

(** ** Python values *)

Lemma tuple_ge_3_11 (v : version_info) :
  tuple_ge (as_tuple v) [EInt 3; EInt 11]
  = Some ((3 <? major v)%Z || ((major v =? 3)%Z && (11 <=? minor v)%Z)).
Proof.
  destruct v as [mj mn mc rl sr]; cbn.
  destruct (Z.eqb_spec mj 3) as [->|Hmj]; cbn.
  - destruct (Z.eqb_spec mn 11) as [->|Hmn]; cbn; reflexivity.
  - f_equal. destruct (Z.leb_spec 3 mj), (Z.ltb_spec 3 mj); cbn;
      try reflexivity; lia.
Qed.

Lemma tuple_ge_3_11_iff (v : version_info) :
  tuple_ge (as_tuple v) [EInt 3; EInt 11] = Some true <-> at_least_3_11 v.
Proof.
  rewrite tuple_ge_3_11. unfold at_least_3_11. split.
  - intros [= H]. apply orb_true_iff in H as [H|H].
    + left. now apply Z.ltb_lt.
    + right. apply andb_true_iff in H as [H1 H2].
      split; [now apply Z.eqb_eq | now apply Z.leb_le].
  - intros [H|[H1 H2]]; f_equal; apply orb_true_iff.
    + left. now apply Z.ltb_lt.
    + right. apply andb_true_iff. split; [now apply Z.eqb_eq | now apply Z.leb_le].
Qed.

Lemma tuple_ge_3_11_total (v : version_info) :
  tuple_ge (as_tuple v) [EInt 3; EInt 11] <> None.
Proof. rewrite tuple_ge_3_11. discriminate. Qed.

Lemma tuple_ge_below_3_11 (v : version_info) :
  ~ at_least_3_11 v -> tuple_ge (as_tuple v) [EInt 3; EInt 11] = Some false.
Proof.
  intros Hver.
  destruct (tuple_ge (as_tuple v) [EInt 3; EInt 11]) as [[|]|] eqn:Hge;
    [|reflexivity|].
  - now apply tuple_ge_3_11_iff in Hge.
  - now apply tuple_ge_3_11_total in Hge.
Qed.

Lemma int_of_float_floor (x : Q) :
  (0 <= x)%Q -> int_of_float x = Qfloor x.
Proof.
  destruct x as [n d]. unfold Qle, int_of_float, Qfloor; cbn.
  intros H. apply Z.quot_div_nonneg; lia.
Qed.

Lemma round_half_even_nonneg (a b : Z) :
  (0 <= a)%Z -> (0 < b)%Z -> (0 <= round_half_even a b)%Z.
Proof.
  intros Ha Hb. unfold round_half_even.
  pose proof (Z.div_pos a b Ha Hb).
  repeat match goal with |- context [if ?c then _ else _] => destruct c end;
    lia.
Qed.

Lemma round_double_pos_nonneg (n d : positive) (p : Q) :
  round_double_pos n d = Finite p -> (0 <= p)%Q.
Proof.
  unfold round_double_pos.
  set (qe := (Z.max (ilog2 n d) (-1022) - 52)%Z).
  destruct (_ || _); [discriminate|].
  intros [= <-]. rewrite Qred_correct.
  destruct (Z.leb_spec 0 qe) as [Hqe|Hqe]; unfold Qle; cbn [Qnum Qden];
    rewrite Z.mul_0_l, Z.mul_1_r.
  - apply Z.mul_nonneg_nonneg; [|lia].
    apply round_half_even_nonneg; lia.
  - apply round_half_even_nonneg; lia.
Qed.

(** A double product of two numbers that are not negative is not
    negative. *)
Lemma round_double_nonneg (x p : Q) :
  (0 <= x)%Q -> round_double x = Finite p -> (0 <= p)%Q.
Proof.
  destruct x as [n d]. unfold round_double; cbn [Qnum Qden].
  destruct n as [|n|n]; intros Hx.
  - intros [= <-]. discriminate.
  - apply round_double_pos_nonneg.
  - exfalso. revert Hx. unfold Qle; cbn. lia.
Qed.

Lemma start_time_floor (x p : Q) :
  (0 <= x)%Q ->
  float_mul (Finite x) (Finite 1000000) = Finite p ->
  int_of (float_mul (Finite x) (Finite 1000000)) = inr (Qfloor p).
Proof.
  intros Hx Hp. rewrite Hp. cbn. f_equal. apply int_of_float_floor.
  apply (round_double_nonneg (x * 1000000)); [|exact Hp].
  apply Qmult_le_0_compat; [exact Hx | discriminate].
Qed.

(** Doubles at work: an int above [2^53] is rounded, an int beyond the
    largest double has no float, and a clock reading one microsecond
    past a second times a million is not the exact product. *)
Example float_of_int_rounds :
  float_of_int (2 ^ 53 + 1) = inr (Finite (inject_Z (2 ^ 53)))
  /\ float_of_int (10 ^ 400) = inl OverflowError
  /\ float_mul (Finite (1782579200000001 # 1048576)) (Finite 1000000)
     = Finite 1700000000000001
  /\ Qfloor ((1782579200000001 # 1048576) * 1000000) = 1700000000000000%Z.
Proof. repeat split; vm_compute; reflexivity. Qed.

(** ** The [seconds] parameter *)

Lemma extra_keys_none (k : string) (data : gmap string pyobj) :
  Schema.extra_keys k data = ∅ <-> dom data ⊆ ({[k]} : gset string).
Proof.
  unfold Schema.extra_keys. rewrite fmap_empty_iff. split.
  - intros H j Hj. apply elem_of_singleton.
    destruct (decide (j = k)) as [->|Hne]; [reflexivity|].
    apply elem_of_dom in Hj as [v Hv].
    assert (Hd : delete k data !! j = Some v)
      by (rewrite lookup_delete_ne by congruence; exact Hv).
    rewrite H, lookup_empty in Hd. discriminate.
  - intros H. apply map_eq. intros j. rewrite lookup_empty.
    destruct (decide (j = k)) as [->|Hne]; [apply lookup_delete_eq|].
    rewrite lookup_delete_ne by congruence.
    apply not_elem_of_dom. intros Hj. apply H, elem_of_singleton in Hj.
    contradiction.
Qed.

Lemma extra_keys_singleton (k : string) (v : pyobj) :
  Schema.extra_keys k {[k := v]} = ∅.
Proof. apply extra_keys_none. rewrite dom_singleton_L. set_solver. Qed.

Lemma extra_keys_empty (k : string) : Schema.extra_keys k ∅ = ∅.
Proof. apply extra_keys_none. rewrite dom_empty_L. set_solver. Qed.

(** Data with no key but [k] is empty or holds [k] alone. *)
Lemma only_key (k : string) (data : gmap string pyobj) :
  Schema.extra_keys k data = ∅ ->
  data = match data !! k with
         | Some v => {[k := v]}
         | None => ∅
         end.
Proof.
  intros H. apply extra_keys_none in H. apply map_eq. intros j.
  destruct (decide (j = k)) as [->|Hne].
  - destruct (data !! k) as [v|] eqn:Hk.
    + now rewrite lookup_singleton_eq.
    + now rewrite lookup_empty.
  - replace (data !! j) with (@None pyobj).
    + destruct (data !! k); [now rewrite lookup_singleton_ne by congruence|].
      now rewrite lookup_empty.
    + symmetry. apply not_elem_of_dom. intros Hj.
      apply H, elem_of_singleton in Hj. contradiction.
Qed.

Section SecondsSchema.
Variable float_of_str : string -> option pyfloat.

Lemma seconds_schema_omitted :
  Schema.seconds_schema float_of_str ∅
  = Schema.Valid {[Schema.CONF_SECONDS := VFloat (Finite 60)]}.
Proof.
  unfold Schema.seconds_schema. rewrite lookup_empty. cbn.
  rewrite decide_True by apply extra_keys_empty. reflexivity.
Qed.

Lemma seconds_schema_given (v : pyobj) :
  Schema.seconds_schema float_of_str {[Schema.CONF_SECONDS := v]}
  = match Schema.float_of float_of_str v with
    | inr x => Schema.Valid {[Schema.CONF_SECONDS := VFloat x]}
    | inl ValueError | inl TypeError =>
        Schema.Invalid {[Schema.CONF_SECONDS := "expected float"]}
    | inl e => Schema.Escapes e
    end.
Proof.
  unfold Schema.seconds_schema, Schema.coerce_float.
  rewrite lookup_singleton_eq.
  change (default (VFloat (Finite 60)) (Some v)) with v.
  rewrite extra_keys_singleton.
  destruct (Schema.float_of float_of_str v) as [[]|x];
    rewrite ?insert_empty, ?decide_True by reflexivity; reflexivity.
Qed.

Lemma seconds_schema_valid (data call : gmap string pyobj) :
  Schema.seconds_schema float_of_str data = Schema.Valid call ->
  exists x,
    call = {[Schema.CONF_SECONDS := VFloat x]}
    /\ ((data = ∅ /\ x = Finite 60)
        \/ exists v, data = {[Schema.CONF_SECONDS := v]}
                     /\ Schema.float_of float_of_str v = inr x).
Proof.
  unfold Schema.seconds_schema, Schema.coerce_float.
  destruct (Schema.float_of float_of_str
              (default (VFloat (Finite 60)) (data !! Schema.CONF_SECONDS)))
    as [[]|x] eqn:Hf; try discriminate.
  case_decide as Hextra; [|discriminate].
  intros [= <-]. exists x. split; [reflexivity|].
  apply only_key in Hextra.
  destruct (data !! Schema.CONF_SECONDS) as [v|]; cbn in Hf.
  - right. exists v. auto.
  - left. split; [exact Hextra|]. now injection Hf as ->.
Qed.

(** C8 (amended): an omitted [seconds] becomes 60.0; a given value is
    accepted exactly when [float] returns for it, and what the handler
    receives is the float [float] returned, whatever its sign: every
    float, positive or not, a number or not, passes unchanged, and an
    int becomes the nearest double.  A value [float] refuses with
    [ValueError] or [TypeError] is a validation error; an int beyond the
    doubles makes [float] raise [OverflowError], which the schema lets
    through.  Nothing is accepted but the one key [seconds] holding a
    float. *)
Theorem seconds_default_and_coercion :
  Schema.seconds_schema float_of_str ∅
    = Schema.Valid {[Schema.CONF_SECONDS := VFloat (Finite 60)]}
  /\ (forall v,
        Schema.seconds_schema float_of_str {[Schema.CONF_SECONDS := v]}
        = match Schema.float_of float_of_str v with
          | inr x => Schema.Valid {[Schema.CONF_SECONDS := VFloat x]}
          | inl ValueError | inl TypeError =>
              Schema.Invalid {[Schema.CONF_SECONDS := "expected float"]}
          | inl e => Schema.Escapes e
          end)
  /\ (forall x : pyfloat,
        Schema.seconds_schema float_of_str
          {[Schema.CONF_SECONDS := VFloat x]}
        = Schema.Valid {[Schema.CONF_SECONDS := VFloat x]})
  /\ (forall n : Z,
        Schema.seconds_schema float_of_str {[Schema.CONF_SECONDS := VInt n]}
        = match round_double (inject_Z n) with
          | Finite x => Schema.Valid {[Schema.CONF_SECONDS := VFloat (Finite x)]}
          | _ => Schema.Escapes OverflowError
          end)
  /\ (forall data call,
        Schema.seconds_schema float_of_str data = Schema.Valid call ->
        exists x,
          call = {[Schema.CONF_SECONDS := VFloat x]}
          /\ ((data = ∅ /\ x = Finite 60)
              \/ exists v, data = {[Schema.CONF_SECONDS := v]}
                           /\ Schema.float_of float_of_str v = inr x)).
Proof.
  split; [apply seconds_schema_omitted|].
  split; [apply seconds_schema_given|].
  split; [intros x; rewrite seconds_schema_given; reflexivity|].
  split; [|apply seconds_schema_valid].
  intros n. rewrite seconds_schema_given. cbn. unfold float_of_int.
  destruct (round_double (inject_Z n)); reflexivity.
Qed.

End SecondsSchema.

(** C8 (as stated) fails: the schema accepts [seconds = -5] and hands
    the handler the float -5.0. *)
Lemma seconds_schema_accepts_negative :
  ~ (forall (data : gmap string pyobj) (x : pyfloat),
       Schema.seconds_schema (fun _ => None) data
         = Schema.Valid {[Schema.CONF_SECONDS := VFloat x]} ->
       is_positive x).
Proof.
  intros H.
  specialize (H {[Schema.CONF_SECONDS := VInt (-5)]} (Finite (-5))).
  rewrite seconds_schema_given in H. specialize (H eq_refl).
  revert H. unfold is_positive, Qlt; cbn. lia.
Qed.

(** What else the schema lets through and what it does not: zero,
    infinity and nan are accepted, an int is rounded, and an int too
    large for a double is neither accepted nor refused. *)
Example seconds_schema_edge_values :
  Schema.seconds_schema no_float_of_str {[Schema.CONF_SECONDS := VInt 0]}
    = Schema.Valid {[Schema.CONF_SECONDS := VFloat (Finite 0)]}
  /\ Schema.seconds_schema no_float_of_str
       {[Schema.CONF_SECONDS := VFloat (Inf false)]}
     = Schema.Valid {[Schema.CONF_SECONDS := VFloat (Inf false)]}
  /\ Schema.seconds_schema no_float_of_str
       {[Schema.CONF_SECONDS := VFloat NaN]}
     = Schema.Valid {[Schema.CONF_SECONDS := VFloat NaN]}
  /\ Schema.seconds_schema no_float_of_str
       {[Schema.CONF_SECONDS := VInt (2 ^ 53 + 1)]}
     = Schema.Valid
         {[Schema.CONF_SECONDS := VFloat (Finite (inject_Z (2 ^ 53)))]}
  /\ Schema.seconds_schema no_float_of_str
       {[Schema.CONF_SECONDS := VInt (10 ^ 400)]}
     = Schema.Escapes OverflowError
  /\ Schema.seconds_schema no_float_of_str
       {[Schema.CONF_SECONDS := VInt (10 ^ 400); "other" := VNone]}
     = Schema.Escapes OverflowError
  /\ Schema.seconds_schema no_float_of_str
       {[Schema.CONF_SECONDS := VStr "soon"; "other" := VNone]}
     = Schema.Invalid
         {[Schema.CONF_SECONDS := "expected float";
           "other" := "extra keys not allowed"]}.
Proof.
  repeat split; vm_compute; reflexivity.
Qed.

(** ** The two profile handlers *)

Lemma files_written_app (t u : list effect) :
  files_written (t ++ u) = files_written t ++ files_written u.
Proof. apply List.filter_app. Qed.

Section RaisesOnly.
Context (P : exn -> Prop).

Lemma raises_only_ret {A} (a : A) : raises_only P (ret a).
Proof. intros w e. discriminate. Qed.

Lemma raises_only_raise {A} (e : exn) : P e -> raises_only P (@raise A e).
Proof. intros He w e' [= <-]. exact He. Qed.

Lemma raises_only_modify (f : World -> World) : raises_only P (modify f).
Proof. intros w e. discriminate. Qed.

Lemma raises_only_bind {A B} (m : M A) (k : A -> M B) :
  raises_only P m -> (forall a, raises_only P (k a)) ->
  raises_only P (bind m k).
Proof.
  intros Hm Hk w e. unfold bind. specialize (Hm w).
  destruct (m w) as [w1 [e1|a]]; cbn in *.
  - intros [= <-]. now apply Hm.
  - apply Hk.
Qed.

Lemma raises_only_lift {A} (r : exn + A) :
  (forall e, r = inl e -> P e) -> raises_only P (Profiler.lift r).
Proof.
  intros Hr. destruct r as [e|a]; cbn.
  - apply raises_only_raise. now apply Hr.
  - apply raises_only_ret.
Qed.

End RaisesOnly.

Lemma float_of_not_unsupported (float_of_str : string -> option pyfloat)
    (v : pyobj) (e : exn) :
  Schema.float_of float_of_str v = inl e -> not_unsupported e.
Proof.
  destruct v as [|b|n|x|s|x]; cbn; try (intros [= <-]; discriminate).
  - unfold float_of_int. destruct (round_double _);
      intros [= <-]; discriminate.
  - destruct (float_of_str s); intros [= <-]; discriminate.
Qed.

Lemma int_of_not_unsupported (x : pyfloat) (e : exn) :
  int_of x = inl e -> not_unsupported e.
Proof. destruct x; cbn; intros [= <-]; discriminate. Qed.

Ltac not_unsupported_steps :=
  repeat first
    [ apply raises_only_bind; [|intros ?]
    | apply raises_only_ret
    | apply raises_only_modify
    | apply raises_only_raise; discriminate
    | apply raises_only_lift; first [ apply float_of_not_unsupported
                                    | apply int_of_not_unsupported ]
    | match goal with
      | |- raises_only _ (match ?x with _ => _ end) => destruct x
      | |- raises_only _ (if ?x then _ else _) => destruct x
      end ].

Section ProfileHandlers.
Variable float_of_str : string -> option pyfloat.
Variable config_path : string -> string.
Variable runtime : Runtime.

Lemma write_not_unsupported (e : effect) :
  raises_only not_unsupported (Profiler.write runtime e).
Proof.
  intros w e'. unfold Profiler.write.
  destruct (write_fails runtime e w); cbn; [|discriminate].
  intros [= <-]. discriminate.
Qed.

(** C3: on an interpreter the handler takes as lacking heap support
    (3.11 or later) the memory-profile handler raises
    [HomeAssistantError] with the unsupported-environment message and
    leaves the whole host state as it was: no notification, no heap
    profiler constructed, no reference point set, nothing written. *)
Theorem memory_profile_unsupported_raises_first
    (version : version_info) (guppy_importable : bool)
    (call : gmap string pyobj) (w : World) :
  at_least_3_11 version ->
  Profiler._async_generate_memory_profile float_of_str config_path version
    guppy_importable runtime call w
  = (w, inl (HomeAssistantError Profiler.unsupported_message)).
Proof.
  intros H. apply tuple_ge_3_11_iff in H.
  unfold Profiler._async_generate_memory_profile. rewrite H. reflexivity.
Qed.

(** C10: whether the memory-profile handler raises the
    unsupported-environment error depends on the interpreter version
    alone: it does for every version from 3.11 on, and for no version
    below, whether or not [guppy] can be imported. *)
Theorem unsupported_check_is_version_comparison
    (version : version_info) (guppy_importable : bool)
    (call : gmap string pyobj) (w : World) :
  (exists msg,
     snd (Profiler._async_generate_memory_profile float_of_str config_path
            version guppy_importable runtime call w)
     = inl (HomeAssistantError msg))
  <-> at_least_3_11 version.
Proof.
  split.
  - intros [msg Hraise].
    destruct (tuple_ge (as_tuple version) [EInt 3; EInt 11])
      as [[|]|] eqn:Hge.
    + now apply tuple_ge_3_11_iff.
    + exfalso. revert Hraise.
      unfold Profiler._async_generate_memory_profile. rewrite Hge.
      match goal with |- snd (?m w) = _ -> _ =>
        assert (Hro : raises_only not_unsupported m) end.
      { unfold Profiler._write_memory_profile, Profiler.sleep,
          Profiler.wake_up, Profiler.call_data, Profiler.float, Profiler.int,
          Profiler.notification_create, emit.
        not_unsupported_steps; try apply write_not_unsupported.
        intros w0 e. discriminate. }
      intros Hraise. exact (Hro w _ Hraise msg eq_refl).
    + now apply tuple_ge_3_11_total in Hge.
  - intros H. exists Profiler.unsupported_message.
    apply tuple_ge_3_11_iff in H.
    unfold Profiler._async_generate_memory_profile. rewrite H. reflexivity.
Qed.

(** *** The files a handler writes *)

Lemma writes_at_bind {A B} (a1 a2 : list effect) (m : M A) (k : A -> M B)
    (w : World) :
  writes_at a1 m w ->
  (forall a w1, m w = (w1, inr a) -> writes_at a2 (k a) w1) ->
  writes_at (a1 ++ a2) (bind m k) w.
Proof.
  intros (l1 & Ht1 & Hp1 & Hr1) Hk. unfold writes_at, bind.
  destruct (m w) as [w1 [e|a]] eqn:Hm; cbn in *.
  - exists l1. split; [exact Ht1|]. split; [|discriminate].
    now apply prefix_app_r.
  - destruct (Hk a w1 eq_refl) as (l2 & Ht2 & Hp2 & Hr2).
    rewrite (Hr1 a eq_refl) in Ht1. exists (a1 ++ l2).
    split; [rewrite Ht2, Ht1; symmetry; apply app_assoc|].
    split; [now apply prefix_app|].
    intros b Hb. now rewrite (Hr2 b Hb).
Qed.

Lemma writes_at_bind_nil {A B} (l : list effect) (m : M A) (k : A -> M B)
    (w : World) :
  writes_at [] m w ->
  (forall a w1, m w = (w1, inr a) -> writes_at l (k a) w1) ->
  writes_at l (bind m k) w.
Proof. apply (writes_at_bind [] l). Qed.

Lemma writes_at_bind_cons {A B} (e : effect) (l : list effect) (m : M A)
    (k : A -> M B) (w : World) :
  writes_at [e] m w ->
  (forall a w1, m w = (w1, inr a) -> writes_at l (k a) w1) ->
  writes_at (e :: l) (bind m k) w.
Proof. apply (writes_at_bind [e] l). Qed.

Lemma writes_at_bind_last {A B} (l : list effect) (m : M A) (k : A -> M B)
    (w : World) :
  writes_at l m w ->
  (forall a w1, m w = (w1, inr a) -> writes_at [] (k a) w1) ->
  writes_at l (bind m k) w.
Proof.
  intros Hm Hk. rewrite <- (app_nil_r l). now apply writes_at_bind.
Qed.

Lemma writes_at_same_trace {A} (m : M A) (w : World) :
  trace (fst (m w)) = trace w -> writes_at [] m w.
Proof.
  intros H. exists []. rewrite H, app_nil_r.
  split; [reflexivity|]. split; [apply prefix_nil | reflexivity].
Qed.

Lemma writes_at_ret {A} (a : A) (w : World) : writes_at [] (ret a) w.
Proof. now apply writes_at_same_trace. Qed.

Lemma writes_at_raise {A} (e : exn) (w : World) :
  writes_at [] (@raise A e) w.
Proof. now apply writes_at_same_trace. Qed.

Lemma writes_at_lift {A} (r : exn + A) (w : World) :
  writes_at [] (Profiler.lift r) w.
Proof. destruct r; now apply writes_at_same_trace. Qed.

Lemma writes_at_call_data (call : gmap string pyobj) (key : string)
    (w : World) :
  writes_at [] (Profiler.call_data call key) w.
Proof.
  unfold Profiler.call_data. destruct (call !! key);
    now apply writes_at_same_trace.
Qed.

Lemma writes_at_emit (e : effect) (w : World) :
  files_written [e] = [] -> writes_at [] (emit e) w.
Proof.
  intros He. exists []. cbn. rewrite files_written_app, He.
  split; [reflexivity|]. split; [apply prefix_nil | reflexivity].
Qed.

Lemma writes_at_sleep (seconds : pyfloat) (w : World) :
  writes_at [] (Profiler.sleep runtime seconds) w.
Proof.
  unfold Profiler.sleep. apply writes_at_bind_nil.
  - now apply writes_at_emit.
  - intros _ w1 _. unfold Profiler.wake_up.
    destruct seconds as [d|[|]|]; try destruct (sleep_nan runtime);
      now apply writes_at_same_trace.
Qed.

Lemma writes_at_write (e : effect) (w : World) :
  files_written [e] = [e] -> writes_at [e] (Profiler.write runtime e) w.
Proof.
  intros He. unfold writes_at, Profiler.write.
  destruct (write_fails runtime e w).
  - exists []. cbn. rewrite app_nil_r.
    split; [reflexivity|]. split; [apply prefix_nil | discriminate].
  - exists [e]. cbn. rewrite files_written_app, He.
    split; [reflexivity|]. split; reflexivity.
Qed.

Ltac writes_steps :=
  repeat first
    [ apply writes_at_ret
    | apply writes_at_raise
    | apply writes_at_lift
    | apply writes_at_call_data
    | apply writes_at_sleep
    | apply writes_at_emit; reflexivity
    | apply writes_at_write; reflexivity
    | apply writes_at_same_trace; reflexivity
    | match goal with
      | |- writes_at (?e :: _) (bind (Profiler.write _ ?e) _) _ =>
          apply writes_at_bind_cons; [|intros ? ? ?]
      end
    | apply writes_at_bind_nil; [|intros ? ? ?]
    | match goal with
      | |- writes_at _ (if ?x then _ else _) _ => destruct x
      end ].

Lemma generate_profile_writes (call : gmap string pyobj) (w : World)
    (x p : Q) :
  clock w = Finite x ->
  (0 <= x)%Q ->
  float_mul (Finite x) (Finite 1000000) = Finite p ->
  let t := str_of_int (Qfloor p) in
  writes_at
    [DumpStats (config_path ("profile." +:+ t +:+ ".cprof"));
     Callgrind (config_path ("callgrind.out." +:+ t))]
    (Profiler._async_generate_profile float_of_str config_path runtime call)
    w.
Proof.
  intros Hclock Hx Hp t. unfold Profiler._async_generate_profile.
  apply writes_at_bind_nil; [now apply writes_at_same_trace|].
  intros now w1 [= <- <-]. rewrite Hclock.
  unfold Profiler.int. rewrite (start_time_floor x p Hx Hp).
  apply writes_at_bind_nil; [apply writes_at_ret|].
  intros start_time w1 [= <- <-]. fold t.
  unfold Profiler.notification_create, Profiler.float.
  do 6 (apply writes_at_bind_nil; [writes_steps | intros ? ? _]).
  apply writes_at_bind_last; [|intros; writes_steps].
  unfold Profiler._write_profile. writes_steps.
Qed.

Lemma generate_memory_profile_writes (version : version_info)
    (guppy_importable : bool) (call : gmap string pyobj) (w : World)
    (x p : Q) :
  clock w = Finite x ->
  (0 <= x)%Q ->
  float_mul (Finite x) (Finite 1000000) = Finite p ->
  let t := str_of_int (Qfloor p) in
  writes_at
    [HeapDump (config_path ("heap_profile." +:+ t +:+ ".hpy"))]
    (Profiler._async_generate_memory_profile float_of_str config_path
       version guppy_importable runtime call)
    w.
Proof.
  intros Hclock Hx Hp t. unfold Profiler._async_generate_memory_profile.
  destruct (tuple_ge (as_tuple version) [EInt 3; EInt 11]) as [[|]|].
  - exists []. cbn. rewrite app_nil_r.
    split; [reflexivity|]. split; [apply prefix_nil | discriminate].
  - apply writes_at_bind_nil; [writes_steps|]. intros u w1 Hguppy.
    assert (Hw1 : w1 = w)
      by (destruct guppy_importable; [now injection Hguppy|discriminate]).
    clear Hguppy. subst w1.
    apply writes_at_bind_nil; [now apply writes_at_same_trace|].
    intros now w1 [= <- <-]. rewrite Hclock.
    unfold Profiler.int. rewrite (start_time_floor x p Hx Hp).
    apply writes_at_bind_nil; [apply writes_at_ret|].
    intros start_time w1 [= <- <-]. fold t.
    unfold Profiler.notification_create, Profiler.float.
    do 7 (apply writes_at_bind_nil; [writes_steps | intros ? ? _]).
    apply writes_at_bind_last; [|intros; writes_steps].
    unfold Profiler._write_memory_profile. writes_steps.
  - exists []. cbn. rewrite app_nil_r.
    split; [reflexivity|]. split; [apply prefix_nil | discriminate].
Qed.

(** *** A run in which nothing fails *)

Lemma sleep_when_returns (seconds : pyfloat) (w : World) :
  sleep_returns runtime seconds = true ->
  Profiler.sleep runtime seconds w
  = (let w1 := set_trace (trace w ++ [Sleep seconds]) w in
     set_clock (clock_after_sleep runtime w1 seconds) w1, inr tt).
Proof.
  unfold sleep_returns, Profiler.sleep, Profiler.wake_up, bind.
  destruct seconds as [d|[|]|]; try destruct (sleep_nan runtime);
    try discriminate; reflexivity.
Qed.

Lemma sleep_for_ever (w : World) :
  Profiler.sleep runtime (Inf false) w
  = (set_trace (trace w ++ [Sleep (Inf false)]) w, inl NeverReturns).
Proof. reflexivity. Qed.

Lemma write_succeeds (e : effect) (w : World) :
  writes_succeed runtime ->
  Profiler.write runtime e w = (set_trace (trace w ++ [e]) w, inr tt).
Proof. intros H. unfold Profiler.write. rewrite H. reflexivity. Qed.

Lemma call_seconds (call : gmap string pyobj) (seconds : pyfloat)
    (w : World) :
  seconds_of float_of_str call = inr seconds ->
  bind (Profiler.call_data call Profiler.CONF_SECONDS)
    (Profiler.float float_of_str) w = (w, inr seconds).
Proof.
  unfold seconds_of, Profiler.call_data, Profiler.float, bind.
  destruct (call !! Profiler.CONF_SECONDS) as [v|]; [|discriminate].
  cbn. now intros ->.
Qed.

Lemma profile_completes (call : gmap string pyobj) (w : World) (x p : Q)
    (seconds : pyfloat) :
  clock w = Finite x ->
  (0 <= x)%Q ->
  float_mul (Finite x) (Finite 1000000) = Finite p ->
  seconds_of float_of_str call = inr seconds ->
  sleep_returns runtime seconds = true ->
  pyprof2calltree_importable runtime = true ->
  writes_succeed runtime ->
  let t := str_of_int (Qfloor p) in
  let cprofile_path := config_path ("profile." +:+ t +:+ ".cprof") in
  let callgrind_path := config_path ("callgrind.out." +:+ t) in
  exists w',
    Profiler._async_generate_profile float_of_str config_path runtime call w
      = (w', inr tt)
    /\ trace w'
       = trace w
         ++ [ProfilerEnable; Sleep seconds; ProfilerDisable;
             DumpStats cprofile_path; Callgrind callgrind_path]
    /\ notifications w'
       = <["profiler_" +:+ t :=
             ("Profile Complete",
              "Wrote cProfile data to " +:+ cprofile_path
              +:+ " and callgrind data to " +:+ callgrind_path)]>
           (notifications w).
Proof.
  intros Hclock Hx Hp Hsec Hsleep Himport Hwrite t cprofile_path
    callgrind_path.
  unfold Profiler._async_generate_profile, Profiler._write_profile,
    Profiler.call_data, Profiler.float, Profiler.int, bind,
    Profiler.time_time.
  rewrite Hclock, (start_time_floor x p Hx Hp). cbn -[Profiler.sleep Profiler.write].
  revert Hsec. unfold seconds_of.
  destruct (call !! Profiler.CONF_SECONDS) as [v|]; [|discriminate].
  cbn -[Profiler.sleep Profiler.write]. intros ->. cbn -[Profiler.sleep Profiler.write].
  rewrite (sleep_when_returns _ _ Hsleep). cbn -[Profiler.sleep Profiler.write]. rewrite Himport. cbn -[Profiler.sleep Profiler.write].
  rewrite !(write_succeeds _ _ Hwrite). cbn -[Profiler.sleep Profiler.write].
  eexists. split; [reflexivity|]. cbn -[Profiler.sleep Profiler.write]. split.
  - rewrite <- !app_assoc. reflexivity.
  - apply insert_insert_eq.
Qed.

Lemma memory_profile_completes (version : version_info)
    (call : gmap string pyobj) (w : World) (x p : Q) (seconds : pyfloat) :
  ~ at_least_3_11 version ->
  clock w = Finite x ->
  (0 <= x)%Q ->
  float_mul (Finite x) (Finite 1000000) = Finite p ->
  seconds_of float_of_str call = inr seconds ->
  sleep_returns runtime seconds = true ->
  writes_succeed runtime ->
  let t := str_of_int (Qfloor p) in
  let heap_path := config_path ("heap_profile." +:+ t +:+ ".hpy") in
  exists w',
    Profiler._async_generate_memory_profile float_of_str config_path
      version true runtime call w = (w', inr tt)
    /\ trace w'
       = trace w
         ++ [HpyNew; HpySetref; Sleep seconds; HpyHeap; HeapDump heap_path]
    /\ notifications w'
       = <["memory_profiler_" +:+ t :=
             ("Profile Complete",
              "Wrote heapy memory profile to " +:+ heap_path)]>
           (notifications w).
Proof.
  intros Hver Hclock Hx Hp Hsec Hsleep Hwrite t heap_path.
  unfold Profiler._async_generate_memory_profile.
  rewrite (tuple_ge_below_3_11 version Hver).
  unfold Profiler._write_memory_profile, Profiler.call_data, Profiler.float,
    Profiler.int, bind, Profiler.time_time.
  cbn -[Profiler.sleep Profiler.write]. rewrite Hclock, (start_time_floor x p Hx Hp). cbn -[Profiler.sleep Profiler.write].
  revert Hsec. unfold seconds_of.
  destruct (call !! Profiler.CONF_SECONDS) as [v|]; [|discriminate].
  cbn -[Profiler.sleep Profiler.write]. intros ->. cbn -[Profiler.sleep Profiler.write].
  rewrite (sleep_when_returns _ _ Hsleep). cbn -[Profiler.sleep Profiler.write].
  rewrite !(write_succeeds _ _ Hwrite). cbn -[Profiler.sleep Profiler.write].
  eexists. split; [reflexivity|]. cbn -[Profiler.sleep Profiler.write]. split.
  - rewrite <- !app_assoc. reflexivity.
  - apply insert_insert_eq.
Qed.

(** C9 (amended): with the clock at or after the epoch, every file a
    profile handler writes is under the configuration directory and is
    named by the start time [t]: the CPU profile writes
    [profile.<t>.cprof] and then [callgrind.out.<t>], the memory profile
    [heap_profile.<t>.hpy], and nothing else, whatever happens; a
    handler that returns has written exactly these, and it does return
    when [seconds] is there, [float] converts it, the sleep ends, the
    libraries are there and the writes succeed.  [t] is
    [int(time.time() * 1000000)]: the floor of the product as doubles
    make it, [p], which is the double nearest to the exact product. *)
Theorem output_files_named_by_start_time
    (version : version_info) (guppy_importable : bool)
    (call : gmap string pyobj) (w : World) (x p : Q) :
  clock w = Finite x ->
  (0 <= x)%Q ->
  float_mul (Finite x) (Finite 1000000) = Finite p ->
  let t := str_of_int (Qfloor p) in
  let cpu_files :=
    [DumpStats (config_path ("profile." +:+ t +:+ ".cprof"));
     Callgrind (config_path ("callgrind.out." +:+ t))] in
  let heap_files :=
    [HeapDump (config_path ("heap_profile." +:+ t +:+ ".hpy"))] in
  let cpu :=
    Profiler._async_generate_profile float_of_str config_path runtime call
      w in
  let mem :=
    Profiler._async_generate_memory_profile float_of_str config_path
      version guppy_importable runtime call w in
  (exists written,
     files_written (trace (fst cpu)) = files_written (trace w) ++ written
     /\ written `prefix_of` cpu_files
     /\ (snd cpu = inr tt -> written = cpu_files))
  /\ (exists written,
        files_written (trace (fst mem)) = files_written (trace w) ++ written
        /\ written `prefix_of` heap_files
        /\ (snd mem = inr tt -> written = heap_files))
  /\ (forall seconds,
        seconds_of float_of_str call = inr seconds ->
        sleep_returns runtime seconds = true ->
        writes_succeed runtime ->
        (pyprof2calltree_importable runtime = true -> snd cpu = inr tt)
        /\ (~ at_least_3_11 version -> guppy_importable = true ->
            snd mem = inr tt)).
Proof.
  intros Hclock Hx Hp t cpu_files heap_files cpu mem.
  split; [|split].
  - destruct (generate_profile_writes call w x p Hclock Hx Hp)
      as (written & Ht & Hpre & Hret).
    exists written. split; [exact Ht|]. split; [exact Hpre|].
    intros Hr. exact (Hret tt Hr).
  - destruct (generate_memory_profile_writes version guppy_importable call w
                x p Hclock Hx Hp) as (written & Ht & Hpre & Hret).
    exists written. split; [exact Ht|]. split; [exact Hpre|].
    intros Hr. exact (Hret tt Hr).
  - intros seconds Hsec Hsleep Hwrite. split.
    + intros Himport.
      destruct (profile_completes call w x p seconds Hclock Hx Hp Hsec
                  Hsleep Himport Hwrite) as (w' & Hrun & _).
      unfold cpu. now rewrite Hrun.
    + intros Hver ->.
      destruct (memory_profile_completes version call w x p seconds Hver
                  Hclock Hx Hp Hsec Hsleep Hwrite) as (w' & Hrun & _).
      unfold mem. now rewrite Hrun.
Qed.

End ProfileHandlers.

Lemma memory_profile_unsupported_on_3_11 :
  at_least_3_11 python_3_11
  /\ Profiler._async_generate_memory_profile no_float_of_str under_config
       python_3_11 true sound_runtime call_60_seconds fresh_world
     = (fresh_world, inl (HomeAssistantError Profiler.unsupported_message)).
Proof.
  assert (H : at_least_3_11 python_3_11) by (right; cbn; lia).
  split; [exact H|].
  exact (memory_profile_unsupported_raises_first no_float_of_str under_config
           sound_runtime python_3_11 true call_60_seconds fresh_world H).
Defined.

Example unsupported_on_3_12_and_not_on_3_10 :
  snd (Profiler._async_generate_memory_profile no_float_of_str under_config
         python_3_12 true sound_runtime call_60_seconds fresh_world)
    = inl (HomeAssistantError Profiler.unsupported_message)
  /\ snd (Profiler._async_generate_memory_profile no_float_of_str
            under_config python_3_10 false sound_runtime call_60_seconds
            fresh_world)
     = inl (ImportError "guppy")
  /\ snd (Profiler._async_generate_memory_profile no_float_of_str
            under_config python_3_10 true sound_runtime call_60_seconds
            fresh_world)
     = inr tt.
Proof. repeat split; vm_compute; reflexivity. Qed.

Lemma python_3_10_is_below_3_11 : ~ at_least_3_11 python_3_10.
Proof. unfold at_least_3_11. cbn. lia. Qed.

Lemma sound_runtime_writes : writes_succeed sound_runtime.
Proof. intros e w. reflexivity. Qed.

Lemma output_files_of_a_run :
  clock fresh_world = Finite (6800000001 # 4)
  /\ (0 <= 6800000001 # 4)%Q
  /\ float_mul (Finite (6800000001 # 4)) (Finite 1000000)
     = Finite 1700000000250000
  /\ (exists w',
        Profiler._async_generate_profile no_float_of_str under_config
          sound_runtime call_60_seconds fresh_world = (w', inr tt)
        /\ files_written (trace w')
           = [DumpStats "/config/profile.1700000000250000.cprof";
              Callgrind "/config/callgrind.out.1700000000250000"])
  /\ (exists w',
        Profiler._async_generate_memory_profile no_float_of_str under_config
          python_3_10 true sound_runtime call_60_seconds fresh_world
        = (w', inr tt)
        /\ files_written (trace w')
           = [HeapDump "/config/heap_profile.1700000000250000.hpy"]).
Proof.
  assert (Hclock : clock fresh_world = Finite (6800000001 # 4))
    by reflexivity.
  assert (Hx : (0 <= 6800000001 # 4)%Q) by discriminate.
  assert (Hp : float_mul (Finite (6800000001 # 4)) (Finite 1000000)
               = Finite 1700000000250000) by (vm_compute; reflexivity).
  pose proof (output_files_named_by_start_time no_float_of_str under_config
                sound_runtime python_3_10 true call_60_seconds fresh_world
                _ _ Hclock Hx Hp) as H.
  cbv zeta in H.
  set (cpu := Profiler._async_generate_profile no_float_of_str under_config
                sound_runtime call_60_seconds fresh_world) in *.
  set (mem := Profiler._async_generate_memory_profile no_float_of_str
                under_config python_3_10 true sound_runtime call_60_seconds
                fresh_world) in *.
  destruct H
    as ((wcpu & Hcpu & _ & Hcpu_all) & (wmem & Hmem & _ & Hmem_all) & Hret).
  destruct (Hret (Finite 60) eq_refl eq_refl sound_runtime_writes)
    as [Hcpu_ret Hmem_ret].
  specialize (Hcpu_ret eq_refl).
  specialize (Hmem_ret python_3_10_is_below_3_11 eq_refl).
  split; [exact Hclock|]. split; [exact Hx|]. split; [exact Hp|]. split.
  - exists (fst cpu). split.
    + rewrite <- Hcpu_ret. apply surjective_pairing.
    + rewrite Hcpu, (Hcpu_all Hcpu_ret). reflexivity.
  - exists (fst mem). split.
    + rewrite <- Hmem_ret. apply surjective_pairing.
    + rewrite Hmem, (Hmem_all Hmem_ret). reflexivity.
Defined.

(** C9 (as stated) fails: the start time is not the floor of the clock
    reading times 1000000.  At 1700000000 + 2^-20 seconds, the double
    next to 1700000000.000001, the exact product has floor
    1700000000000000, while the product of the doubles is
    1700000000000001.0 and that is the number in the file names. *)
Lemma start_time_is_not_the_exact_floor :
  ~ (forall (w : World) (x : Q),
       clock w = Finite x -> (0 <= x)%Q ->
       let t := str_of_int (Qfloor (x * 1000000)) in
       files_written
         (trace
            (fst (Profiler._async_generate_profile no_float_of_str
                    under_config sound_runtime call_60_seconds w)))
       = files_written (trace w)
         ++ [DumpStats (under_config ("profile." +:+ t +:+ ".cprof"));
             Callgrind (under_config ("callgrind.out." +:+ t))]).
Proof.
  intros H.
  specialize (H (at_time (Finite (1782579200000001 # 1048576)) fresh_world)
                (1782579200000001 # 1048576) eq_refl).
  assert (Hx : (0 <= 1782579200000001 # 1048576)%Q) by discriminate.
  specialize (H Hx). vm_compute in H. discriminate H.
Qed.

(** ** Stopping growth logging *)

(** C6: with no subscription stored, stop returns without raising and
    the host state is what it was; with subscription [id] stored, stop
    returns, [id] is no longer an active listener, the state no longer
    stores a subscription, the notification is dismissed, and nothing
    else changes. *)
Theorem stop_log_objects_effect (w : World) :
  match domain_data w !! Profiler.LOG_INTERVAL_SUB with
  | None => Profiler._async_stop_log_objects w = (w, inr tt)
  | Some id =>
      exists w',
        Profiler._async_stop_log_objects w = (w', inr tt)
        /\ listeners w' = delete id (listeners w)
        /\ domain_data w' = delete Profiler.LOG_INTERVAL_SUB (domain_data w)
        /\ notifications w'
           = delete "profile_object_logging" (notifications w)
        /\ listeners w' !! id = None
        /\ domain_data w' !! Profiler.LOG_INTERVAL_SUB = None
        /\ notifications w' !! "profile_object_logging" = None
        /\ has_domain w' = has_domain w /\ services w' = services w
        /\ next_listener w' = next_listener w /\ clock w' = clock w
        /\ arepr w' = arepr w /\ scheduled w' = scheduled w
        /\ trace w' = trace w
  end.
Proof.
  unfold Profiler._async_stop_log_objects, bind, get.
  destruct (domain_data w !! Profiler.LOG_INTERVAL_SUB) as [id|] eqn:Hsub.
  - eexists. split; [reflexivity|]. cbn.
    repeat split; apply lookup_delete_eq.
  - reflexivity.
Qed.

(** ** The scheduler dump *)

Section SchedulerDump.
Variable emit_raises : logrecord -> Repr -> bool.

Lemma critical_arepr (fmt : string) (args : list logarg) (w : World) :
  arepr (fst (Profiler.critical emit_raises fmt args w)) = arepr w.
Proof.
  unfold Profiler.critical.
  destruct (emit_raises _ _); reflexivity.
Qed.

Lemma log_handle_arepr (h : Handle) (w : World) :
  arepr (fst (log_handle emit_raises h w)) = arepr w.
Proof.
  unfold log_handle. destruct (negb (cancelled h)); [|reflexivity].
  apply critical_arepr.
Qed.

Lemma for_each_arepr (hs : list Handle) (w : World) :
  arepr (fst (for_each hs (log_handle emit_raises) w)) = arepr w.
Proof.
  revert w. induction hs as [|h hs IH]; intros w; [reflexivity|].
  cbn. unfold bind.
  destruct (log_handle emit_raises h w) as [w1 [e|[]]] eqn:Hh.
  - cbn. change w1 with (fst (w1, @inl exn unit e)). rewrite <- Hh.
    apply log_handle_arepr.
  - rewrite IH. change w1 with (fst (w1, @inr exn unit tt)). rewrite <- Hh.
    apply log_handle_arepr.
Qed.

Lemma log_handle_outcome (h : Handle) (w : World) :
  snd (log_handle emit_raises h w) = inr tt
  \/ snd (log_handle emit_raises h w) = inl LoggingError.
Proof.
  unfold log_handle, Profiler.critical.
  destruct (negb (cancelled h)); [|now left].
  destruct (emit_raises _ _); [now right | now left].
Qed.

Lemma for_each_outcome (hs : list Handle) (w : World) :
  snd (for_each hs (log_handle emit_raises) w) = inr tt
  \/ snd (for_each hs (log_handle emit_raises) w) = inl LoggingError.
Proof.
  revert w. induction hs as [|h hs IH]; intros w; [now left|].
  cbn [for_each]. unfold bind.
  destruct (log_handle_outcome h w) as [Hh|Hh];
    destruct (log_handle emit_raises h w) as [w1 r]; cbn in Hh; subst r.
  - apply IH.
  - now right.
Qed.

Lemma restore_limits (r : Repr) :
  set_maxother (maxother r)
    (set_maxstring (maxstring r) (set_maxother 300 (set_maxstring 300 r)))
  = r.
Proof. destruct r; reflexivity. Qed.

(** C5: whatever the logger does with each record, return or raise,
    when the scheduler-dump handler is left [reprlib.aRepr] is what it
    was on entry: [maxstring] and [maxother] have their original values
    and no other limit has changed. *)
Theorem dump_scheduled_restores_limits (w : World) :
  arepr (fst (Profiler._async_dump_scheduled emit_raises w)) = arepr w
  /\ (forall e w',
        Profiler._async_dump_scheduled emit_raises w = (w', inl e) ->
        maxstring (arepr w') = maxstring (arepr w)
        /\ maxother (arepr w') = maxother (arepr w))
  /\ (forall w',
        Profiler._async_dump_scheduled emit_raises w = (w', inr tt) ->
        maxstring (arepr w') = maxstring (arepr w)
        /\ maxother (arepr w') = maxother (arepr w)).
Proof.
  assert (H : arepr (fst (Profiler._async_dump_scheduled emit_raises w))
              = arepr w).
  { unfold Profiler._async_dump_scheduled, bind, get, modify, finally. cbn.
    fold (log_handle emit_raises).
    match goal with
    | |- context [for_each ?hs (log_handle emit_raises) ?w1] =>
        pose proof (for_each_arepr hs w1) as Hloop;
        pose proof (for_each_outcome hs w1) as Hout;
        destruct (for_each hs (log_handle emit_raises) w1) as [w2 r]
    end.
    cbn in Hloop, Hout.
    destruct Hout as [-> | ->]; cbn; rewrite Hloop; cbn;
      apply restore_limits. }
  split; [exact H|].
  split; intros; rewrite <- H;
    match goal with Heq : _ = (_, _) |- _ => rewrite Heq end; split; reflexivity.
Qed.

End SchedulerDump.

(** A dump during which the logger, called under the widened limits,
    raises: the record before the failure is logged, the error is
    passed on, the limits are back. *)
Example dump_scheduled_raising_midway :
  let w := with_scheduled pending_and_cancelled fresh_world in
  exists w',
    Profiler._async_dump_scheduled raises_on_third w = (w', inl LoggingError)
    /\ trace w' = [scheduled_record {| handle_id := 1; cancelled := false |}]
    /\ arepr w' = default_repr.
Proof. cbv zeta. eexists. split; [vm_compute; reflexivity|]. split; reflexivity. Qed.

(** ** What the scheduler dump logs *)

Section SchedulerDumpLog.
Variable emit_raises : logrecord -> Repr -> bool.
Hypothesis logger_returns : forall r limits, emit_raises r limits = false.

Lemma for_each_logs (hs : list Handle) (w : World) :
  exists w',
    for_each hs (log_handle emit_raises) w = (w', inr tt)
    /\ trace w'
       = trace w
         ++ map scheduled_record
              (List.filter (fun h => negb (cancelled h)) hs)
    /\ arepr w' = arepr w.
Proof.
  revert w. induction hs as [|h hs IH]; intros w.
  - exists w. cbn. rewrite app_nil_r. auto.
  - cbn [for_each]. unfold bind, log_handle at 1.
    destruct (cancelled h) eqn:Hc; cbn [negb].
    + cbn. rewrite Hc. cbn. apply IH.
    + unfold Profiler.critical. rewrite logger_returns. cbn.
      match goal with |- context [for_each hs _ ?w1] =>
        destruct (IH w1) as (w' & Hrun & Htrace & Hrepr) end.
      exists w'. rewrite Hrun. split; [reflexivity|].
      rewrite Hc. cbn. rewrite Htrace, Hrepr. cbn.
      rewrite <- app_assoc. auto.
Qed.

(** C7 (amended): when the logger does not raise, the handler returns
    and has logged one record for each handle of [_scheduled] that is
    not cancelled, in the queue's order, and nothing for a cancelled
    one. *)
Theorem dump_scheduled_logs_uncancelled (w : World) :
  exists w',
    Profiler._async_dump_scheduled emit_raises w = (w', inr tt)
    /\ trace w'
       = trace w
         ++ map scheduled_record
              (List.filter (fun h => negb (cancelled h)) (scheduled w)).
Proof.
  unfold Profiler._async_dump_scheduled, bind, get, modify, finally. cbn.
  fold (log_handle emit_raises).
  match goal with |- context [for_each ?hs _ ?w1] =>
    destruct (for_each_logs hs w1) as (w' & Hrun & Htrace & _) end.
  rewrite Hrun. eexists. split; [reflexivity|]. cbn. exact Htrace.
Qed.

End SchedulerDumpLog.

Lemma dump_scheduled_logs_two_of_three :
  (forall r limits, never_raises r limits = false)
  /\ exists w',
       Profiler._async_dump_scheduled never_raises
         (with_scheduled pending_and_cancelled fresh_world) = (w', inr tt)
       /\ trace w'
          = [scheduled_record {| handle_id := 1; cancelled := false |};
             scheduled_record {| handle_id := 3; cancelled := false |}].
Proof.
  assert (H : forall r limits, never_raises r limits = false)
    by (intros; reflexivity).
  split; [exact H|].
  destruct (dump_scheduled_logs_uncancelled never_raises H
              (with_scheduled pending_and_cancelled fresh_world))
    as (w' & Hrun & Htrace).
  exists w'. split; [exact Hrun|]. rewrite Htrace. reflexivity.
Defined.

(** C7 (as stated) fails: a cancelled handle is still in the queue and
    the handler logs nothing for it. *)
Lemma dump_scheduled_skips_cancelled :
  ~ (forall w : World,
       trace (fst (Profiler._async_dump_scheduled never_raises w))
       = trace w ++ map scheduled_record (scheduled w)).
Proof.
  intros H.
  specialize
    (H (with_scheduled [{| handle_id := 7; cancelled := true |}] fresh_world)).
  discriminate H.
Qed.

(** ** The object dump *)

Section ObjectDump.
Variable by_type : string -> list LiveObject.
Variable emit_raises : logrecord -> Repr -> bool.

Lemma safe_repr_returns (obj : LiveObject) (s : string) (w : World) :
  representation obj = Some s -> Profiler._safe_repr obj w = (w, inr s).
Proof.
  unfold representation, Profiler._safe_repr.
  destruct (repr_of obj), (type_str obj); try discriminate;
    now intros [= ->].
Qed.

Lemma safe_repr_raises (obj : LiveObject) (w : World) :
  representation obj = None ->
  exists e,
    Profiler._safe_repr obj w = (w, inl e)
    /\ (e = UserException \/ exists name, e = BaseException name).
Proof.
  unfold representation, Profiler._safe_repr.
  destruct (repr_of obj), (type_str obj); try discriminate; intros _;
    eexists; (split; [reflexivity|]); eauto.
Qed.

Lemma comprehension_representation (objs : list LiveObject)
    (reprs : list string) (w : World) :
  Forall2 (fun obj s => representation obj = Some s) objs reprs ->
  comprehension objs Profiler._safe_repr w = (w, inr reprs).
Proof.
  induction 1 as [|obj s objs reprs Hobj _ IH]; [reflexivity|].
  cbn [comprehension]. unfold bind.
  rewrite (safe_repr_returns _ _ _ Hobj), IH. reflexivity.
Qed.

Lemma comprehension_aborts (objs : list LiveObject) (w : World) :
  Exists (fun obj => representation obj = None) objs ->
  exists e,
    comprehension objs Profiler._safe_repr w = (w, inl e)
    /\ (e = UserException \/ exists name, e = BaseException name).
Proof.
  induction objs as [|obj objs IH]; intros Hex.
  - now apply Exists_nil in Hex.
  - cbn [comprehension]. unfold bind.
    destruct (representation obj) as [s|] eqn:Hobj.
    + rewrite (safe_repr_returns _ _ _ Hobj).
      apply Exists_cons in Hex as [Hhead|Htail]; [congruence|].
      destruct (IH Htail) as (e & -> & He). eauto.
    + destruct (safe_repr_raises obj w Hobj) as (e & -> & He). eauto.
Qed.

(** C4 (amended): the dump logs one entry per live instance of the
    type, in order, when every instance has one: its [repr] when that
    returns, and the placeholder naming its type when its [repr] raises
    an [Exception] and the type can be formatted.  Then (the logger not
    raising) the handler returns, the record is logged and the
    completion is notified.  An instance without an entry, because its
    [repr] raises outside [Exception] or because formatting its type
    raises, is not caught: the handler raises, with nothing logged and
    the host state as it was. *)
Theorem dump_log_objects_survives_exceptions
    (call : gmap string pyobj) (obj_type : string) (w : World) :
  call !! Profiler.CONF_TYPE = Some (VStr obj_type) ->
  (forall reprs,
     Forall2 (fun obj s => representation obj = Some s)
       (by_type obj_type) reprs ->
     (forall r limits, emit_raises r limits = false) ->
     exists w',
       Profiler._dump_log_objects by_type emit_raises call w = (w', inr tt)
       /\ trace w' = trace w ++ [dump_record obj_type reprs]
       /\ is_Some (notifications w' !! "profile_object_dump"))
  /\ (Exists (fun obj => representation obj = None) (by_type obj_type) ->
      exists e,
        Profiler._dump_log_objects by_type emit_raises call w = (w, inl e)
        /\ (e = UserException \/ exists name, e = BaseException name)).
Proof.
  intros Hcall.
  unfold Profiler._dump_log_objects, Profiler.call_data, bind.
  rewrite Hcall. cbn. split.
  - intros reprs Hobjs Hlog.
    rewrite (comprehension_representation _ _ _ Hobjs).
    unfold Profiler.critical. rewrite Hlog. cbn.
    eexists. split; [reflexivity|]. cbn. split; [reflexivity|].
    rewrite lookup_insert_eq. eauto.
  - intros Hex.
    destruct (comprehension_aborts _ w Hex) as (e & -> & He). eauto.
Qed.

End ObjectDump.

Lemma dump_of_three_timers :
  call_dump_timers !! Profiler.CONF_TYPE = Some (VStr "Timer")
  /\ (exists w',
        Profiler._dump_log_objects timers never_raises call_dump_timers
          fresh_world = (w', inr tt)
        /\ trace w'
           = [dump_record "Timer"
                ["<Timer 1>"; "Failed to serialize <class 'app.Timer'>";
                 "<Timer 1>"]])
  /\ (exists e,
        Profiler._dump_log_objects (fun _ => [printable; unformattable])
          never_raises call_dump_timers fresh_world = (fresh_world, inl e)).
Proof.
  assert (Hcall : call_dump_timers !! Profiler.CONF_TYPE = Some (VStr "Timer"))
    by apply lookup_singleton_eq.
  split; [exact Hcall|]. split.
  - destruct (dump_log_objects_survives_exceptions timers never_raises
                call_dump_timers "Timer" fresh_world Hcall) as [Hlogs _].
    destruct (Hlogs ["<Timer 1>"; "Failed to serialize <class 'app.Timer'>";
                     "<Timer 1>"])
      as (w' & Hrun & Htrace & _).
    + repeat constructor.
    + reflexivity.
    + exists w'. split; [exact Hrun | exact Htrace].
  - destruct (dump_log_objects_survives_exceptions
                (fun _ => [printable; unformattable]) never_raises
                call_dump_timers "Timer" fresh_world Hcall) as [_ Haborts].
    destruct Haborts as (e & Hrun & _).
    + apply Exists_cons_tl, Exists_cons_hd. reflexivity.
    + exists e. exact Hrun.
Defined.

(** C4 (as stated) fails: one instance whose [repr] raises
    [KeyboardInterrupt] aborts the dump, and the instances whose [repr]
    returns are not logged either. *)
Lemma dump_log_objects_aborted_by_base_exception :
  ~ (forall (by_type : string -> list LiveObject)
            (call : gmap string pyobj) (obj_type : string) (w : World),
       call !! Profiler.CONF_TYPE = Some (VStr obj_type) ->
       exists w',
         Profiler._dump_log_objects by_type never_raises call w
           = (w', inr tt)).
Proof.
  intros H.
  destruct (H (fun _ => [printable; interrupting; unprintable])
              {[Profiler.CONF_TYPE := VStr "Timer"]} "Timer" fresh_world)
    as (w' & Hrun).
  - apply lookup_singleton_eq.
  - revert Hrun.
    unfold Profiler._dump_log_objects, Profiler.call_data, bind.
    rewrite lookup_singleton_eq. cbn. discriminate.
Qed.

(** The placeholder is not safe either: an instance whose [repr] raises
    and whose type cannot be formatted aborts the dump with the
    exception of the type. *)
Example dump_log_objects_aborted_by_the_placeholder :
  Profiler._dump_log_objects (fun _ => [printable; unformattable; printable])
    never_raises call_dump_timers fresh_world
  = (fresh_world, inl UserException).
Proof. vm_compute. reflexivity. Qed.

(** ** The growth-logging subscription *)

Lemma stored_only_size (w : World) :
  stored_only w -> size (listeners w) <= 1.
Proof.
  intros H.
  destruct (domain_data w !! Profiler.LOG_INTERVAL_SUB) as [id|] eqn:Hsub.
  - assert (Hother : forall j, j <> id -> listeners w !! j = None).
    { intros j Hj. destruct (listeners w !! j) eqn:Hl; [|reflexivity].
      assert (Some id = Some j) as [= ->]
        by (rewrite <- Hsub; apply H; rewrite Hl; eauto).
      contradiction. }
    destruct (listeners w !! id) as [v|] eqn:Hid.
    + replace (listeners w) with ({[id := v]} : gmap nat pyobj).
      * rewrite map_size_singleton. lia.
      * apply map_eq. intros j. destruct (decide (j = id)) as [->|Hj].
        -- now rewrite lookup_singleton_eq.
        -- rewrite lookup_singleton_ne by congruence. now rewrite Hother.
    + replace (listeners w) with (∅ : gmap nat pyobj).
      * rewrite map_size_empty. lia.
      * apply map_eq. intros j. rewrite lookup_empty.
        destruct (decide (j = id)) as [->|Hj]; [now rewrite Hid|].
        now rewrite Hother.
  - replace (listeners w) with (∅ : gmap nat pyobj).
    + rewrite map_size_empty. lia.
    + apply map_eq. intros j. rewrite lookup_empty.
      destruct (listeners w !! j) eqn:Hl; [|reflexivity].
      assert (None = Some j) by (rewrite <- Hsub; apply H; rewrite Hl; eauto).
      discriminate.
Qed.

Lemma stored_only_none_active (w : World) :
  listeners w = ∅ -> stored_only w.
Proof. intros H id [v Hv]. rewrite H, lookup_empty in Hv. discriminate. Qed.

Lemma begin_cancels (w : World) :
  stored_only w ->
  exists w1,
    Profiler.start_log_objects_begin w = (w1, inr tt)
    /\ listeners w1 = ∅
    /\ domain_data w1 = domain_data w
    /\ next_listener w1 = next_listener w.
Proof.
  intros H. unfold Profiler.start_log_objects_begin, bind, get. cbn.
  destruct (domain_data w !! Profiler.LOG_INTERVAL_SUB) as [id|] eqn:Hsub;
    cbn; eexists; (split; [reflexivity|]); cbn;
    (split; [|split; reflexivity]); apply map_eq; intros j;
    rewrite lookup_empty.
  - destruct (decide (j = id)) as [->|Hj]; [apply lookup_delete_eq|].
    rewrite lookup_delete_ne by congruence.
    destruct (listeners w !! j) eqn:Hl; [|reflexivity].
    assert (Some id = Some j) as [= ->]
      by (rewrite <- Hsub; apply H; rewrite Hl; eauto).
    contradiction.
  - destruct (listeners w !! j) eqn:Hl; [|reflexivity].
    assert (None = Some j) by (rewrite <- Hsub; apply H; rewrite Hl; eauto).
    discriminate.
Qed.

Section Subscription.
Variable DOMAIN : string.
Variable emit_raises : logrecord -> Repr -> bool.

Lemma log_objects_frame (w : World) :
  listeners (fst (Profiler._log_objects emit_raises w)) = listeners w
  /\ domain_data (fst (Profiler._log_objects emit_raises w)) = domain_data w
  /\ next_listener (fst (Profiler._log_objects emit_raises w))
     = next_listener w.
Proof.
  unfold Profiler._log_objects, Profiler.critical.
  destruct (emit_raises _ _); cbn; auto.
Qed.

Lemma stored_only_installed (w : World) (id : nat) (interval : pyobj) :
  listeners w = {[id := interval]} ->
  domain_data w !! Profiler.LOG_INTERVAL_SUB = Some id ->
  stored_only w.
Proof.
  intros Hl Hd j [v Hv]. rewrite Hl in Hv.
  apply lookup_singleton_Some in Hv as [<- _]. exact Hd.
Qed.

(** A whole start: the invariant holds where it stops, and when it
    returns the one active listener is the new one, which is stored. *)
Lemma start_installs (call : gmap string pyobj) (w : World) :
  stored_only w ->
  stored_only (fst (Profiler._async_start_log_objects emit_raises call w))
  /\ forall w',
       Profiler._async_start_log_objects emit_raises call w = (w', inr tt) ->
       exists interval,
         call !! Profiler.CONF_SCAN_INTERVAL = Some interval
         /\ listeners w' = {[next_listener w := interval]}
         /\ domain_data w' !! Profiler.LOG_INTERVAL_SUB
            = Some (next_listener w).
Proof.
  intros H. destruct (begin_cancels w H) as (w1 & Hrun & Hl & Hd & Hn).
  unfold Profiler._async_start_log_objects, bind at 1 3. rewrite Hrun.
  destruct (log_objects_frame w1) as (Hl2 & Hd2 & Hn2).
  unfold bind at 1 2.
  destruct (Profiler._log_objects emit_raises w1) as [w2 [e|[]]];
    cbn in Hl2, Hd2, Hn2.
  - split; [|discriminate]. cbn.
    apply stored_only_none_active. congruence.
  - unfold Profiler.start_log_objects_end, Profiler.call_data, bind.
    destruct (call !! Profiler.CONF_SCAN_INTERVAL) as [interval|]; cbn.
    + assert (Hnew : <[next_listener w2 := interval]> (listeners w2)
                     = {[next_listener w := interval]}).
      { rewrite Hl2, Hl, Hn2, Hn. reflexivity. }
      split.
      * apply (stored_only_installed _ (next_listener w) interval); cbn.
        -- exact Hnew.
        -- rewrite Hn2, Hn. apply lookup_insert_eq.
      * intros w' [= <-]. exists interval. cbn.
        split; [reflexivity|]. split; [exact Hnew|].
        rewrite Hn2, Hn. apply lookup_insert_eq.
    + split; [|discriminate].
      apply stored_only_none_active. congruence.
Qed.

Lemma stop_keeps_stored_only (w : World) :
  stored_only w -> stored_only (fst (Profiler._async_stop_log_objects w)).
Proof.
  intros H. unfold Profiler._async_stop_log_objects, bind, get. cbn.
  destruct (domain_data w !! Profiler.LOG_INTERVAL_SUB) as [id|] eqn:Hsub;
    cbn; [|exact H].
  intros j [v Hv]. cbn in *. exfalso.
  apply lookup_delete_Some in Hv as [Hne Hv].
  assert (Some id = Some j) as [= ->]
    by (rewrite <- Hsub; apply H; rewrite Hv; eauto).
  contradiction.
Qed.

(** Unload: the invariant holds afterwards, and on a set-up installation
    it returns with no listener active, the state dropped from the host
    and the services removed. *)
Lemma unload_cancels (w : World) :
  stored_only w ->
  stored_only (fst (Profiler.async_unload_entry DOMAIN w))
  /\ (has_domain w = true ->
      exists w',
        Profiler.async_unload_entry DOMAIN w = (w', inr true)
        /\ listeners w' = ∅
        /\ has_domain w' = false
        /\ services w' = services w ∖ list_to_set Profiler.SERVICES).
Proof.
  intros H. unfold Profiler.async_unload_entry, bind, get, modify. cbn.
  destruct (has_domain w) eqn:Hdom; cbn.
  - assert (Hnone : match domain_data w !! Profiler.LOG_INTERVAL_SUB with
                    | Some id => delete id (listeners w)
                    | None => listeners w
                    end = ∅).
    { apply map_eq. intros j. rewrite lookup_empty.
      destruct (domain_data w !! Profiler.LOG_INTERVAL_SUB) as [id|] eqn:Hsub.
      - destruct (decide (j = id)) as [->|Hj]; [apply lookup_delete_eq|].
        rewrite lookup_delete_ne by congruence.
        destruct (listeners w !! j) eqn:Hl; [|reflexivity].
        assert (Some id = Some j) as [= ->]
          by (rewrite <- Hsub; apply H; rewrite Hl; eauto).
        contradiction.
      - destruct (listeners w !! j) eqn:Hl; [|reflexivity].
        assert (None = Some j)
          by (rewrite <- Hsub; apply H; rewrite Hl; eauto).
        discriminate. }
    destruct (domain_data w !! Profiler.LOG_INTERVAL_SUB) as [id|]; cbn;
      (split; [apply stored_only_none_active; exact Hnone|]);
      intros _; eexists; (split; [reflexivity|]); cbn; auto.
  - split; [exact H | discriminate].
Qed.

Lemma exec_keeps_stored_only (o : op) (w : World) :
  stored_only w -> stored_only (exec DOMAIN emit_raises o w).
Proof.
  intros H. destruct o as [call| |]; unfold exec, handler.
  - now apply start_installs.
  - now apply stop_keeps_stored_only.
  - unfold bind.
    pose proof (proj1 (unload_cancels w H)) as Hu.
    destruct (Profiler.async_unload_entry DOMAIN w) as [w' [e|b]]; exact Hu.
Qed.

Lemma history_stored_only (ops : list op) (w : World) :
  stored_only w -> Forall stored_only (history DOMAIN emit_raises ops w).
Proof.
  revert w. induction ops as [|o ops IH]; intros w H; cbn [history].
  - repeat constructor. exact H.
  - constructor; [exact H|]. apply Forall_app. split.
    + destruct o; cbn [midway]; [|constructor..].
      constructor; [|constructor].
      destruct (begin_cancels w H) as (w1 & Hrun & Hl & _).
      rewrite Hrun. now apply stored_only_none_active.
    + apply IH. now apply exec_keeps_stored_only.
Qed.

(** C2 (amended): from set-up on, through any sequence of start, stop
    and unload calls made one after the other, in every state passed
    (the one at the [await] of a start included) at most one
    growth-logging listener is active; a start has cancelled the stored
    listener by its [await] and, when it returns, the one active
    listener is the new one, which the state stores; an unload leaves
    no listener active and drops the state. *)
Theorem at_most_one_subscription (ops : list op) (w0 : World) :
  listeners w0 = ∅ ->
  Forall
    (fun w =>
       size (listeners w) <= 1
       /\ (forall call,
             listeners (fst (Profiler.start_log_objects_begin w)) = ∅
             /\ forall w',
                  Profiler._async_start_log_objects emit_raises call w
                    = (w', inr tt) ->
                  exists interval,
                    call !! Profiler.CONF_SCAN_INTERVAL = Some interval
                    /\ listeners w' = {[next_listener w := interval]}
                    /\ domain_data w' !! Profiler.LOG_INTERVAL_SUB
                       = Some (next_listener w))
       /\ (has_domain w = true ->
           exists w',
             Profiler.async_unload_entry DOMAIN w = (w', inr true)
             /\ listeners w' = ∅
             /\ has_domain w' = false
             /\ services w' = services w ∖ list_to_set Profiler.SERVICES))
    (history DOMAIN emit_raises ops (fst (Profiler.async_setup_entry w0))).
Proof.
  intros Hnone.
  eapply Forall_impl.
  - apply history_stored_only. apply stored_only_none_active. exact Hnone.
  - intros w H. split; [now apply stored_only_size|]. split.
    + intros call. split.
      * destruct (begin_cancels w H) as (w1 & Hrun & Hl & _).
        now rewrite Hrun.
      * now apply start_installs.
    + now apply unload_cancels.
Qed.

End Subscription.

Lemma two_starts_stop_unload_one_listener :
  listeners fresh_world = ∅
  /\ Forall (fun w => size (listeners w) <= 1)
       (history "profiler" never_raises
          [Start call_every_30_seconds; Start call_every_30_seconds; Stop;
           Start call_every_30_seconds; Unload]
          (fst (Profiler.async_setup_entry fresh_world))).
Proof.
  split; [reflexivity|].
  eapply Forall_impl.
  - apply (at_most_one_subscription "profiler" never_raises
             [Start call_every_30_seconds; Start call_every_30_seconds; Stop;
              Start call_every_30_seconds; Unload] fresh_world).
    reflexivity.
  - intros w H. exact (proj1 H).
Defined.

(** Starting twice in succession: the first listener (0) is cancelled,
    the second (1) is the only one active and the one stored. *)
Example second_start_replaces_first :
  let w := exec "profiler" never_raises (Start call_every_30_seconds)
             (exec "profiler" never_raises (Start call_every_30_seconds)
                (fst (Profiler.async_setup_entry fresh_world))) in
  listeners w = {[1 := VTimedelta 30]}
  /\ domain_data w !! Profiler.LOG_INTERVAL_SUB = Some 1.
Proof. split; reflexivity. Qed.

(** The start handler is not behind a lock.  Two calls that overlap, the
    second running up to its [await] while the first is at its own, each
    find nothing to cancel and each install a listener; only the second
    is stored, so the first stays active and no stop or unload reaches
    it. *)
Lemma overlapping_starts_leave_two_listeners :
  let resume :=
    bind (Profiler._log_objects never_raises)
      (fun _ => Profiler.start_log_objects_end call_every_30_seconds) in
  let w0 := fst (Profiler.async_setup_entry fresh_world) in
  let w1 := fst (Profiler.start_log_objects_begin w0) in
  let w2 := fst (Profiler.start_log_objects_begin w1) in
  let w3 := fst (resume w2) in
  let w4 := fst (resume w3) in
  listeners w4 = {[0 := VTimedelta 30; 1 := VTimedelta 30]}
  /\ size (listeners w4) = 2
  /\ domain_data w4 !! Profiler.LOG_INTERVAL_SUB = Some 1
  /\ listeners (fst (Profiler._async_stop_log_objects w4))
     = {[0 := VTimedelta 30]}.
Proof. repeat split. Qed.

(** C2 (as stated) fails: after two start calls that overlap, two
    listeners are active. *)
Lemma overlapping_starts_two_subscriptions :
  ~ (forall (call1 call2 : gmap string pyobj) (w0 : World),
       listeners w0 = ∅ ->
       size
         (listeners
            (overlapping_starts never_raises call1 call2
               (fst (Profiler.async_setup_entry w0)))) <= 1).
Proof.
  intros H.
  specialize (H call_every_30_seconds call_every_30_seconds fresh_world
                eq_refl).
  vm_compute in H. lia.
Qed.

(** ** The lock around the profile handlers *)

Lemma tasks_set_pc_eq (i : nat) (p : Mutex.pc) (s : Mutex.state) :
  Mutex.tasks (Mutex.set_pc i p s) !! i = Mutex.with_pc p <$> Mutex.tasks s !! i.
Proof. cbn. apply list_lookup_alter_eq. Qed.

Lemma tasks_set_pc_ne (i j : nat) (p : Mutex.pc) (s : Mutex.state) :
  i <> j -> Mutex.tasks (Mutex.set_pc i p s) !! j = Mutex.tasks s !! j.
Proof. intros H. cbn. now apply list_lookup_alter_ne. Qed.

Lemma in_body_after_set_pc (i j : nat) (p : Mutex.pc) (s : Mutex.state)
    (t : Mutex.task) :
  Mutex.tasks (Mutex.set_pc i p s) !! j = Some t ->
  Mutex.in_body t = true ->
  (j = i /\ exists k, p = Mutex.InBody k)
  \/ (j <> i /\ Mutex.tasks s !! j = Some t).
Proof.
  intros Hj Hb. destruct (decide (i = j)) as [->|Hne].
  - left. split; [reflexivity|].
    rewrite tasks_set_pc_eq in Hj.
    destruct (Mutex.tasks s !! j) as [t0|]; [|discriminate].
    injection Hj as <-. unfold Mutex.in_body in Hb. cbn in Hb.
    destruct p; try discriminate. eauto.
  - right. rewrite tasks_set_pc_ne in Hj by exact Hne. auto.
Qed.

Lemma Forall_tail {A} (P : A -> Prop) (l : list A) :
  Forall P l -> Forall P (tail l).
Proof. intros H. destruct H; [constructor | assumption]. Qed.

(** The task that holds the lock runs on: the invariant holds after. *)
Lemma run_body_inv (i n : nat) (s : Mutex.state) :
  Mutex.locked s = true ->
  (forall j t, Mutex.tasks s !! j = Some t -> Mutex.in_body t = true -> j = i) ->
  Forall (fun w => snd w = false) (Mutex.waiters s) ->
  mutex_inv (Mutex.run_body i n s).
Proof.
  intros Hlocked Honly Hws. destruct n as [|k]; cbn [Mutex.run_body].
  - split; cbn.
    + intros _ j t Hj. destruct (Mutex.in_body t) eqn:Hb; [|reflexivity].
      destruct (in_body_after_set_pc _ _ _ _ _ Hj Hb)
        as [[_ [k [=]]]|[Hne Hj']].
      exfalso. apply Hne. eauto.
    + intros j1 j2 t1 t2 H1 H2 Hb1 Hb2.
      destruct (in_body_after_set_pc _ _ _ _ _ H1 Hb1)
        as [[_ [k [=]]]|[Hne Hj']].
      exfalso. apply Hne. eauto.
    + discriminate.
    + destruct (Mutex.waiters s) as [|[j b] rest]; cbn; [constructor|].
      now inversion Hws.
  - split; cbn.
    + rewrite Hlocked. discriminate.
    + intros j1 j2 t1 t2 H1 H2 Hb1 Hb2.
      assert (E1 : j1 = i).
      { destruct (in_body_after_set_pc _ _ _ _ _ H1 Hb1) as [[-> _]|[_ Hj]];
          eauto. }
      assert (E2 : j2 = i).
      { destruct (in_body_after_set_pc _ _ _ _ _ H2 Hb2) as [[-> _]|[_ Hj]];
          eauto. }
      congruence.
    + intros _. exact Hws.
    + now apply Forall_tail.
Qed.

Lemma woken_in (i : nat) (ws : list (nat * bool)) :
  Mutex.woken i ws = true -> In (i, true) ws.
Proof.
  unfold Mutex.woken. intros H. apply existsb_exists in H as ([j b] & Hin & H).
  cbn in H. apply andb_true_iff in H as [Hj ->].
  apply Nat.eqb_eq in Hj as ->. exact Hin.
Qed.

Lemma none_woken (i : nat) (ws : list (nat * bool)) :
  Forall (fun w => snd w = false) ws -> Mutex.woken i ws = false.
Proof.
  intros H. destruct (Mutex.woken i ws) eqn:Hw; [|reflexivity].
  apply woken_in in Hw. rewrite Forall_forall in H.
  apply list_elem_of_In, H in Hw. discriminate.
Qed.

Lemma remove_woken (i : nat) (ws : list (nat * bool)) :
  Forall (fun w => snd w = false) (tail ws) ->
  Mutex.woken i ws = true ->
  Forall (fun w => snd w = false) (Mutex.remove_waiter i ws).
Proof.
  intros Htail Hw. destruct ws as [|[j b] rest]; [discriminate|].
  cbn in Htail. apply woken_in in Hw as [[= -> ->]|Hin].
  - cbn. rewrite Nat.eqb_refl. cbn.
    apply Forall_forall. intros x Hx. rewrite Forall_forall in Htail.
    apply Htail. apply list_elem_of_In. apply list_elem_of_In in Hx.
    apply filter_In in Hx. tauto.
  - rewrite Forall_forall in Htail.
    apply list_elem_of_In, Htail in Hin. discriminate.
Qed.

Lemma held_when_in_body (s : Mutex.state) (i : nat) (t : Mutex.task) :
  mutex_inv s -> Mutex.tasks s !! i = Some t -> Mutex.in_body t = true ->
  Mutex.locked s = true.
Proof.
  intros Hinv Hi Hb. destruct (Mutex.locked s) eqn:Hl; [reflexivity|].
  rewrite (inv_free s Hinv Hl i t Hi) in Hb. discriminate.
Qed.

Lemma step_inv (i : nat) (s s' : Mutex.state) :
  mutex_inv s -> Mutex.step i s = Some s' -> mutex_inv s'.
Proof.
  intros Hinv. unfold Mutex.step.
  destruct (Mutex.tasks s !! i) as [t|] eqn:Hi; [|discriminate].
  destruct (Mutex.at_pc t) as [| |k|] eqn:Hpc; [| | |discriminate].
  - destruct (Mutex.locked s) eqn:Hl; cbn [negb andb].
    + intros [= <-]. split; cbn.
      * rewrite Hl. discriminate.
      * intros j1 j2 t1 t2 H1 H2 Hb1 Hb2.
        destruct (in_body_after_set_pc _ _ _ _ _ H1 Hb1)
          as [[_ [k [=]]]|[_ H1']].
        destruct (in_body_after_set_pc _ _ _ _ _ H2 Hb2)
          as [[_ [k [=]]]|[_ H2']].
        exact (inv_exclusive s Hinv _ _ _ _ H1' H2' Hb1 Hb2).
      * intros _. apply Forall_app. split.
        -- now apply (inv_locked_none_woken s Hinv).
        -- repeat constructor.
      * pose proof (inv_locked_none_woken s Hinv Hl) as Hws.
        destruct (Mutex.waiters s); cbn; [constructor|].
        inversion Hws; subst. apply Forall_app. split; [assumption|].
        repeat constructor.
    + case_bool_decide as Hws.
      * intros [= <-]. apply run_body_inv; cbn; [reflexivity| |].
        -- intros j tj Hj Hb.
           rewrite (inv_free s Hinv Hl j tj Hj) in Hb. discriminate.
        -- rewrite Hws. constructor.
      * intros [= <-]. split; cbn.
        -- intros _ j tj Hj. destruct (Mutex.in_body tj) eqn:Hb; [|reflexivity].
           destruct (in_body_after_set_pc _ _ _ _ _ Hj Hb)
             as [[_ [k [=]]]|[_ Hj']].
           rewrite (inv_free s Hinv Hl j tj Hj') in Hb. discriminate.
        -- intros j1 j2 t1 t2 H1 H2 Hb1 Hb2.
           destruct (in_body_after_set_pc _ _ _ _ _ H1 Hb1)
             as [[_ [k [=]]]|[_ H1']].
           destruct (in_body_after_set_pc _ _ _ _ _ H2 Hb2)
             as [[_ [k [=]]]|[_ H2']].
           exact (inv_exclusive s Hinv _ _ _ _ H1' H2' Hb1 Hb2).
        -- rewrite Hl. discriminate.
        -- pose proof (inv_woken_first s Hinv) as Htail.
           destruct (Mutex.waiters s); [contradiction|]. cbn in *.
           apply Forall_app. split; [assumption|]. repeat constructor.
  - destruct (Mutex.woken i (Mutex.waiters s)) eqn:Hw; [|discriminate].
    intros [= <-].
    assert (Hl : Mutex.locked s = false).
    { destruct (Mutex.locked s) eqn:Hl; [|reflexivity].
      rewrite (none_woken _ _ (inv_locked_none_woken s Hinv Hl)) in Hw.
      discriminate. }
    apply run_body_inv; cbn; [reflexivity| |].
    + intros j tj Hj Hb.
      rewrite (inv_free s Hinv Hl j tj Hj) in Hb. discriminate.
    + apply remove_woken; [apply (inv_woken_first s Hinv) | exact Hw].
  - destruct (Mutex.hangs t k); [discriminate|]. intros [= <-].
    assert (Hb : Mutex.in_body t = true) by (unfold Mutex.in_body; now rewrite Hpc).
    pose proof (held_when_in_body s i t Hinv Hi Hb) as Hl.
    apply run_body_inv; [exact Hl| |].
    + intros j tj Hj Hbj. exact (inv_exclusive s Hinv _ _ _ _ Hj Hi Hbj Hb).
    + now apply (inv_locked_none_woken s Hinv).
Qed.

Lemma init_inv (requests : list Mutex.request) :
  mutex_inv (Mutex.init requests).
Proof.
  assert (H : forall i t, Mutex.tasks (Mutex.init requests) !! i = Some t ->
                          Mutex.in_body t = false).
  { intros i t. cbn. rewrite list_lookup_fmap.
    destruct (requests !! i); [|discriminate]. now intros [= <-]. }
  split; cbn.
  - intros _. exact H.
  - intros i j ti tj Hi Hj Hb. rewrite (H i ti Hi) in Hb. discriminate.
  - constructor.
  - constructor.
Qed.

Lemma run_inv (schedule : list nat) (s : Mutex.state) :
  mutex_inv s -> mutex_inv (Mutex.run schedule s).
Proof.
  revert s. induction schedule as [|i rest IH]; intros s Hinv; [exact Hinv|].
  cbn. apply IH. destruct (Mutex.step i s) as [s'|] eqn:Hstep; cbn.
  - exact (step_inv i s s' Hinv Hstep).
  - exact Hinv.
Qed.

(** A call that arrives changes nothing for the requests there are. *)
Lemma add_task_inv (r : Mutex.request) (s : Mutex.state) :
  mutex_inv s -> mutex_inv (Mutex.add_task r s).
Proof.
  intros Hinv.
  assert (Hold : forall i t,
            Mutex.tasks (Mutex.add_task r s) !! i = Some t ->
            Mutex.in_body t = true -> Mutex.tasks s !! i = Some t).
  { intros i t Hi Hb. cbn in Hi.
    apply lookup_app_Some in Hi as [Hi|[_ Hi]]; [exact Hi|].
    apply list_lookup_singleton_Some in Hi as [_ <-]. discriminate. }
  split; cbn.
  - intros Hl i t Hi. destruct (Mutex.in_body t) eqn:Hb; [|reflexivity].
    rewrite <- Hb. exact (inv_free s Hinv Hl i t (Hold i t Hi Hb)).
  - intros i j ti tj Hi Hj Hbi Hbj.
    exact (inv_exclusive s Hinv i j ti tj (Hold i ti Hi Hbi)
             (Hold j tj Hj Hbj) Hbi Hbj).
  - exact (inv_locked_none_woken s Hinv).
  - exact (inv_woken_first s Hinv).
Qed.

Lemma process_step_inv (ev : Process.event) (p p' : Process.state) :
  Forall mutex_inv (Process.entries p) ->
  Process.step ev p = Some p' ->
  Forall mutex_inv (Process.entries p').
Proof.
  intros Hinv. destruct ev as [| |r|e i]; cbn.
  - intros [= <-]. cbn. apply Forall_app. split; [exact Hinv|].
    constructor; [apply init_inv | constructor].
  - now intros [= <-].
  - destruct (Process.loaded p); [|discriminate]. intros [= <-]. cbn.
    apply Forall_alter; [exact Hinv|]. intros s _. apply add_task_inv.
  - destruct (Process.entries p !! e) as [s|] eqn:He; [|discriminate].
    destruct (Mutex.step i s) as [s'|] eqn:Hstep; [|discriminate].
    intros [= <-]. cbn. apply Forall_insert; [exact Hinv|].
    apply (step_inv i s s'); [|exact Hstep].
    rewrite Forall_lookup in Hinv. exact (Hinv e s He).
Qed.

Lemma process_run_inv (evs : list Process.event) (p : Process.state) :
  Forall mutex_inv (Process.entries p) ->
  Forall mutex_inv (Process.entries (Process.run evs p)).
Proof.
  revert p. induction evs as [|ev evs IH]; intros p Hinv; [exact Hinv|].
  cbn. apply IH. destruct (Process.step ev p) as [p'|] eqn:Hstep; cbn.
  - exact (process_step_inv ev p p' Hinv Hstep).
  - exact Hinv.
Qed.

Lemma process_run_app (evs1 evs2 : list Process.event) (p : Process.state) :
  Process.run (evs1 ++ evs2) p = Process.run evs2 (Process.run evs1 p).
Proof.
  revert p. induction evs1 as [|ev evs1 IH]; intros p; [reflexivity|].
  cbn. apply IH.
Qed.

(** *** The first request runs on, the second waits, and enters when the
    first is through *)

Section HandOver.
Variables (a0 a1 : Mutex.action) (n1 : nat) (h1 : option nat).

Let r0 (n0 : nat) : Mutex.request :=
  {| Mutex.req_action := a0; Mutex.req_awaits := S n0;
     Mutex.req_hangs := None |}.
Let r1 : Mutex.request :=
  {| Mutex.req_action := a1; Mutex.req_awaits := n1;
     Mutex.req_hangs := h1 |}.

Lemma two_calls_arrive (n0 : nat) :
  Process.run (two_calls (r0 n0) r1) Process.init
  = first_inside (r0 n0) r1 n0.
Proof. reflexivity. Qed.

Lemma first_runs_on (n0 k m : nat) :
  Process.run (repeat (Process.Resume 0 0) k)
    (first_inside (r0 n0) r1 (k + m))
  = first_inside (r0 n0) r1 m.
Proof.
  induction k as [|k IH]; [reflexivity|].
  cbn [repeat Process.run]. exact IH.
Qed.

Lemma second_waits (n0 m : nat) :
  Process.step (Process.Resume 0 1) (first_inside (r0 n0) r1 m) = None.
Proof. reflexivity. Qed.

Lemma second_enters (n0 : nat) :
  positions
    (Process.run [Process.Resume 0 0; Process.Resume 0 1]
       (first_inside (r0 n0) r1 0))
  = [[Mutex.Finished;
      match n1 with
      | 0 => Mutex.Finished
      | S m => Mutex.InBody m
      end]].
Proof. destruct n1; reflexivity. Qed.

Lemma hand_over (n0 : nat) :
  (forall k, k <= n0 ->
     let p := Process.run
                (two_calls (r0 n0) r1 ++ repeat (Process.Resume 0 0) k)
                Process.init in
     positions p = [[Mutex.InBody (n0 - k); Mutex.Waiting]]
     /\ Process.step (Process.Resume 0 1) p = None)
  /\ positions
       (Process.run
          (two_calls (r0 n0) r1
           ++ repeat (Process.Resume 0 0) (S n0) ++ [Process.Resume 0 1])
          Process.init)
     = [[Mutex.Finished;
         match n1 with
         | 0 => Mutex.Finished
         | S m => Mutex.InBody m
         end]].
Proof.
  split.
  - intros k Hk p.
    assert (Hp : p = first_inside (r0 n0) r1 (n0 - k)).
    { unfold p. rewrite process_run_app, two_calls_arrive.
      replace (first_inside (r0 n0) r1 n0)
        with (first_inside (r0 n0) r1 (k + (n0 - k))) by (f_equal; lia).
      apply first_runs_on. }
    rewrite Hp. split; [reflexivity | apply second_waits].
  - rewrite process_run_app, two_calls_arrive.
    change (repeat (Process.Resume 0 0) (S n0))
      with (Process.Resume 0 0 :: repeat (Process.Resume 0 0) n0).
    rewrite repeat_cons, <- app_assoc, process_run_app.
    replace (first_inside (r0 n0) r1 n0)
      with (first_inside (r0 n0) r1 (n0 + 0)) by (f_equal; lia).
    rewrite first_runs_on. apply second_enters.
Qed.

End HandOver.

(** C1 (amended): whatever set-ups, unloads and CPU-profile and
    memory-profile calls there are and however the loop schedules the
    requests, among the requests served by the handlers of one set-up,
    in every state reached
    (1) no two requests are inside their bodies;
    (2) a request that starts while another is inside its body is put
        in the lock's queue, and the other stays where it is;
    (3) a queued request cannot run while any request is inside its
        body: nothing cancels it and nothing times it out, it is only
        resumed by a release;
    (4) when the request inside its body leaves it, the first queued
        request is the one that runs next through the lock, entering
        its own body;
    and (5) that is what happens to two calls of one set-up: the first
    enters its body at once and stays there from [await] to [await],
    the second waits all that time and cannot run, and once the first
    is through the second enters its body. *)
Theorem profile_bodies_never_overlap
    (evs : list Process.event) (e : nat) (s : Mutex.state) :
  Process.entries (Process.run evs Process.init) !! e = Some s ->
  (forall i j ti tj,
     Mutex.tasks s !! i = Some ti -> Mutex.tasks s !! j = Some tj ->
     Mutex.in_body ti = true -> Mutex.in_body tj = true -> i = j)
  /\ (forall i j ti tj,
        Mutex.tasks s !! i = Some ti -> Mutex.in_body ti = true ->
        Mutex.tasks s !! j = Some tj -> Mutex.at_pc tj = Mutex.NotStarted ->
        exists s',
          Mutex.step j s = Some s'
          /\ Mutex.tasks s' !! j = Some (Mutex.with_pc Mutex.Waiting tj)
          /\ Mutex.tasks s' !! i = Some ti
          /\ Mutex.waiters s' = Mutex.waiters s ++ [(j, false)])
  /\ (forall i j ti tj,
        Mutex.tasks s !! i = Some ti -> Mutex.in_body ti = true ->
        Mutex.tasks s !! j = Some tj -> Mutex.at_pc tj = Mutex.Waiting ->
        Mutex.step j s = None)
  /\ (forall i j ti tj b rest,
        Mutex.tasks s !! i = Some ti -> Mutex.at_pc ti = Mutex.InBody 0 ->
        Mutex.hangs ti 0 = false ->
        Mutex.tasks s !! j = Some tj -> Mutex.at_pc tj = Mutex.Waiting ->
        Mutex.waiters s = (j, b) :: rest ->
        exists s' s'',
          Mutex.step i s = Some s'
          /\ Mutex.tasks s' !! i = Some (Mutex.with_pc Mutex.Finished ti)
          /\ Mutex.locked s' = false
          /\ Mutex.step j s' = Some s''
          /\ Mutex.tasks s'' !! j
             = Some (Mutex.with_pc
                       (match Mutex.body_awaits tj with
                        | 0 => Mutex.Finished
                        | S k => Mutex.InBody k
                        end) tj))
  /\ (forall (a0 a1 : Mutex.action) (n0 n1 : nat) (h1 : option nat),
        let r0 := {| Mutex.req_action := a0; Mutex.req_awaits := S n0;
                     Mutex.req_hangs := None |} in
        let r1 := {| Mutex.req_action := a1; Mutex.req_awaits := n1;
                     Mutex.req_hangs := h1 |} in
        (forall k, k <= n0 ->
           let p := Process.run
                      (two_calls r0 r1 ++ repeat (Process.Resume 0 0) k)
                      Process.init in
           positions p = [[Mutex.InBody (n0 - k); Mutex.Waiting]]
           /\ Process.step (Process.Resume 0 1) p = None)
        /\ positions
             (Process.run
                (two_calls r0 r1
                 ++ repeat (Process.Resume 0 0) (S n0)
                 ++ [Process.Resume 0 1])
                Process.init)
           = [[Mutex.Finished;
               match n1 with
               | 0 => Mutex.Finished
               | S m => Mutex.InBody m
               end]]).
Proof.
  intros He.
  assert (Hinv : mutex_inv s).
  { assert (Hall : Forall mutex_inv
                     (Process.entries (Process.run evs Process.init)))
      by (apply process_run_inv; constructor).
    rewrite Forall_lookup in Hall. exact (Hall e s He). }
  split; [exact (inv_exclusive s Hinv)|]. split; [|split; [|split]].
  - intros i j ti tj Hi Hb Hj Hpc.
    pose proof (held_when_in_body s i ti Hinv Hi Hb) as Hl.
    assert (Hne : j <> i).
    { intros ->. rewrite Hi in Hj. injection Hj as ->.
      unfold Mutex.in_body in Hb. rewrite Hpc in Hb. discriminate. }
    unfold Mutex.step. rewrite Hj, Hpc, Hl. cbn [negb andb].
    eexists. split; [reflexivity|]. split; [|split].
    + rewrite tasks_set_pc_eq. cbn. now rewrite Hj.
    + rewrite tasks_set_pc_ne by exact Hne. exact Hi.
    + reflexivity.
  - intros i j ti tj Hi Hb Hj Hpc.
    pose proof (held_when_in_body s i ti Hinv Hi Hb) as Hl.
    unfold Mutex.step. rewrite Hj, Hpc.
    now rewrite (none_woken _ _ (inv_locked_none_woken s Hinv Hl)).
  - intros i j ti tj b rest Hi Hpci Hhang Hj Hpcj Hws.
    assert (Hne : i <> j).
    { intros ->. rewrite Hi in Hj. injection Hj as ->. congruence. }
    assert (Hstep : Mutex.step i s = Some (Mutex.run_body i 0 s)).
    { unfold Mutex.step. now rewrite Hi, Hpci, Hhang. }
    assert (Hj' : Mutex.tasks (Mutex.run_body i 0 s) !! j = Some tj).
    { cbn. rewrite list_lookup_alter_ne by exact Hne. exact Hj. }
    eexists. eexists. split; [exact Hstep|]. split; [|split; [|split]].
    + cbn. rewrite list_lookup_alter_eq, Hi. reflexivity.
    + reflexivity.
    + unfold Mutex.step at 1. rewrite Hj', Hpcj.
      cbn [Mutex.run_body Mutex.release Mutex.waiters Mutex.set_waiters
           Mutex.set_locked Mutex.set_pc].
      rewrite Hws. cbn [Mutex.wake_up_first Mutex.woken existsb fst snd].
      rewrite Nat.eqb_refl. cbn [andb orb]. reflexivity.
    + destruct (Mutex.body_awaits tj); cbn;
        rewrite list_lookup_alter_eq, list_lookup_alter_ne, Hj by exact Hne;
        reflexivity.
  - intros a0 a1 n0 n1 h1. cbv zeta. apply hand_over.
Qed.

Lemma cpu_profile_then_memory_profile :
  Process.entries
    (Process.run
       (two_calls (Mutex.profile_request true Mutex.CpuProfile)
          (Mutex.profile_request true Mutex.MemoryProfile))
       Process.init) !! 0
  = Some (Mutex.run [0; 1]
            (Mutex.init [Mutex.profile_request true Mutex.CpuProfile;
                         Mutex.profile_request true Mutex.MemoryProfile]))
  /\ Mutex.step 1
       (Mutex.run [0; 1]
          (Mutex.init [Mutex.profile_request true Mutex.CpuProfile;
                       Mutex.profile_request true Mutex.MemoryProfile]))
     = None.
Proof.
  assert (He : Process.entries
                 (Process.run
                    (two_calls (Mutex.profile_request true Mutex.CpuProfile)
                       (Mutex.profile_request true Mutex.MemoryProfile))
                    Process.init) !! 0
               = Some (Mutex.run [0; 1]
                         (Mutex.init
                            [Mutex.profile_request true Mutex.CpuProfile;
                             Mutex.profile_request true Mutex.MemoryProfile])))
    by reflexivity.
  split; [exact He|].
  destruct (profile_bodies_never_overlap _ _ _ He) as (_ & _ & Hwait & _).
  eapply (Hwait 0 1); reflexivity.
Defined.

(** C1 (as stated) fails: the lock is not one for the whole process.  A
    CPU profile is in flight when the entry is unloaded and set up
    again; a memory profile requested then goes through the new lock and
    enters its body while the CPU profile is in its own. *)
Lemma profiles_overlap_across_set_ups :
  ~ (forall evs : list Process.event,
       Process.bodies_running (Process.run evs Process.init) <= 1).
Proof.
  intros H. specialize (H reload_during_a_profile).
  vm_compute in H. lia.
Qed.

Example both_profiles_in_their_bodies :
  positions (Process.run reload_during_a_profile Process.init)
  = [[Mutex.InBody 1]; [Mutex.InBody 1]].
Proof. reflexivity. Qed.

(** A CPU profile and a memory profile requested while it runs: the
    second queues, cannot run, is woken when the first leaves its body,
    and then runs its own. *)
Example memory_profile_waits_for_cpu_profile :
  let s0 := Mutex.init [Mutex.profile_request true Mutex.CpuProfile;
                       Mutex.profile_request true Mutex.MemoryProfile] in
  let s1 := Mutex.run [0; 1; 1] s0 in
  let s2 := Mutex.run [0; 0] s1 in
  let s3 := Mutex.run [1] s2 in
  let s4 := Mutex.run [1; 1] s3 in
  (Mutex.at_pc <$> Mutex.tasks s1 = [Mutex.InBody 1; Mutex.Waiting]
   /\ Mutex.locked s1 = true /\ Mutex.step 1 s1 = None)
  /\ (Mutex.at_pc <$> Mutex.tasks s2 = [Mutex.Finished; Mutex.Waiting]
      /\ Mutex.locked s2 = false /\ Mutex.waiters s2 = [(1, true)])
  /\ (Mutex.at_pc <$> Mutex.tasks s3 = [Mutex.Finished; Mutex.InBody 1]
      /\ Mutex.locked s3 = true /\ Mutex.waiters s3 = [])
  /\ (Mutex.at_pc <$> Mutex.tasks s4 = [Mutex.Finished; Mutex.Finished]
      /\ Mutex.locked s4 = false).
Proof. repeat split. Qed.

(** On an interpreter the memory profile refuses, its body raises before
    any [await]: the lock is taken and released within one step. *)
Example refused_memory_profile_releases_at_once :
  let s := Mutex.run [0]
             (Mutex.init [Mutex.profile_request false Mutex.MemoryProfile;
                          Mutex.profile_request true Mutex.CpuProfile]) in
  Mutex.at_pc <$> Mutex.tasks s = [Mutex.Finished; Mutex.NotStarted]
  /\ Mutex.locked s = false.
Proof. repeat split. Qed.

(** A profile asked to sleep for ever never leaves its body: it cannot
    run, and the request behind it cannot either. *)
Example endless_profile_keeps_the_lock :
  let s := Mutex.run [0; 1]
             (Mutex.init [Mutex.endless_request Mutex.CpuProfile;
                          Mutex.profile_request true Mutex.MemoryProfile]) in
  Mutex.at_pc <$> Mutex.tasks s = [Mutex.InBody 1; Mutex.Waiting]
  /\ Mutex.step 0 s = None /\ Mutex.step 1 s = None.
Proof. repeat split. Qed.

(** * Further properties *)

(** ** What a handler leaves alone *)

Section Keeps.
Context {R : World -> World -> Prop}.
Hypothesis R_refl : forall w, R w w.
Hypothesis R_trans : forall w1 w2 w3, R w1 w2 -> R w2 w3 -> R w1 w3.

Lemma keeps_ret {A} (a : A) : keeps R (ret a).
Proof. intros w. apply R_refl. Qed.

Lemma keeps_raise {A} (e : exn) : keeps R (@raise A e).
Proof. intros w. apply R_refl. Qed.

Lemma keeps_get : keeps R get.
Proof. intros w. apply R_refl. Qed.

Lemma keeps_bind {A B} (m : M A) (k : A -> M B) :
  keeps R m -> (forall a, keeps R (k a)) -> keeps R (bind m k).
Proof.
  intros Hm Hk w. unfold bind. specialize (Hm w).
  destruct (m w) as [w1 [e|a]]; cbn in *; [exact Hm|].
  exact (R_trans _ _ _ Hm (Hk a w1)).
Qed.

Lemma keeps_for_each {A} (l : list A) (body : A -> M unit) :
  (forall x, keeps R (body x)) -> keeps R (for_each l body).
Proof.
  intros Hbody. induction l as [|x l IH]; cbn [for_each].
  - apply keeps_ret.
  - apply keeps_bind; [apply Hbody | intros _; exact IH].
Qed.

Lemma keeps_comprehension {A B} (l : list A) (f : A -> M B) :
  (forall x, keeps R (f x)) -> keeps R (comprehension l f).
Proof.
  intros Hf. induction l as [|x l IH]; cbn [comprehension].
  - apply keeps_ret.
  - apply keeps_bind; [apply Hf|]. intros y.
    apply keeps_bind; [exact IH|]. intros ys. apply keeps_ret.
Qed.

Lemma keeps_finally {A} (m : M A) (f : World -> World) :
  keeps R m -> (forall w, R w (f w)) -> keeps R (finally m f).
Proof.
  intros Hm Hf w. unfold finally. specialize (Hm w).
  destruct (m w) as [w1 [[]|a]]; cbn in *;
    first [exact Hm | exact (R_trans _ _ _ Hm (Hf w1))].
Qed.

Lemma keeps_modify (f : World -> World) :
  (forall w, R w (f w)) -> keeps R (modify f).
Proof. intros Hf w. apply Hf. Qed.

End Keeps.

Lemma keeps_weaken {A} (R R' : World -> World -> Prop) (m : M A) :
  (forall w w', R w w' -> R' w w') -> keeps R m -> keeps R' m.
Proof. intros H Hm w. apply H, Hm. Qed.

Lemma same_installation_refl (w : World) : same_installation w w.
Proof. repeat split. Qed.

Lemma same_installation_trans (w1 w2 w3 : World) :
  same_installation w1 w2 -> same_installation w2 w3 ->
  same_installation w1 w3.
Proof.
  unfold same_installation. intros (?&?&?&?&?) (?&?&?&?&?).
  repeat split; congruence.
Qed.

Lemma only_reports_refl (w : World) : only_reports w w.
Proof. repeat split. Qed.

Lemma only_reports_trans (w1 w2 w3 : World) :
  only_reports w1 w2 -> only_reports w2 w3 -> only_reports w1 w3.
Proof.
  unfold only_reports. intros (Ha & Hc & Hr & Hs) (Ha' & Hc' & Hr' & Hs').
  split; [exact (same_installation_trans _ _ _ Ha Ha')|].
  repeat split; congruence.
Qed.

Lemma only_reports_installation (w w' : World) :
  only_reports w w' -> same_installation w w'.
Proof. intros [H _]. exact H. Qed.

Lemma stored_only_same_installation (w w' : World) :
  same_installation w w' -> stored_only w -> stored_only w'.
Proof.
  intros (Hd & _ & _ & Hl & _) H id. rewrite Hl, Hd. apply H.
Qed.

Lemma critical_only_reports (emit_raises : logrecord -> Repr -> bool)
    (fmt : string) (args : list logarg) :
  keeps only_reports (Profiler.critical emit_raises fmt args).
Proof.
  intros w. unfold Profiler.critical.
  destruct (emit_raises _ _); cbn; repeat split.
Qed.

Lemma notification_create_only_reports (id title message : string) :
  keeps only_reports (Profiler.notification_create id title message).
Proof. intros w. repeat split. Qed.

Lemma emit_only_reports (e : effect) : keeps only_reports (emit e).
Proof. intros w. repeat split. Qed.

Lemma call_data_keeps (R : World -> World -> Prop)
    (call : gmap string pyobj) (key : string) :
  (forall w, R w w) -> keeps R (Profiler.call_data call key).
Proof.
  intros HR w. unfold Profiler.call_data.
  destruct (call !! key); apply HR.
Qed.

Lemma lift_keeps (R : World -> World -> Prop) {A} (r : exn + A) :
  (forall w, R w w) -> keeps R (Profiler.lift r).
Proof. intros HR w. destruct r; apply HR. Qed.

Lemma sleep_same_installation (runtime : Runtime) (seconds : pyfloat) :
  keeps same_installation (Profiler.sleep runtime seconds).
Proof.
  intros w. unfold Profiler.sleep, Profiler.wake_up, bind.
  destruct seconds as [d|[|]|]; try destruct (sleep_nan runtime);
    repeat split.
Qed.

Lemma write_only_reports (runtime : Runtime) (e : effect) :
  keeps only_reports (Profiler.write runtime e).
Proof.
  intros w. unfold Profiler.write.
  destruct (write_fails runtime e w); repeat split.
Qed.

Ltac only_reports_steps :=
  repeat first
    [ apply (keeps_bind only_reports_trans); [|intros ?]
    | apply (keeps_for_each only_reports_refl only_reports_trans); intros ?
    | apply (keeps_comprehension only_reports_refl only_reports_trans);
      intros ?
    | apply (keeps_ret only_reports_refl)
    | apply (keeps_raise only_reports_refl)
    | apply critical_only_reports
    | apply notification_create_only_reports
    | apply emit_only_reports
    | apply call_data_keeps; exact only_reports_refl
    | apply lift_keeps; exact only_reports_refl
    | apply write_only_reports
    | match goal with
      | |- keeps _ (match ?x with _ => _ end) => destruct x
      | |- keeps _ (if ?x then _ else _) => destruct x
      end ].

Ltac same_installation_steps :=
  repeat first
    [ apply (keeps_bind same_installation_trans); [|intros ?]
    | apply (keeps_ret same_installation_refl)
    | apply (keeps_raise same_installation_refl)
    | apply sleep_same_installation
    | apply call_data_keeps; exact same_installation_refl
    | apply lift_keeps; exact same_installation_refl
    | apply (keeps_weaken only_reports same_installation);
      [exact only_reports_installation | only_reports_steps; fail]
    | intros ?; repeat split; fail
    | match goal with
      | |- keeps _ (match ?x with _ => _ end) => destruct x
      | |- keeps _ (if ?x then _ else _) => destruct x
      end ].

Lemma dump_log_objects_only_reports
    (by_type : string -> list LiveObject)
    (emit_raises : logrecord -> Repr -> bool) (call : gmap string pyobj) :
  keeps only_reports (Profiler._dump_log_objects by_type emit_raises call).
Proof.
  unfold Profiler._dump_log_objects. only_reports_steps.
  unfold Profiler._safe_repr. only_reports_steps.
Qed.

Section DiagnosticsFrames.
Variable emit_raises : logrecord -> Repr -> bool.
Variable wrappers_by_type : string -> list Diagnostics.LruCacheWrapper.
Variable holders_by_type : string -> list Diagnostics.CacheHolder.
Variable threading_enumerate : list Diagnostics.Thread.
Variable main_thread : Diagnostics.Thread.
Variable current_frames : gmap nat (list string).
Variable own_stack : list string.
Variable strip : string -> string.

Lemma get_function_absfile_only_reports (r : Diagnostics.absfile_result) :
  keeps only_reports (Diagnostics._get_function_absfile r).
Proof. unfold Diagnostics._get_function_absfile. only_reports_steps. Qed.

Lemma lru_stats_only_reports :
  keeps only_reports
    (Diagnostics._lru_stats emit_raises wrappers_by_type holders_by_type).
Proof.
  unfold Diagnostics._lru_stats, Diagnostics.log_lru_cache,
    Diagnostics.log_maybe_lru.
  only_reports_steps; apply get_function_absfile_only_reports.
Qed.

Lemma dump_thread_frames_only_reports :
  keeps only_reports
    (Diagnostics._async_dump_thread_frames emit_raises threading_enumerate
       main_thread current_frames own_stack strip).
Proof.
  unfold Diagnostics._async_dump_thread_frames, Diagnostics.log_thread.
  only_reports_steps.
Qed.

End DiagnosticsFrames.

Lemma dump_scheduled_same_installation
    (emit_raises : logrecord -> Repr -> bool) :
  keeps same_installation (Profiler._async_dump_scheduled emit_raises).
Proof.
  unfold Profiler._async_dump_scheduled.
  apply (keeps_bind same_installation_trans);
    [apply (keeps_get same_installation_refl) | intros w0].
  cbv zeta.
  apply (keeps_bind same_installation_trans);
    [intros w; repeat split | intros _].
  apply (keeps_bind same_installation_trans);
    [intros w; repeat split | intros _].
  apply (keeps_finally same_installation_trans); [|intros w; repeat split].
  apply (keeps_weaken only_reports same_installation);
    [exact only_reports_installation|].
  only_reports_steps.
Qed.

Lemma generate_profile_same_installation
    (float_of_str : string -> option pyfloat)
    (config_path : string -> string) (runtime : Runtime)
    (call : gmap string pyobj) :
  keeps same_installation
    (Profiler._async_generate_profile float_of_str config_path runtime
       call).
Proof.
  unfold Profiler._async_generate_profile, Profiler._write_profile,
    Profiler.time_time, Profiler.float, Profiler.int.
  same_installation_steps.
Qed.

Lemma generate_memory_profile_same_installation
    (float_of_str : string -> option pyfloat)
    (config_path : string -> string) (version : version_info)
    (guppy_importable : bool) (runtime : Runtime)
    (call : gmap string pyobj) :
  keeps same_installation
    (Profiler._async_generate_memory_profile float_of_str config_path
       version guppy_importable runtime call).
Proof.
  unfold Profiler._async_generate_memory_profile,
    Profiler._write_memory_profile, Profiler.time_time, Profiler.float,
    Profiler.int.
  same_installation_steps.
Qed.

(** ** One listener, whatever services are called *)

Lemma serve_keeps_stored_only (E : Environment) (c : service_call)
    (w : World) :
  stored_only w -> stored_only (fst (serve E c w)).
Proof.
  intros H. destruct c as [call|call|call| |call| | | |]; cbn [serve].
  - eapply stored_only_same_installation;
      [apply generate_profile_same_installation | exact H].
  - eapply stored_only_same_installation;
      [apply generate_memory_profile_same_installation | exact H].
  - now apply start_installs.
  - now apply stop_keeps_stored_only.
  - eapply stored_only_same_installation; [|exact H].
    apply only_reports_installation, dump_log_objects_only_reports.
  - eapply stored_only_same_installation; [|exact H].
    apply only_reports_installation, lru_stats_only_reports.
  - eapply stored_only_same_installation; [|exact H].
    apply only_reports_installation, dump_thread_frames_only_reports.
  - eapply stored_only_same_installation;
      [apply dump_scheduled_same_installation | exact H].
  - unfold bind.
    pose proof (proj1 (unload_cancels (env_DOMAIN E) w H)) as Hu.
    destruct (Profiler.async_unload_entry (env_DOMAIN E) w) as [w' [e|b]];
      exact Hu.
Qed.

Lemma serve_all_keeps_stored_only (E : Environment)
    (cs : list service_call) (w : World) :
  stored_only w -> stored_only (serve_all E cs w).
Proof.
  revert w. induction cs as [|c cs IH]; intros w H; [exact H|].
  cbn. apply IH. now apply serve_keeps_stored_only.
Qed.

(** From set-up on, after any sequence of calls to any of the eight
    services and of unloads, made one after the other, in any
    environment and whether the calls return or raise, at most one
    growth-logging listener is active, and an active one is the one the
    installation state stores. *)
Theorem one_listener_whatever_is_called (E : Environment)
    (cs : list service_call) (w0 : World) :
  listeners w0 = ∅ ->
  let w := serve_all E cs (fst (Profiler.async_setup_entry w0)) in
  size (listeners w) <= 1 /\ stored_only w.
Proof.
  intros Hnone w.
  assert (H : stored_only w).
  { apply serve_all_keeps_stored_only, stored_only_none_active. exact Hnone. }
  split; [now apply stored_only_size | exact H].
Qed.

Lemma one_listener_after_every_service :
  listeners fresh_world = ∅
  /\ listeners
       (serve_all example_env every_service_once
          (fst (Profiler.async_setup_entry fresh_world)))
     = {[2 := VTimedelta 30]}.
Proof.
  split; [reflexivity|].
  pose proof (one_listener_whatever_is_called example_env every_service_once
                fresh_world eq_refl) as [_ H].
  apply map_eq. intros i.
  destruct (decide (i = 2)) as [->|Hne]; [reflexivity|].
  rewrite lookup_singleton_ne by congruence.
  match goal with |- ?m !! i = None => destruct (m !! i) eqn:Hi end;
    [|reflexivity].
  exfalso. apply Hne.
  assert (Hs : Some 2 = Some i) by (apply H; rewrite Hi; eauto).
  congruence.
Defined.

(** ** Set-up and unload *)

Lemma same_entry_refl (w : World) : same_entry w w.
Proof. split; reflexivity. Qed.

Lemma same_entry_trans (w1 w2 w3 : World) :
  same_entry w1 w2 -> same_entry w2 w3 -> same_entry w1 w3.
Proof. unfold same_entry. intros [? ?] [? ?]. split; congruence. Qed.

Lemma same_installation_entry (w w' : World) :
  same_installation w w' -> same_entry w w'.
Proof. intros (_ & Hd & Hs & _). split; assumption. Qed.

Ltac same_entry_steps :=
  repeat first
    [ apply (keeps_bind same_entry_trans); [|intros ?]
    | apply (keeps_ret same_entry_refl)
    | apply (keeps_raise same_entry_refl)
    | apply call_data_keeps; exact same_entry_refl
    | intros ?; unfold Profiler.critical;
      repeat match goal with |- context [if ?b then _ else _] =>
               destruct b end;
      split; reflexivity
    | match goal with
      | |- keeps _ (match ?x with _ => _ end) => destruct x
      end ].

Lemma start_log_objects_same_entry
    (emit_raises : logrecord -> Repr -> bool) (call : gmap string pyobj) :
  keeps same_entry (Profiler._async_start_log_objects emit_raises call).
Proof.
  unfold Profiler._async_start_log_objects, Profiler.start_log_objects_begin,
    Profiler.start_log_objects_end, Profiler._log_objects.
  same_entry_steps.
Qed.

Lemma stop_log_objects_same_entry :
  keeps same_entry Profiler._async_stop_log_objects.
Proof. unfold Profiler._async_stop_log_objects. same_entry_steps. Qed.

Lemma serve_same_entry (E : Environment) (c : service_call) (w : World) :
  is_unload c = false -> same_entry w (fst (serve E c w)).
Proof.
  destruct c as [call|call|call| |call| | | |]; cbn [serve is_unload];
    intros Hc; try discriminate.
  - apply same_installation_entry, generate_profile_same_installation.
  - apply same_installation_entry,
      generate_memory_profile_same_installation.
  - apply start_log_objects_same_entry.
  - apply stop_log_objects_same_entry.
  - apply same_installation_entry, only_reports_installation,
      dump_log_objects_only_reports.
  - apply same_installation_entry, only_reports_installation,
      lru_stats_only_reports.
  - apply same_installation_entry, only_reports_installation,
      dump_thread_frames_only_reports.
  - apply same_installation_entry, dump_scheduled_same_installation.
Qed.

Lemma serve_all_same_entry (E : Environment) (cs : list service_call)
    (w : World) :
  forallb (fun c => negb (is_unload c)) cs = true ->
  same_entry w (serve_all E cs w).
Proof.
  revert w. induction cs as [|c cs IH]; intros w Hcs;
    [apply same_entry_refl|].
  cbn in Hcs. apply andb_true_iff in Hcs as [Hc Hcs].
  cbn [serve_all]. eapply same_entry_trans; [|apply IH; exact Hcs].
  apply serve_same_entry. now destruct (is_unload c).
Qed.

Lemma union_difference_disjoint (A S : gset string) :
  A ## S -> (A ∪ S) ∖ S = A.
Proof.
  intros H. apply set_eq. intros x.
  rewrite elem_of_difference, elem_of_union. split.
  - intros [[Hx|Hx] Hn]; [exact Hx | contradiction].
  - intros Hx. split; [left; exact Hx|]. intros Hs. exact (H x Hx Hs).
Qed.

(** Unload undoes set-up, whatever was called in between, one call
    after the other: on a host that had none of the eight services and
    no listener, after set-up and any calls to the services, each made
    when the one before it was over, unload returns [True], no listener
    is left active, the state is dropped and the registered services are
    the ones the host had before. *)
Theorem unload_undoes_setup (E : Environment) (cs : list service_call)
    (w0 : World) :
  listeners w0 = ∅ ->
  services w0 ## list_to_set Profiler.SERVICES ->
  forallb (fun c => negb (is_unload c)) cs = true ->
  exists w',
    Profiler.async_unload_entry (env_DOMAIN E)
      (serve_all E cs (fst (Profiler.async_setup_entry w0)))
    = (w', inr true)
    /\ listeners w' = ∅ /\ has_domain w' = false
    /\ services w' = services w0.
Proof.
  intros Hnone Hdisj Hcs.
  set (w1 := fst (Profiler.async_setup_entry w0)).
  assert (Hstored : stored_only (serve_all E cs w1)).
  { apply serve_all_keeps_stored_only, stored_only_none_active.
    exact Hnone. }
  destruct (serve_all_same_entry E cs w1 Hcs) as [Hdom Hserv].
  destruct (proj2 (unload_cancels (env_DOMAIN E) _ Hstored))
    as (w' & Hrun & Hl & Hd & Hs).
  { rewrite Hdom. reflexivity. }
  exists w'. split; [exact Hrun|]. split; [exact Hl|]. split; [exact Hd|].
  rewrite Hs, Hserv. cbn [Profiler.async_setup_entry] in *.
  exact (union_difference_disjoint _ _ Hdisj).
Qed.

Lemma unload_undoes_setup_on_fresh_host :
  listeners fresh_world = ∅
  /\ services fresh_world ## list_to_set Profiler.SERVICES
  /\ exists w',
       Profiler.async_unload_entry "profiler"
         (serve_all example_env every_service_once
            (fst (Profiler.async_setup_entry fresh_world)))
       = (w', inr true)
       /\ listeners w' = ∅ /\ has_domain w' = false
       /\ services w' = ∅.
Proof.
  assert (Hdisj : services fresh_world ## list_to_set Profiler.SERVICES)
    by (intros x Hx _; cbn in Hx; exact (not_elem_of_empty x Hx)).
  split; [reflexivity|]. split; [exact Hdisj|].
  exact (unload_undoes_setup example_env every_service_once fresh_world
           eq_refl Hdisj eq_refl).
Defined.

Lemma unload_without_state_raises (DOMAIN : string) (w : World) :
  has_domain w = false ->
  Profiler.async_unload_entry DOMAIN w
  = (set_services (services w ∖ list_to_set Profiler.SERVICES) w,
     inl (KeyError DOMAIN)).
Proof.
  intros H. unfold Profiler.async_unload_entry, bind, get, modify. cbn.
  rewrite H. reflexivity.
Qed.

Lemma difference_twice (A S : gset string) : (A ∖ S) ∖ S = A ∖ S.
Proof.
  apply set_eq. intros x. rewrite !elem_of_difference. tauto.
Qed.

(** Unload is not repeatable: on a set-up installation it returns
    [True]; run again on the state it left, it raises [KeyError] for the
    domain, and that second run changes nothing at all (the services it
    removes first are already gone). *)
Theorem unload_twice_raises_and_changes_nothing (DOMAIN : string)
    (w : World) :
  has_domain w = true ->
  exists w',
    Profiler.async_unload_entry DOMAIN w = (w', inr true)
    /\ Profiler.async_unload_entry DOMAIN w' = (w', inl (KeyError DOMAIN)).
Proof.
  intros H.
  assert (Hfirst : exists w',
             Profiler.async_unload_entry DOMAIN w = (w', inr true)
             /\ has_domain w' = false
             /\ services w' = services w ∖ list_to_set Profiler.SERVICES).
  { unfold Profiler.async_unload_entry, bind, get, modify. cbn. rewrite H.
    destruct (domain_data w !! Profiler.LOG_INTERVAL_SUB); cbn;
      eexists; repeat split. }
  destruct Hfirst as (w' & Hrun & Hd & Hs).
  exists w'. split; [exact Hrun|].
  rewrite (unload_without_state_raises DOMAIN w' Hd). f_equal.
  rewrite Hs, difference_twice, <- Hs. destruct w'; reflexivity.
Qed.

Lemma unload_twice_on_fresh_host :
  has_domain (fst (Profiler.async_setup_entry fresh_world)) = true
  /\ exists w',
       Profiler.async_unload_entry "profiler"
         (fst (Profiler.async_setup_entry fresh_world)) = (w', inr true)
       /\ Profiler.async_unload_entry "profiler" w'
          = (w', inl (KeyError "profiler")).
Proof.
  split; [reflexivity|].
  exact (unload_twice_raises_and_changes_nothing "profiler"
           (fst (Profiler.async_setup_entry fresh_world)) eq_refl).
Defined.

(** ** Starts that fail, are stopped, or overlap *)

Section GrowthLogging.
Variable emit_raises : logrecord -> Repr -> bool.

Lemma resume_installs (call : gmap string pyobj) (interval : pyobj)
    (w : World) :
  emit_raises growth_record (arepr w) = false ->
  call !! Profiler.CONF_SCAN_INTERVAL = Some interval ->
  exists w',
    start_resume emit_raises call w = (w', inr tt)
    /\ listeners w' = <[next_listener w := interval]> (listeners w)
    /\ domain_data w'
       = <[Profiler.LOG_INTERVAL_SUB := next_listener w]> (domain_data w)
    /\ next_listener w' = S (next_listener w)
    /\ notifications w' = notifications w
    /\ has_domain w' = has_domain w /\ arepr w' = arepr w.
Proof.
  intros Hlog Hcall.
  unfold start_resume, Profiler._log_objects, Profiler.critical, bind.
  fold growth_record. rewrite Hlog. cbn.
  unfold Profiler.start_log_objects_end, Profiler.call_data, bind.
  rewrite Hcall. cbn. eexists. split; [reflexivity|]. cbn. repeat split.
Qed.

Lemma begin_state (w : World) :
  stored_only w ->
  exists w1,
    Profiler.start_log_objects_begin w = (w1, inr tt)
    /\ listeners w1 = ∅ /\ domain_data w1 = domain_data w
    /\ next_listener w1 = next_listener w
    /\ notifications w1
       = <["profile_object_logging" :=
             ("Object growth logging started",
              "Object growth logging has started. See [the logs](/config/logs) to track the growth of new objects.")]>
           (notifications w)
    /\ has_domain w1 = has_domain w /\ arepr w1 = arepr w
    /\ services w1 = services w /\ trace w1 = trace w.
Proof.
  intros H. destruct (begin_cancels w H) as (w1 & Hrun & Hl & Hd & Hn).
  exists w1. split; [exact Hrun|]. split; [exact Hl|]. split; [exact Hd|].
  split; [exact Hn|].
  revert Hrun. unfold Profiler.start_log_objects_begin, bind, get. cbn.
  destruct (domain_data w !! Profiler.LOG_INTERVAL_SUB); cbn;
    intros [= <-]; repeat split.
Qed.




(** Two starts that overlap.  The handler is not behind a lock: when a
    second call runs up to its [await] while the first is suspended at
    its own, each installs a listener and only the second is stored.
    Two listeners are then active; a stop cancels the stored one and
    leaves the other running with nothing in the state to reach it. *)
Theorem overlapping_starts_leak_a_listener
    (call1 call2 : gmap string pyobj) (interval1 interval2 : pyobj)
    (w : World) :
  stored_only w ->
  (forall limits, emit_raises growth_record limits = false) ->
  call1 !! Profiler.CONF_SCAN_INTERVAL = Some interval1 ->
  call2 !! Profiler.CONF_SCAN_INTERVAL = Some interval2 ->
  let n := next_listener w in
  exists w1 w2 w3 w4 w5,
    Profiler.start_log_objects_begin w = (w1, inr tt)
    /\ Profiler.start_log_objects_begin w1 = (w2, inr tt)
    /\ start_resume emit_raises call1 w2 = (w3, inr tt)
    /\ start_resume emit_raises call2 w3 = (w4, inr tt)
    /\ listeners w4 = <[S n := interval2]> {[n := interval1]}
    /\ size (listeners w4) = 2
    /\ domain_data w4 !! Profiler.LOG_INTERVAL_SUB = Some (S n)
    /\ Profiler._async_stop_log_objects w4 = (w5, inr tt)
    /\ listeners w5 = {[n := interval1]}
    /\ domain_data w5 !! Profiler.LOG_INTERVAL_SUB = None.
Proof.
  intros H Hlog Hc1 Hc2 n.
  destruct (begin_state w H) as (w1 & Hrun1 & Hl1 & Hd1 & Hn1 & _).
  assert (H1 : stored_only w1) by now apply stored_only_none_active.
  destruct (begin_state w1 H1) as (w2 & Hrun2 & Hl2 & Hd2 & Hn2 & _).
  destruct (resume_installs call1 interval1 w2 (Hlog _) Hc1)
    as (w3 & Hrun3 & Hl3 & Hd3 & Hn3 & _).
  destruct (resume_installs call2 interval2 w3 (Hlog _) Hc2)
    as (w4 & Hrun4 & Hl4 & Hd4 & Hn4 & _).
  assert (En : next_listener w2 = n) by (unfold n; congruence).
  assert (El4 : listeners w4 = <[S n := interval2]> {[n := interval1]}).
  { rewrite Hl4, Hl3, Hn3, Hl2, En. reflexivity. }
  assert (Ed4 : domain_data w4 !! Profiler.LOG_INTERVAL_SUB = Some (S n)).
  { rewrite Hd4, Hn3, En. apply lookup_insert_eq. }
  exists w1, w2, w3, w4.
  unfold Profiler._async_stop_log_objects, bind, get. cbn. rewrite Ed4. cbn.
  eexists. split; [exact Hrun1|]. split; [exact Hrun2|].
  split; [exact Hrun3|]. split; [exact Hrun4|]. split; [exact El4|].
  split.
  { rewrite El4, map_size_insert_None, map_size_singleton; [reflexivity|].
    apply lookup_singleton_ne. lia. }
  split; [reflexivity|]. split; [reflexivity|]. cbn. split.
  - rewrite El4, delete_insert_eq. apply delete_id.
    apply lookup_singleton_ne. lia.
  - apply lookup_delete_eq.
Qed.

End GrowthLogging.




Lemma overlapping_starts_on_fresh_host :
  stored_only (fst (Profiler.async_setup_entry fresh_world))
  /\ exists w1 w2 w3 w4,
       Profiler.start_log_objects_begin
         (fst (Profiler.async_setup_entry fresh_world)) = (w1, inr tt)
       /\ Profiler.start_log_objects_begin w1 = (w2, inr tt)
       /\ start_resume never_raises call_every_30_seconds w2 = (w3, inr tt)
       /\ start_resume never_raises call_every_30_seconds w3 = (w4, inr tt)
       /\ listeners w4 = {[0 := VTimedelta 30; 1 := VTimedelta 30]}
       /\ listeners (fst (Profiler._async_stop_log_objects w4))
          = {[0 := VTimedelta 30]}.
Proof.
  assert (H : stored_only (fst (Profiler.async_setup_entry fresh_world)))
    by (apply stored_only_none_active; reflexivity).
  split; [exact H|].
  destruct (overlapping_starts_leak_a_listener never_raises
              call_every_30_seconds call_every_30_seconds
              (VTimedelta 30) (VTimedelta 30)
              (fst (Profiler.async_setup_entry fresh_world)) H
              (fun _ => eq_refl) (lookup_singleton_eq _ _)
              (lookup_singleton_eq _ _))
    as (w1 & w2 & w3 & w4 & w5 & H1 & H2 & H3 & H4 & Hl & _ & _ & H5 & Hl5 & _).
  exists w1, w2, w3, w4. repeat (split; [assumption|]).
  rewrite H5. exact Hl5.
Defined.

(** An unload that comes while a start is suspended at its [await]:
    the start installs its listener when it resumes, although the entry
    is unloaded; the listener is active with the state dropped and the
    services removed. *)
Theorem start_resumed_after_unload_leaks
    (DOMAIN : string) (emit_raises : logrecord -> Repr -> bool)
    (call : gmap string pyobj) (interval : pyobj) (w : World) :
  stored_only w ->
  has_domain w = true ->
  (forall limits, emit_raises growth_record limits = false) ->
  call !! Profiler.CONF_SCAN_INTERVAL = Some interval ->
  exists w1 w2 w3,
    Profiler.start_log_objects_begin w = (w1, inr tt)
    /\ Profiler.async_unload_entry DOMAIN w1 = (w2, inr true)
    /\ start_resume emit_raises call w2 = (w3, inr tt)
    /\ listeners w3 = {[next_listener w := interval]}
    /\ has_domain w3 = false.
Proof.
  intros H Hdom Hlog Hcall.
  destruct (begin_state w H)
    as (w1 & Hrun1 & Hl1 & Hd1 & Hn1 & _ & Hdom1 & _).
  assert (H1 : stored_only w1) by now apply stored_only_none_active.
  destruct (unload_cancels DOMAIN w1 H1) as [_ Hunload].
  destruct Hunload as (w2 & Hrun2 & Hl2 & Hdom2 & _); [congruence|].
  assert (Hn2 : next_listener w2 = next_listener w1).
  { revert Hrun2. unfold Profiler.async_unload_entry, bind, get, modify. cbn.
    destruct (has_domain w1); [|discriminate]. cbn.
    destruct (domain_data w1 !! Profiler.LOG_INTERVAL_SUB); cbn;
      intros [= <-]; reflexivity. }
  destruct (resume_installs emit_raises call interval w2 (Hlog _) Hcall)
    as (w3 & Hrun3 & Hl3 & _ & _ & _ & Hdom3 & _).
  exists w1, w2, w3. repeat (split; [assumption|]). split.
  - rewrite Hl3, Hl2, Hn2, Hn1. reflexivity.
  - congruence.
Qed.

Lemma unload_during_start_on_fresh_host :
  stored_only (fst (Profiler.async_setup_entry fresh_world))
  /\ exists w1 w2 w3,
       Profiler.start_log_objects_begin
         (fst (Profiler.async_setup_entry fresh_world)) = (w1, inr tt)
       /\ Profiler.async_unload_entry "profiler" w1 = (w2, inr true)
       /\ start_resume never_raises call_every_30_seconds w2 = (w3, inr tt)
       /\ listeners w3 = {[0 := VTimedelta 30]}
       /\ has_domain w3 = false.
Proof.
  assert (H : stored_only (fst (Profiler.async_setup_entry fresh_world)))
    by (apply stored_only_none_active; reflexivity).
  split; [exact H|].
  exact (start_resumed_after_unload_leaks "profiler" never_raises
           call_every_30_seconds (VTimedelta 30)
           (fst (Profiler.async_setup_entry fresh_world)) H eq_refl
           (fun _ => eq_refl) (lookup_singleton_eq _ _)).
Defined.

(** ** What a profile run leaves behind *)

Section ProfileOutcomes.
Variable float_of_str : string -> option pyfloat.
Variable config_path : string -> string.
Variable runtime : Runtime.

Lemma sleep_when_not (seconds : pyfloat) (w : World) :
  sleep_returns runtime seconds = false ->
  exists e,
    Profiler.sleep runtime seconds w
    = (set_trace (trace w ++ [Sleep seconds]) w, inl e)
    /\ (e = NeverReturns \/ e = ValueError).
Proof.
  unfold sleep_returns, Profiler.sleep, Profiler.wake_up, bind.
  destruct seconds as [d|[|]|]; try destruct (sleep_nan runtime);
    try discriminate; intros _; eexists; (split; [reflexivity|]); auto.
Qed.

(** The CPU profile, stage by stage, with the clock at or after the
    epoch.  Without a [seconds] that [float] converts the handler
    raises what the lookup or [float] raised, after the profiler was
    enabled: no sleep, no file, the profiler is left enabled and the
    notification says "Profile Started".  With one, it sleeps.  If the
    sleep does not end, the handler stays there or raises: the profiler
    is left enabled and no file is written.  If it ends, the profiler is
    disabled and only then are the files written: without
    [pyprof2calltree] the handler raises [ImportError] with no file
    written, and with it and both writes succeeding it returns, the
    run's one notification saying "Profile Complete" and naming the two
    paths. *)
Theorem cpu_profile_outcomes (call : gmap string pyobj) (w : World)
    (x p : Q) :
  clock w = Finite x ->
  (0 <= x)%Q ->
  float_mul (Finite x) (Finite 1000000) = Finite p ->
  let t := str_of_int (Qfloor p) in
  let cprofile_path := config_path ("profile." +:+ t +:+ ".cprof") in
  let callgrind_path := config_path ("callgrind.out." +:+ t) in
  let run :=
    Profiler._async_generate_profile float_of_str config_path runtime call
      w in
  let started :=
    <["profiler_" +:+ t := profile_started]> (notifications w) in
  match seconds_of float_of_str call with
  | inl e =>
      exists w',
        run = (w', inl e)
        /\ trace w' = trace w ++ [ProfilerEnable]
        /\ notifications w' = started
        /\ clock w' = clock w
  | inr seconds =>
      if sleep_returns runtime seconds then
        (pyprof2calltree_importable runtime = false ->
         exists w',
           run = (w', inl (ImportError "pyprof2calltree"))
           /\ trace w'
              = trace w ++ [ProfilerEnable; Sleep seconds; ProfilerDisable]
           /\ notifications w' = started)
        /\ (pyprof2calltree_importable runtime = true ->
            writes_succeed runtime ->
            exists w',
              run = (w', inr tt)
              /\ trace w'
                 = trace w
                   ++ [ProfilerEnable; Sleep seconds; ProfilerDisable;
                       DumpStats cprofile_path; Callgrind callgrind_path]
              /\ notifications w'
                 = <["profiler_" +:+ t :=
                       ("Profile Complete",
                        "Wrote cProfile data to " +:+ cprofile_path
                        +:+ " and callgrind data to " +:+ callgrind_path)]>
                     (notifications w))
      else
        exists w' e,
          run = (w', inl e)
          /\ (e = NeverReturns \/ e = ValueError)
          /\ trace w' = trace w ++ [ProfilerEnable; Sleep seconds]
          /\ notifications w' = started
  end.
Proof.
  intros Hclock Hx Hp t cprofile_path callgrind_path run started.
  destruct (seconds_of float_of_str call) as [e|seconds] eqn:Hsec.
  - unfold run, Profiler._async_generate_profile, Profiler.call_data,
      Profiler.float, Profiler.int, bind, Profiler.time_time.
    rewrite Hclock, (start_time_floor x p Hx Hp).
    cbn -[Profiler.sleep Profiler.write].
    revert Hsec. unfold seconds_of.
    destruct (call !! Profiler.CONF_SECONDS) as [v|].
    + cbn -[Profiler.sleep Profiler.write]. intros ->.
      eexists. split; [reflexivity|]. repeat split; exact Hclock.
    + intros [= <-]. eexists. split; [reflexivity|].
      repeat split; exact Hclock.
  - destruct (sleep_returns runtime seconds) eqn:Hsleep.
    + split.
      * intros Himport.
        unfold run, Profiler._async_generate_profile,
          Profiler._write_profile, Profiler.call_data, Profiler.float,
          Profiler.int, bind, Profiler.time_time.
        rewrite Hclock, (start_time_floor x p Hx Hp).
        cbn -[Profiler.sleep Profiler.write].
        revert Hsec. unfold seconds_of.
        destruct (call !! Profiler.CONF_SECONDS) as [v|]; [|discriminate].
        cbn -[Profiler.sleep Profiler.write]. intros ->.
        cbn -[Profiler.sleep Profiler.write].
        rewrite (sleep_when_returns _ _ _ Hsleep).
        cbn -[Profiler.sleep Profiler.write]. rewrite Himport.
        eexists. split; [reflexivity|]. cbn. split; [|reflexivity].
        rewrite <- !app_assoc. reflexivity.
      * intros Himport Hwrite.
        exact (profile_completes float_of_str config_path runtime call w x
                 p seconds Hclock Hx Hp Hsec Hsleep Himport Hwrite).
    + unfold run, Profiler._async_generate_profile, Profiler.call_data,
        Profiler.float, Profiler.int, bind, Profiler.time_time.
      rewrite Hclock, (start_time_floor x p Hx Hp).
      cbn -[Profiler.sleep Profiler.write].
      revert Hsec. unfold seconds_of.
      destruct (call !! Profiler.CONF_SECONDS) as [v|]; [|discriminate].
      cbn -[Profiler.sleep Profiler.write]. intros ->.
      cbn -[Profiler.sleep Profiler.write].
      match goal with |- context [Profiler.sleep runtime seconds ?w1] =>
        destruct (sleep_when_not seconds w1 Hsleep) as (e & -> & He) end.
      eexists. exists e. split; [reflexivity|]. split; [exact He|].
      cbn. split; [|reflexivity]. rewrite <- !app_assoc. reflexivity.
Qed.

(** The memory profile, stage by stage, on an interpreter below 3.11
    with the clock at or after the epoch.  Without [guppy] it raises
    [ImportError] and the host state is untouched.  With it, and
    without a [seconds] that [float] converts, it raises after the
    reference point was set, with no file and the notification at
    "Profile Started".  With one it sleeps: if the sleep does not end
    the handler stays there or raises, the heap is never taken and no
    file is written; if it ends and the write succeeds, the heap is
    taken after the sleep, one file is written and the notification
    names its path. *)
Theorem memory_profile_outcomes (version : version_info)
    (guppy_importable : bool) (call : gmap string pyobj) (w : World)
    (x p : Q) :
  ~ at_least_3_11 version ->
  clock w = Finite x ->
  (0 <= x)%Q ->
  float_mul (Finite x) (Finite 1000000) = Finite p ->
  let t := str_of_int (Qfloor p) in
  let heap_path := config_path ("heap_profile." +:+ t +:+ ".hpy") in
  let run :=
    Profiler._async_generate_memory_profile float_of_str config_path
      version guppy_importable runtime call w in
  let started :=
    <["memory_profiler_" +:+ t := memory_profile_started]>
      (notifications w) in
  match guppy_importable, seconds_of float_of_str call with
  | false, _ => run = (w, inl (ImportError "guppy"))
  | true, inl e =>
      exists w',
        run = (w', inl e)
        /\ trace w' = trace w ++ [HpyNew; HpySetref]
        /\ notifications w' = started
  | true, inr seconds =>
      if sleep_returns runtime seconds then
        writes_succeed runtime ->
        exists w',
          run = (w', inr tt)
          /\ trace w'
             = trace w
               ++ [HpyNew; HpySetref; Sleep seconds; HpyHeap;
                   HeapDump heap_path]
          /\ notifications w'
             = <["memory_profiler_" +:+ t :=
                   ("Profile Complete",
                    "Wrote heapy memory profile to " +:+ heap_path)]>
                 (notifications w)
      else
        exists w' e,
          run = (w', inl e)
          /\ (e = NeverReturns \/ e = ValueError)
          /\ trace w' = trace w ++ [HpyNew; HpySetref; Sleep seconds]
          /\ notifications w' = started
  end.
Proof.
  intros Hver Hclock Hx Hp t heap_path run started.
  destruct guppy_importable.
  2:{ unfold run, Profiler._async_generate_memory_profile.
      rewrite (tuple_ge_below_3_11 version Hver). reflexivity. }
  destruct (seconds_of float_of_str call) as [e|seconds] eqn:Hsec.
  - unfold run, Profiler._async_generate_memory_profile.
    rewrite (tuple_ge_below_3_11 version Hver).
    unfold Profiler.call_data, Profiler.float, Profiler.int, bind,
      Profiler.time_time.
    cbn -[Profiler.sleep Profiler.write].
    rewrite Hclock, (start_time_floor x p Hx Hp).
    cbn -[Profiler.sleep Profiler.write].
    revert Hsec. unfold seconds_of.
    destruct (call !! Profiler.CONF_SECONDS) as [v|].
    + cbn -[Profiler.sleep Profiler.write]. intros ->.
      eexists. split; [reflexivity|]. cbn. split; [|reflexivity].
      rewrite <- !app_assoc. reflexivity.
    + intros [= <-]. eexists. split; [reflexivity|]. cbn.
      split; [|reflexivity]. rewrite <- !app_assoc. reflexivity.
  - destruct (sleep_returns runtime seconds) eqn:Hsleep.
    + intros Hwrite.
      exact (memory_profile_completes float_of_str config_path runtime
               version call w x p seconds Hver Hclock Hx Hp Hsec Hsleep
               Hwrite).
    + unfold run, Profiler._async_generate_memory_profile.
      rewrite (tuple_ge_below_3_11 version Hver).
      unfold Profiler.call_data, Profiler.float, Profiler.int, bind,
        Profiler.time_time.
      cbn -[Profiler.sleep Profiler.write].
      rewrite Hclock, (start_time_floor x p Hx Hp).
      cbn -[Profiler.sleep Profiler.write].
      revert Hsec. unfold seconds_of.
      destruct (call !! Profiler.CONF_SECONDS) as [v|]; [|discriminate].
      cbn -[Profiler.sleep Profiler.write]. intros ->.
      cbn -[Profiler.sleep Profiler.write].
      match goal with |- context [Profiler.sleep runtime seconds ?w1] =>
        destruct (sleep_when_not seconds w1 Hsleep) as (e & -> & He) end.
      eexists. exists e. split; [reflexivity|]. split; [exact He|].
      cbn. split; [|reflexivity]. rewrite <- !app_assoc. reflexivity.
Qed.

Lemma profile_never_returns (call : gmap string pyobj) (w : World)
    (x p : Q) :
  clock w = Finite x ->
  (0 <= x)%Q ->
  float_mul (Finite x) (Finite 1000000) = Finite p ->
  seconds_of float_of_str call = inr (Inf false) ->
  snd (Profiler._async_generate_profile float_of_str config_path runtime
         call w) = inl NeverReturns
  /\ forall version,
       ~ at_least_3_11 version ->
       snd (Profiler._async_generate_memory_profile float_of_str
              config_path version true runtime call w) = inl NeverReturns.
Proof.
  intros Hclock Hx Hp Hsec. split; [|intros version Hver];
    [unfold Profiler._async_generate_profile
    |unfold Profiler._async_generate_memory_profile;
     rewrite (tuple_ge_below_3_11 version Hver)];
    unfold Profiler.call_data, Profiler.float, Profiler.int, bind,
      Profiler.time_time;
    cbn -[Profiler.sleep Profiler.write];
    rewrite Hclock, (start_time_floor x p Hx Hp);
    cbn -[Profiler.sleep Profiler.write];
    revert Hsec; unfold seconds_of;
    (destruct (call !! Profiler.CONF_SECONDS) as [v|]; [|discriminate]);
    cbn -[Profiler.sleep Profiler.write]; intros ->; reflexivity.
Qed.

(** What the schema lets through reaches the sleep, and the sleep need
    not end.  For call data the [seconds] schema accepts, the call the
    handlers get holds [seconds] alone, a float, and [float] returns it
    as it is, so that neither handler can fail on a missing or
    unconvertible [seconds].  With the clock at or after the epoch each
    handler then returns if the sleep ends, the libraries are there and
    the writes succeed.  But the schema accepts [inf], and for [inf]
    neither handler ever returns. *)
Theorem validated_seconds_reach_the_profile
    (data call : gmap string pyobj) (version : version_info) (w : World)
    (x p : Q) :
  Schema.seconds_schema float_of_str data = Schema.Valid call ->
  clock w = Finite x ->
  (0 <= x)%Q ->
  float_mul (Finite x) (Finite 1000000) = Finite p ->
  let cpu :=
    Profiler._async_generate_profile float_of_str config_path runtime call
      w in
  let mem :=
    Profiler._async_generate_memory_profile float_of_str config_path
      version true runtime call w in
  exists seconds,
    call = {[Profiler.CONF_SECONDS := VFloat seconds]}
    /\ seconds_of float_of_str call = inr seconds
    /\ (sleep_returns runtime seconds = true ->
        writes_succeed runtime ->
        (pyprof2calltree_importable runtime = true -> snd cpu = inr tt)
        /\ (~ at_least_3_11 version -> snd mem = inr tt))
    /\ (seconds = Inf false ->
        snd cpu = inl NeverReturns
        /\ (~ at_least_3_11 version -> snd mem = inl NeverReturns)).
Proof.
  intros Hvalid Hclock Hx Hp cpu mem.
  destruct (seconds_schema_valid float_of_str data call Hvalid)
    as (seconds & -> & _).
  assert (Hsec : seconds_of float_of_str
                   {[Profiler.CONF_SECONDS := VFloat seconds]}
                 = inr seconds).
  { unfold seconds_of. rewrite lookup_singleton_eq. reflexivity. }
  exists seconds. split; [reflexivity|]. split; [exact Hsec|]. split.
  - intros Hsleep Hwrite. split.
    + intros Himport.
      destruct (profile_completes float_of_str config_path runtime _ w x p
                  seconds Hclock Hx Hp Hsec Hsleep Himport Hwrite)
        as (w' & Hrun & _).
      exact (f_equal snd Hrun).
    + intros Hver.
      destruct (memory_profile_completes float_of_str config_path runtime
                  version _ w x p seconds Hver Hclock Hx Hp Hsec Hsleep
                  Hwrite) as (w' & Hrun & _).
      exact (f_equal snd Hrun).
  - intros ->.
    destruct (profile_never_returns _ w x p Hclock Hx Hp Hsec)
      as [Hcpu Hmem].
    split; [exact Hcpu|]. intros Hver. exact (Hmem version Hver).
Qed.

End ProfileOutcomes.

Lemma fresh_world_start_time :
  clock fresh_world = Finite (6800000001 # 4)
  /\ (0 <= 6800000001 # 4)%Q
  /\ float_mul (Finite (6800000001 # 4)) (Finite 1000000)
     = Finite 1700000000250000.
Proof.
  split; [reflexivity|]. split; [discriminate|]. vm_compute. reflexivity.
Qed.

Lemma cpu_profile_run_on_fresh_host :
  clock fresh_world = Finite (6800000001 # 4)
  /\ (0 <= 6800000001 # 4)%Q
  /\ float_mul (Finite (6800000001 # 4)) (Finite 1000000)
     = Finite 1700000000250000
  /\ exists w',
       Profiler._async_generate_profile no_float_of_str under_config
         sound_runtime call_60_seconds fresh_world = (w', inr tt)
       /\ trace w'
          = [ProfilerEnable; Sleep (Finite 60); ProfilerDisable;
             DumpStats "/config/profile.1700000000250000.cprof";
             Callgrind "/config/callgrind.out.1700000000250000"].
Proof.
  destruct fresh_world_start_time as (Hclock & Hx & Hp).
  split; [exact Hclock|]. split; [exact Hx|]. split; [exact Hp|].
  pose proof (cpu_profile_outcomes no_float_of_str under_config
                sound_runtime call_60_seconds fresh_world _ _ Hclock Hx Hp)
    as H.
  cbv zeta in H.
  change (seconds_of no_float_of_str call_60_seconds)
    with (@inr exn pyfloat (Finite 60)) in H.
  cbn [sleep_returns] in H.
  destruct H as [_ H].
  destruct (H eq_refl sound_runtime_writes) as (w' & Hrun & Htrace & _).
  exists w'. split; [exact Hrun|]. rewrite Htrace. reflexivity.
Defined.

Lemma memory_profile_run_on_3_10 :
  ~ at_least_3_11 python_3_10
  /\ exists w',
       Profiler._async_generate_memory_profile no_float_of_str under_config
         python_3_10 true sound_runtime call_60_seconds fresh_world
       = (w', inr tt)
       /\ trace w'
          = [HpyNew; HpySetref; Sleep (Finite 60); HpyHeap;
             HeapDump "/config/heap_profile.1700000000250000.hpy"].
Proof.
  split; [exact python_3_10_is_below_3_11|].
  destruct fresh_world_start_time as (Hclock & Hx & Hp).
  pose proof (memory_profile_outcomes no_float_of_str under_config
                sound_runtime python_3_10 true call_60_seconds fresh_world
                _ _ python_3_10_is_below_3_11 Hclock Hx Hp) as H.
  cbv zeta in H.
  change (seconds_of no_float_of_str call_60_seconds)
    with (@inr exn pyfloat (Finite 60)) in H.
  cbn [sleep_returns] in H.
  destruct (H sound_runtime_writes) as (w' & Hrun & Htrace & _).
  exists w'. split; [exact Hrun|]. rewrite Htrace. reflexivity.
Defined.

Lemma default_seconds_reach_the_profile :
  Schema.seconds_schema no_float_of_str ∅ = Schema.Valid call_60_seconds
  /\ snd (Profiler._async_generate_profile no_float_of_str under_config
            sound_runtime call_60_seconds fresh_world) = inr tt
  /\ snd (Profiler._async_generate_memory_profile no_float_of_str
            under_config python_3_10 true sound_runtime call_60_seconds
            fresh_world) = inr tt.
Proof.
  assert (H : Schema.seconds_schema no_float_of_str ∅
              = Schema.Valid call_60_seconds)
    by apply seconds_schema_omitted.
  split; [exact H|].
  destruct fresh_world_start_time as (Hclock & Hx & Hp).
  destruct (validated_seconds_reach_the_profile no_float_of_str under_config
              sound_runtime ∅ call_60_seconds python_3_10 fresh_world _ _ H
              Hclock Hx Hp) as (seconds & Hcall & Hsec & Hret & _).
  assert (seconds = Finite 60) as ->.
  { revert Hsec. unfold seconds_of, call_60_seconds.
    rewrite lookup_singleton_eq. cbn. congruence. }
  destruct (Hret eq_refl sound_runtime_writes) as [Hcpu Hmem].
  split; [exact (Hcpu eq_refl) | exact (Hmem python_3_10_is_below_3_11)].
Defined.

(** [seconds = inf] passes the schema, and the profile it starts never
    ends: the profiler stays enabled and nothing is written. *)
Example profile_for_ever :
  Schema.seconds_schema no_float_of_str call_for_ever
    = Schema.Valid call_for_ever
  /\ exists w',
       Profiler._async_generate_profile no_float_of_str under_config
         sound_runtime call_for_ever fresh_world = (w', inl NeverReturns)
       /\ trace w' = [ProfilerEnable; Sleep (Inf false)].
Proof.
  split; [vm_compute; reflexivity|].
  eexists. split; [vm_compute; reflexivity|]. reflexivity.
Qed.

(** A configuration directory that cannot be written to: the handler
    raises after the sleep, with the profiler disabled and no file. *)
Example profile_on_read_only_directory :
  exists w',
    Profiler._async_generate_profile no_float_of_str under_config
      read_only_runtime call_60_seconds fresh_world = (w', inl UserException)
    /\ trace w' = [ProfilerEnable; Sleep (Finite 60); ProfilerDisable].
Proof. eexists. split; [vm_compute; reflexivity|]. reflexivity. Qed.

Example cpu_profile_without_seconds :
  exists w',
    Profiler._async_generate_profile no_float_of_str under_config
      sound_runtime ∅ fresh_world = (w', inl (KeyError "seconds"))
    /\ trace w' = [ProfilerEnable]
    /\ files_written (trace w') = [].
Proof. eexists. split; [vm_compute; reflexivity|]. split; reflexivity. Qed.

(** ** The object dump, all or nothing *)

Lemma safe_repr_outcome (obj : LiveObject) (w : World) :
  (exists s, Profiler._safe_repr obj w = (w, inr s))
  \/ (exists e,
        Profiler._safe_repr obj w = (w, inl e)
        /\ (e = UserException \/ exists name, e = BaseException name)).
Proof.
  destruct (representation obj) as [s|] eqn:Hobj.
  - left. exists s. now apply safe_repr_returns.
  - right. now apply safe_repr_raises.
Qed.

Lemma comprehension_safe_repr (objs : list LiveObject) (w : World) :
  fst (comprehension objs Profiler._safe_repr w) = w
  /\ (forall reprs,
        snd (comprehension objs Profiler._safe_repr w) = inr reprs ->
        length reprs = length objs)
  /\ (forall e,
        snd (comprehension objs Profiler._safe_repr w) = inl e ->
        e = UserException \/ exists name, e = BaseException name).
Proof.
  induction objs as [|obj objs (IHw & IHl & IHe)]; cbn [comprehension].
  - split; [reflexivity|]. cbn.
    split; [now intros reprs [= <-] | discriminate].
  - unfold bind.
    destruct (safe_repr_outcome obj w) as [[s Hs]|(e0 & Hs & He0)];
      rewrite Hs.
    + destruct (comprehension objs Profiler._safe_repr w) as [w1 [e|l]];
        cbn in *; subst w1; (split; [reflexivity|]).
      * split; [intros reprs Hr; discriminate Hr|].
        intros e' [= <-]. now apply IHe.
      * split; [|intros e' He; discriminate He].
        intros reprs [= <-]. cbn. f_equal. now apply IHl.
    + cbn. split; [reflexivity|].
      split; [intros reprs Hr; discriminate Hr|].
      intros e [= <-]. exact He0.
Qed.

(** The object dump either happens or leaves no mark.  When the handler
    raises (no [type] in the call, a [type] that is not a string, a
    [repr] raising outside [Exception], a type that cannot be
    formatted, or the logger raising) the host state is exactly what it
    was.  When it returns it has logged one
    record, holding as many representations as there are live instances
    of the type, and shown the completion notification. *)
Theorem object_dump_is_all_or_nothing
    (by_type : string -> list LiveObject)
    (emit_raises : logrecord -> Repr -> bool) (call : gmap string pyobj)
    (w : World) :
  (forall w' e,
     Profiler._dump_log_objects by_type emit_raises call w = (w', inl e) ->
     w' = w)
  /\ (forall w',
        Profiler._dump_log_objects by_type emit_raises call w = (w', inr tt) ->
        exists obj_type reprs,
          call !! Profiler.CONF_TYPE = Some (VStr obj_type)
          /\ trace w' = trace w ++ [dump_record obj_type reprs]
          /\ length reprs = length (by_type obj_type)
          /\ is_Some (notifications w' !! "profile_object_dump")).
Proof.
  unfold Profiler._dump_log_objects, Profiler.call_data, bind.
  destruct (call !! Profiler.CONF_TYPE) as [v|]; cbn;
    [|split; [now intros w' e [= <- _] | discriminate]].
  destruct v as [|b|n|x|obj_type|x]; cbn;
    try (split; [now intros w' e [= <- _] | discriminate]).
  destruct (comprehension_safe_repr (by_type obj_type) w) as (Hw & Hlen & _).
  destruct (comprehension (by_type obj_type) Profiler._safe_repr w)
    as [w1 [e|reprs]]; cbn in Hw, Hlen; subst w1.
  - split; [now intros w' e' [= <- _] | discriminate].
  - unfold Profiler.critical.
    destruct (emit_raises _ (arepr w)); cbn.
    + split; [now intros w' e' [= <- _] | discriminate].
    + split; [discriminate|]. intros w' [= <-].
      exists obj_type, reprs. cbn. split; [reflexivity|].
      split; [reflexivity|]. split; [now apply Hlen|].
      rewrite lookup_insert_eq. eauto.
Qed.




(** ** The cache statistics and the thread dump *)

Lemma logs_ret : logs (ret tt) [].
Proof. intros w. exists w. rewrite app_nil_r. auto. Qed.

Lemma logs_bind (m : M unit) (k : M unit) (r1 r2 : list effect) :
  logs m r1 -> logs k r2 -> logs (bind m (fun _ => k)) (r1 ++ r2).
Proof.
  intros Hm Hk w. destruct (Hm w) as (w1 & Hrun1 & Ht1 & Ha1 & Hn1).
  destruct (Hk w1) as (w2 & Hrun2 & Ht2 & Ha2 & Hn2).
  exists w2. unfold bind. rewrite Hrun1, Hrun2.
  split; [reflexivity|]. split; [|split; congruence].
  rewrite Ht2, Ht1. symmetry. apply app_assoc.
Qed.

Lemma logs_for_each {A} (l : list A) (body : A -> M unit)
    (recs : A -> list effect) :
  (forall x, In x l -> logs (body x) (recs x)) ->
  logs (for_each l body) (flat_map recs l).
Proof.
  induction l as [|x l IH]; intros H; cbn [for_each flat_map].
  - apply logs_ret.
  - apply logs_bind; [apply H; now left|]. apply IH.
    intros y Hy. apply H. now right.
Qed.


Lemma flat_map_unless {A B} (p : A -> bool) (f : A -> B) (l : list A) :
  flat_map (fun x => if p x then [] else [f x]) l
  = map f (List.filter (fun x => negb (p x)) l).
Proof.
  induction l as [|x l IH]; cbn; [reflexivity|].
  destruct (p x); cbn; now rewrite IH.
Qed.

Lemma for_each_ext_in {A} (l : list A) (f g : A -> M unit) :
  (forall x, In x l -> f x = g x) -> for_each l f = for_each l g.
Proof.
  induction l as [|x l IH]; intros H; cbn [for_each]; [reflexivity|].
  rewrite (H x (or_introl eq_refl)), IH; [reflexivity|].
  intros y Hy. apply H. now right.
Qed.

Section CacheStatistics.
Variable emit_raises : logrecord -> Repr -> bool.
Variable wrappers_by_type : string -> list Diagnostics.LruCacheWrapper.
Variable holders_by_type : string -> list Diagnostics.CacheHolder.
Hypothesis logger_returns : forall r limits, emit_raises r limits = false.

Lemma logs_critical (fmt : string) (args : list logarg) :
  logs (Profiler.critical emit_raises fmt args)
    [Critical {| log_format := fmt; log_args := args |}].
Proof.
  intros w. unfold Profiler.critical. rewrite logger_returns.
  eexists. split; [reflexivity|]. cbn. auto.
Qed.




End CacheStatistics.

(** [lru_stats] looks at nothing but the [lru_cache] wrappers and the
    instances of the seven known classes: two heaps that agree on those
    give the same run, log and outcome, whatever else is alive, and
    whatever the logger and [inspect] do. *)
Theorem lru_stats_reads_only_known_classes
    (emit_raises : logrecord -> Repr -> bool)
    (wrappers wrappers' : string -> list Diagnostics.LruCacheWrapper)
    (holders holders' : string -> list Diagnostics.CacheHolder)
    (w : World) :
  wrappers Diagnostics._LRU_CACHE_WRAPPER_OBJECT
    = wrappers' Diagnostics._LRU_CACHE_WRAPPER_OBJECT ->
  (forall c, In c Diagnostics._KNOWN_LRU_CLASSES -> holders c = holders' c) ->
  Diagnostics._lru_stats emit_raises wrappers holders w
  = Diagnostics._lru_stats emit_raises wrappers' holders' w.
Proof.
  intros Hw Hh. unfold Diagnostics._lru_stats. rewrite Hw.
  rewrite (for_each_ext_in Diagnostics._KNOWN_LRU_CLASSES _
             (fun _class =>
                for_each (holders' _class)
                  (fun class_with_lru_attr =>
                     match
                       Diagnostics.holder_dict_values class_with_lru_attr
                     with
                     | None => raise AttributeError
                     | Some values =>
                         for_each values
                           (Diagnostics.log_maybe_lru emit_raises
                              class_with_lru_attr)
                     end))); [reflexivity|].
  intros c Hc. now rewrite (Hh c Hc).
Qed.

Lemma known_classes_cases (P : string -> Prop) :
  P "EventDataManager" -> P "EventTypeManager" -> P "StatesMetaManager" ->
  P "StateAttributesManager" -> P "StatisticsMetaManager" ->
  P "DomainData" -> P "IntegrationMatcher" ->
  forall c, In c Diagnostics._KNOWN_LRU_CLASSES -> P c.
Proof.
  intros H1 H2 H3 H4 H5 H6 H7 c Hc. cbn in Hc.
  repeat (destruct Hc as [<-|Hc]; [assumption|]). contradiction.
Qed.


(** An instance of a class with [__slots__] under the name of a known
    class: reading its [__dict__] raises, after the caches before it
    were logged and before the notification. *)
Example lru_stats_on_slotted_instance :
  exists w',
    Diagnostics._lru_stats never_raises example_wrappers
      (fun name =>
         if String.eqb name "EventDataManager"
         then [{| Diagnostics.holder_type_str := "<class 'app.EventDataManager'>";
                  Diagnostics.holder_absfile :=
                    Diagnostics.AbsfileReturns "/usr/src/app.py";
                  Diagnostics.holder_dict_values := None |}]
         else example_holders name)
      fresh_world = (w', inl AttributeError)
    /\ length (trace w') = 2
    /\ notifications w' = ∅.
Proof. eexists. split; [vm_compute; reflexivity|]. split; reflexivity. Qed.

Lemma lru_stats_ignores_unlisted_class :
  example_holders "Unlisted" <> example_holders_known_only "Unlisted"
  /\ Diagnostics._lru_stats never_raises example_wrappers example_holders
       fresh_world
     = Diagnostics._lru_stats never_raises example_wrappers
         example_holders_known_only fresh_world.
Proof.
  split; [discriminate|].
  apply (lru_stats_reads_only_known_classes never_raises example_wrappers
           example_wrappers example_holders example_holders_known_only
           fresh_world eq_refl).
  apply known_classes_cases; reflexivity.
Defined.

Section ThreadDump.
Variable emit_raises : logrecord -> Repr -> bool.
Variable threading_enumerate : list Diagnostics.Thread.
Variable main_thread : Diagnostics.Thread.
Variable current_frames : gmap nat (list string).
Variable own_stack : list string.
Variable strip : string -> string.
Hypothesis logger_returns : forall r limits, emit_raises r limits = false.

(** What [log_thread_frames] logs.  When the logger returns, the
    handler returns, having logged one record per enumerated thread
    that is not the main thread, in enumeration order, and none for the
    main thread; a thread with no frame in the snapshot is logged with
    the stack of the handler itself, which is what [format_stack] makes
    of [None].  Nothing else in the host state changes. *)
Theorem thread_dump_logs_all_but_main (w : World) :
  exists w',
    Diagnostics._async_dump_thread_frames emit_raises threading_enumerate
      main_thread current_frames own_stack strip w = (w', inr tt)
    /\ trace w'
       = trace w
         ++ map (thread_record current_frames own_stack strip)
              (List.filter (fun t => negb (is_main main_thread t))
                 threading_enumerate)
    /\ notifications w' = notifications w
    /\ only_reports w w'.
Proof.
  assert (H : logs
                (Diagnostics._async_dump_thread_frames emit_raises
                   threading_enumerate main_thread current_frames own_stack
                   strip)
                (map (thread_record current_frames own_stack strip)
                   (List.filter (fun t => negb (is_main main_thread t))
                      threading_enumerate))).
  { rewrite <- flat_map_unless.
    unfold Diagnostics._async_dump_thread_frames. apply logs_for_each.
    intros t _. unfold Diagnostics.log_thread, is_main.
    destruct (Nat.eqb _ _); [apply logs_ret|].
    unfold thread_record, Diagnostics.format_stack.
    destruct (current_frames !! Diagnostics.thread_ident t);
      apply (logs_critical emit_raises logger_returns). }
  destruct (H w) as (w' & Hrun & Ht & _ & Hn).
  exists w'. split; [exact Hrun|]. split; [exact Ht|]. split; [exact Hn|].
  change w' with (fst (w', @inr exn unit tt)). rewrite <- Hrun.
  apply dump_thread_frames_only_reports.
Qed.

End ThreadDump.

Lemma thread_dump_of_example_threads :
  (forall r limits, never_raises r limits = false)
  /\ exists w',
       Diagnostics._async_dump_thread_frames never_raises example_threads
         example_main_thread example_frames ["handler"] (fun s => s)
         fresh_world = (w', inr tt)
       /\ map
            (fun e => match e with
                      | Critical r => log_args r
                      | _ => []
                      end) (trace w')
          = [[AStr "SyncWorker_0"; AStr "worker aworker b"];
             [AStr "Recorder"; AStr "handler"]].
Proof.
  assert (Hlog : forall r limits, never_raises r limits = false)
    by reflexivity.
  split; [exact Hlog|].
  destruct (thread_dump_logs_all_but_main never_raises example_threads
              example_main_thread example_frames ["handler"] (fun s => s)
              Hlog fresh_world) as (w' & Hrun & Htrace & _).
  exists w'. split; [exact Hrun|]. rewrite Htrace. reflexivity.
Defined.

(** The three dumps are diagnostics only.  Whatever is alive, whatever
    the logger does, and whether they return or raise, the object dump,
    the cache statistics and the thread dump change nothing in the host
    state but the log and the notifications: not the subscription, the
    services, the clock, the [reprlib] limits or the scheduled queue. *)
Theorem dumps_only_report (E : Environment) (call : gmap string pyobj)
    (w : World) :
  only_reports w (fst (serve E (CallDumpLogObjects call) w))
  /\ only_reports w (fst (serve E CallLruStats w))
  /\ only_reports w (fst (serve E CallLogThreadFrames w)).
Proof.
  split; [|split]; cbn [serve].
  - apply dump_log_objects_only_reports.
  - apply lru_stats_only_reports.
  - apply dump_thread_frames_only_reports.
Qed.

(** ** The lock: no request waits for ever, unless one sleeps for ever *)

Lemma in_wake_up_first (j : nat) (ws : list (nat * bool)) :
  (exists b, In (j, b) (Mutex.wake_up_first ws)) <-> (exists b, In (j, b) ws).
Proof.
  destruct ws as [|[k c] rest]; cbn; [tauto|]. split.
  - intros [b [[= -> _]|Hin]]; eauto.
  - intros [b [[= -> _]|Hin]]; eauto.
Qed.

Lemma is_waiting_with_pc (p : Mutex.pc) (t : Mutex.task) :
  is_waiting (Mutex.with_pc p t)
  = match p with Mutex.Waiting => true | _ => false end.
Proof. reflexivity. Qed.

Lemma tasks_run_body (i n : nat) (s : Mutex.state) :
  Mutex.tasks (Mutex.run_body i n s)
  = alter (Mutex.with_pc (match n with
                          | 0 => Mutex.Finished
                          | S k => Mutex.InBody k
                          end)) i (Mutex.tasks s).
Proof. destruct n; reflexivity. Qed.

(** The task that takes or holds the lock runs on: the queue and the
    tasks still agree afterwards. *)
Lemma run_body_live (i n : nat) (s : Mutex.state) (ti : Mutex.task) :
  Mutex.locked s = true ->
  Mutex.tasks s !! i = Some ti ->
  (forall j b, In (j, b) (Mutex.waiters s) ->
     j <> i /\ exists t, Mutex.tasks s !! j = Some t /\ is_waiting t = true) ->
  (forall j t, j <> i -> Mutex.tasks s !! j = Some t -> is_waiting t = true ->
     exists b, In (j, b) (Mutex.waiters s)) ->
  mutex_live (Mutex.run_body i n s).
Proof.
  intros Hlocked Hi Hq Hw.
  assert (Hother : forall j p, j <> i ->
            Mutex.tasks (Mutex.set_pc i p s) !! j = Mutex.tasks s !! j).
  { intros j p Hj. apply tasks_set_pc_ne. congruence. }
  assert (Hself : forall p,
            Mutex.tasks (Mutex.set_pc i p s) !! i
            = Some (Mutex.with_pc p ti)).
  { intros p. now rewrite tasks_set_pc_eq, Hi. }
  destruct n as [|k]; cbn [Mutex.run_body].
  - split; cbn [Mutex.release Mutex.locked Mutex.waiters Mutex.tasks
                Mutex.set_waiters Mutex.set_locked].
    + discriminate.
    + intros _ j b rest Hws. cbn in Hws.
      destruct (Mutex.waiters s) as [|[j0 b0] rest0]; [discriminate|].
      cbn in Hws. congruence.
    + intros j b Hin.
      destruct (proj1 (in_wake_up_first j (Mutex.waiters s)))
        as [b' Hin']; [eauto|].
      destruct (Hq j b' Hin') as (Hj & t & Ht & Hwait).
      exists t. split; [|exact Hwait].
      change (Mutex.tasks (Mutex.set_pc i Mutex.Finished s) !! j = Some t).
      now rewrite Hother.
    + intros j t Hj Hwait.
      change (Mutex.tasks (Mutex.set_pc i Mutex.Finished s) !! j = Some t)
        in Hj.
      destruct (decide (j = i)) as [->|Hne].
      * rewrite Hself in Hj. injection Hj as <-. discriminate.
      * rewrite Hother in Hj by exact Hne.
        apply in_wake_up_first. eauto.
  - split; cbn [Mutex.set_pc Mutex.locked Mutex.waiters].
    + intros _. exists i, (Mutex.with_pc (Mutex.InBody k) ti).
      split; [apply Hself | reflexivity].
    + rewrite Hlocked. discriminate.
    + intros j b Hin. destruct (Hq j b Hin) as (Hj & t & Ht & Hwait).
      exists t. split; [|exact Hwait]. now rewrite Hother.
    + intros j t Hj Hwait. destruct (decide (j = i)) as [->|Hne].
      * rewrite Hself in Hj. injection Hj as <-. discriminate.
      * rewrite Hother in Hj by exact Hne. eauto.
Qed.

Lemma waiting_not_in_body (t : Mutex.task) :
  is_waiting t = true -> Mutex.in_body t = false.
Proof. unfold is_waiting, Mutex.in_body. now destruct (Mutex.at_pc t). Qed.

Lemma step_live (i : nat) (s s' : Mutex.state) :
  mutex_inv s -> mutex_live s -> Mutex.step i s = Some s' -> mutex_live s'.
Proof.
  intros Hinv Hlive. unfold Mutex.step.
  destruct (Mutex.tasks s !! i) as [t|] eqn:Hi; [|discriminate].
  destruct (Mutex.at_pc t) as [| |k|] eqn:Hpc; [| | |discriminate].
  - (* a request starts *)
    assert (Hnw : is_waiting t = false) by (unfold is_waiting; now rewrite Hpc).
    assert (Hnb : Mutex.in_body t = false)
      by (unfold Mutex.in_body; now rewrite Hpc).
    assert (Hqueue : forall j b, In (j, b) (Mutex.waiters s) ->
              j <> i /\ exists tj,
                Mutex.tasks s !! j = Some tj /\ is_waiting tj = true).
    { intros j b Hin.
      destruct (live_waiters_wait s Hlive j b Hin) as (tj & Hj & Hwj).
      split; [|eauto]. intros ->. congruence. }
    destruct (negb (Mutex.locked s) && bool_decide (Mutex.waiters s = []))
      eqn:Hfast.
    + intros [= <-]. apply andb_true_iff in Hfast as [Hl Hws].
      apply bool_decide_eq_true in Hws.
      apply (run_body_live i _ _ t); cbn; [reflexivity | exact Hi | |].
      * exact Hqueue.
      * intros j tj _. apply (live_waiting_queued s Hlive).
    + intros [= <-].
      assert (Hother : forall j, j <> i ->
                Mutex.tasks
                  (Mutex.set_pc i Mutex.Waiting
                     (Mutex.set_waiters (Mutex.waiters s ++ [(i, false)]) s))
                  !! j = Mutex.tasks s !! j).
      { intros j Hj. rewrite tasks_set_pc_ne by congruence. reflexivity. }
      assert (Hself :
                Mutex.tasks
                  (Mutex.set_pc i Mutex.Waiting
                     (Mutex.set_waiters (Mutex.waiters s ++ [(i, false)]) s))
                  !! i = Some (Mutex.with_pc Mutex.Waiting t)).
      { rewrite tasks_set_pc_eq. cbn. now rewrite Hi. }
      split; cbn [Mutex.set_pc Mutex.set_waiters Mutex.locked Mutex.waiters].
      * intros Hl. destruct (live_holder s Hlive Hl) as (j & tj & Hj & Hb).
        exists j, tj. split; [|exact Hb]. rewrite Hother; [exact Hj|].
        intros ->. congruence.
      * intros Hl j b rest Hws. rewrite Hl in Hfast. cbn in Hfast.
        apply bool_decide_eq_false in Hfast.
        destruct (Mutex.waiters s) as [|[j0 b0] rest0] eqn:Ews;
          [contradiction|].
        cbn in Hws. injection Hws as -> -> _.
        exact (live_head_woken s Hlive Hl _ _ _ Ews).
      * intros j b Hin. apply in_app_or in Hin as [Hin|[[= <- <-]|[]]].
        -- destruct (Hqueue j b Hin) as (Hj & tj & Htj & Hwj).
           exists tj. split; [|exact Hwj]. now rewrite Hother.
        -- eexists. split; [exact Hself | reflexivity].
      * intros j tj Hj Hwj. destruct (decide (j = i)) as [->|Hne].
        -- exists false. apply in_or_app. right. now left.
        -- rewrite Hother in Hj by exact Hne.
           destruct (live_waiting_queued s Hlive j tj Hj Hwj) as [b Hin].
           exists b. apply in_or_app. now left.
  - (* a queued request is resumed *)
    destruct (Mutex.woken i (Mutex.waiters s)) eqn:Hw; [|discriminate].
    intros [= <-].
    apply (run_body_live i _ _ t); cbn; [reflexivity | exact Hi | |].
    + intros j b Hin. unfold Mutex.remove_waiter in Hin.
      apply filter_In in Hin as [Hin Hne]. cbn in Hne.
      split; [|exact (live_waiters_wait s Hlive j b Hin)].
      intros ->. rewrite Nat.eqb_refl in Hne. discriminate.
    + intros j tj Hne Hj Hwj.
      destruct (live_waiting_queued s Hlive j tj Hj Hwj) as [b Hin].
      exists b. unfold Mutex.remove_waiter. apply filter_In.
      split; [exact Hin|]. cbn. apply negb_true_iff, Nat.eqb_neq. exact Hne.
  - (* the request in its body runs on *)
    destruct (Mutex.hangs t k); [discriminate|]. intros [= <-].
    assert (Hb : Mutex.in_body t = true)
      by (unfold Mutex.in_body; now rewrite Hpc).
    apply (run_body_live i _ _ t);
      [exact (held_when_in_body s i t Hinv Hi Hb) | exact Hi | |].
    + intros j b Hin.
      destruct (live_waiters_wait s Hlive j b Hin) as (tj & Hj & Hwj).
      split; [|eauto]. intros ->.
      rewrite Hi in Hj. injection Hj as <-.
      rewrite (waiting_not_in_body t Hwj) in Hb. discriminate.
    + intros j tj _. apply (live_waiting_queued s Hlive).
Qed.

Lemma init_live (requests : list Mutex.request) :
  mutex_live (Mutex.init requests).
Proof.
  split; cbn.
  - discriminate.
  - discriminate.
  - contradiction.
  - intros j t. rewrite list_lookup_fmap.
    destruct (requests !! j); [|discriminate]. intros [= <-]. discriminate.
Qed.

Lemma run_inv_live (schedule : list nat) (s : Mutex.state) :
  mutex_inv s -> mutex_live s ->
  mutex_inv (Mutex.run schedule s) /\ mutex_live (Mutex.run schedule s).
Proof.
  revert s. induction schedule as [|i rest IH]; intros s Hinv Hlive;
    [now split|].
  cbn. destruct (Mutex.step i s) as [s'|] eqn:Hstep; cbn.
  - apply IH; [exact (step_inv i s s' Hinv Hstep)
              | exact (step_live i s s' Hinv Hlive Hstep)].
  - now apply IH.
Qed.

Lemma never_hangs (s : Mutex.state) (i k : nat) (t : Mutex.task) :
  none_hangs s -> Mutex.tasks s !! i = Some t -> Mutex.hangs t k = false.
Proof.
  intros Hnone Hi. unfold none_hangs in Hnone.
  rewrite Forall_lookup in Hnone. unfold Mutex.hangs.
  rewrite (Hnone i t Hi). reflexivity.
Qed.

Lemma can_step (s : Mutex.state) :
  mutex_inv s -> mutex_live s -> none_hangs s ->
  (exists i t, Mutex.tasks s !! i = Some t /\ is_finished t = false) ->
  exists i s', Mutex.step i s = Some s'.
Proof.
  intros Hinv Hlive Hnone (i & t & Hi & Hunf).
  destruct (Mutex.locked s) eqn:Hl.
  - destruct (live_holder s Hlive Hl) as (j & tj & Hj & Hb).
    exists j. unfold Mutex.step. rewrite Hj.
    unfold Mutex.in_body in Hb. destruct (Mutex.at_pc tj); try discriminate.
    rewrite (never_hangs s j _ tj Hnone Hj). eauto.
  - destruct (Mutex.waiters s) as [|[j b] rest] eqn:Hws.
    + exists i. unfold Mutex.step. rewrite Hi.
      destruct (Mutex.at_pc t) as [| |k|] eqn:Hpc.
      * rewrite Hl, Hws. cbn. eauto.
      * exfalso.
        destruct (live_waiting_queued s Hlive i t Hi) as [b Hin].
        -- unfold is_waiting. now rewrite Hpc.
        -- rewrite Hws in Hin. contradiction.
      * exfalso.
        assert (Hb : Mutex.in_body t = false)
          by exact (inv_free s Hinv Hl i t Hi).
        unfold Mutex.in_body in Hb. rewrite Hpc in Hb. discriminate.
      * unfold is_finished in Hunf. rewrite Hpc in Hunf. discriminate.
    + assert (b = true) as -> by exact (live_head_woken s Hlive Hl _ _ _ Hws).
      destruct (live_waiters_wait s Hlive j true) as (tj & Hj & Hwj).
      { rewrite Hws. now left. }
      exists j. unfold Mutex.step. rewrite Hj.
      unfold is_waiting in Hwj.
      destruct (Mutex.at_pc tj); try discriminate.
      rewrite Hws. cbn. rewrite Nat.eqb_refl. cbn. eauto.
Qed.

Lemma finished_or_not (l : list Mutex.task) :
  Forall (fun t => is_finished t = true) l
  \/ exists i t, l !! i = Some t /\ is_finished t = false.
Proof.
  induction l as [|x l [IH|(i & t & Hi & Hunf)]].
  - left. constructor.
  - destruct (is_finished x) eqn:Hx.
    + left. now constructor.
    + right. exists 0, x. auto.
  - right. exists (S i), t. auto.
Qed.

Lemma step_tasks (i : nat) (s s' : Mutex.state) :
  Mutex.step i s = Some s' ->
  exists t p,
    Mutex.tasks s !! i = Some t
    /\ Mutex.tasks s' = alter (Mutex.with_pc p) i (Mutex.tasks s)
    /\ task_weight (Mutex.with_pc p t) < task_weight t.
Proof.
  unfold Mutex.step.
  destruct (Mutex.tasks s !! i) as [t|] eqn:Hi; [|discriminate].
  destruct (Mutex.at_pc t) as [| |k|] eqn:Hpc; [| | |discriminate].
  - destruct (negb (Mutex.locked s) && bool_decide (Mutex.waiters s = [])).
    + intros [= <-]. rewrite tasks_run_body. cbn.
      eexists t, _. split; [reflexivity|]. split; [reflexivity|].
      unfold task_weight. rewrite Hpc. cbn.
      destruct (Mutex.body_awaits t); cbn; lia.
    + intros [= <-]. exists t, Mutex.Waiting. split; [reflexivity|].
      split; [reflexivity|]. unfold task_weight. rewrite Hpc. cbn. lia.
  - destruct (Mutex.woken i (Mutex.waiters s)); [|discriminate].
    intros [= <-]. rewrite tasks_run_body. cbn.
    eexists t, _. split; [reflexivity|]. split; [reflexivity|].
    unfold task_weight. rewrite Hpc. cbn.
    destruct (Mutex.body_awaits t); cbn; lia.
  - destruct (Mutex.hangs t k); [discriminate|].
    intros [= <-]. rewrite tasks_run_body.
    eexists t, _. split; [reflexivity|]. split; [reflexivity|].
    unfold task_weight. rewrite Hpc. cbn. destruct k; cbn; lia.
Qed.

Lemma step_none_hangs (i : nat) (s s' : Mutex.state) :
  Mutex.step i s = Some s' -> none_hangs s -> none_hangs s'.
Proof.
  intros Hstep Hnone.
  destruct (step_tasks i s s' Hstep) as (t & p & _ & Ht & _).
  unfold none_hangs. rewrite Ht.
  apply Forall_alter; [exact Hnone|]. intros t0 _ Ht0. exact Ht0.
Qed.

Lemma init_none_hangs (requests : list Mutex.request) :
  Forall (fun r => Mutex.req_hangs r = None) requests ->
  none_hangs (Mutex.init requests).
Proof.
  intros H. unfold none_hangs. cbn.
  induction H as [|r rs Hr _ IH]; constructor; assumption.
Qed.

Lemma run_none_hangs (schedule : list nat) (s : Mutex.state) :
  none_hangs s -> none_hangs (Mutex.run schedule s).
Proof.
  revert s. induction schedule as [|i rest IH]; intros s H; [exact H|].
  cbn. apply IH. destruct (Mutex.step i s) as [s'|] eqn:Hstep; cbn.
  - exact (step_none_hangs i s s' Hstep H).
  - exact H.
Qed.

(** The lock cannot deadlock as long as every [await] of every body
    completes: whatever requests arrived and however they were
    scheduled so far, in the state reached either every request has
    finished or some request can run. *)
Theorem lock_never_deadlocks
    (requests : list Mutex.request) (schedule : list nat) :
  Forall (fun r => Mutex.req_hangs r = None) requests ->
  let s := Mutex.run schedule (Mutex.init requests) in
  Forall (fun t => is_finished t = true) (Mutex.tasks s)
  \/ exists i s', Mutex.step i s = Some s'.
Proof.
  intros Hreq s.
  destruct (run_inv_live schedule (Mutex.init requests)
              (init_inv requests) (init_live requests)) as [Hinv Hlive].
  assert (Hnone : none_hangs s)
    by (apply run_none_hangs, init_none_hangs; exact Hreq).
  destruct (finished_or_not (Mutex.tasks s)) as [Hall|Hex].
  - now left.
  - right. exact (can_step s Hinv Hlive Hnone Hex).
Qed.

Lemma weight_alter (f : Mutex.task -> Mutex.task) (i : nat)
    (l : list Mutex.task) (t : Mutex.task) :
  l !! i = Some t ->
  list_sum (map task_weight (alter f i l)) + task_weight t
  = list_sum (map task_weight l) + task_weight (f t).
Proof.
  revert i. induction l as [|x l IH]; intros [|i] Hi; try discriminate.
  - injection Hi as ->.
    change (alter f 0 (t :: l)) with (f t :: l). simpl. lia.
  - change (alter f (S i) (x :: l)) with (x :: alter f i l).
    simpl. specialize (IH i Hi). lia.
Qed.

Lemma step_weight (i : nat) (s s' : Mutex.state) :
  Mutex.step i s = Some s' -> weight s' < weight s.
Proof.
  intros Hstep. destruct (step_tasks i s s' Hstep) as (t & p & Hi & Ht & Hlt).
  unfold weight. rewrite Ht.
  pose proof (weight_alter (Mutex.with_pc p) i (Mutex.tasks s) t Hi). lia.
Qed.

Lemma first_runnable_from_some (i n k : nat) (s : Mutex.state) :
  first_runnable_from i n s = Some k -> exists s', Mutex.step k s = Some s'.
Proof.
  revert i. induction n as [|n IH]; intros i; cbn; [discriminate|].
  destruct (Mutex.step i s) as [s'|] eqn:Hstep.
  - intros [= <-]. eauto.
  - apply IH.
Qed.

Lemma first_runnable_from_none (i n : nat) (s : Mutex.state) :
  first_runnable_from i n s = None ->
  forall k, i <= k < i + n -> Mutex.step k s = None.
Proof.
  revert i. induction n as [|n IH]; intros i; cbn; [intros _ k; lia|].
  destruct (Mutex.step i s) as [s'|] eqn:Hstep; [discriminate|].
  intros Hnone k Hk. destruct (decide (k = i)) as [->|Hne]; [exact Hstep|].
  apply (IH (S i) Hnone). lia.
Qed.

Lemma first_runnable_none (s : Mutex.state) :
  first_runnable s = None -> forall k, Mutex.step k s = None.
Proof.
  intros Hnone k. destruct (decide (k < length (Mutex.tasks s))) as [Hk|Hk].
  - apply (first_runnable_from_none 0 _ s Hnone). lia.
  - unfold Mutex.step. rewrite lookup_ge_None_2 by lia. reflexivity.
Qed.

Lemma weight_zero_finished (l : list Mutex.task) :
  list_sum (map task_weight l) = 0 ->
  Forall (fun t => is_finished t = true) l.
Proof.
  induction l as [|t l IH]; intros H; constructor.
  - change (task_weight t + list_sum (map task_weight l) = 0) in H.
    unfold task_weight, is_finished in *.
    destruct (Mutex.at_pc t); [lia | lia | lia | reflexivity].
  - apply IH.
    change (task_weight t + list_sum (map task_weight l) = 0) in H. lia.
Qed.

Lemma run_to_end_finishes (fuel : nat) (s : Mutex.state) :
  mutex_inv s -> mutex_live s -> none_hangs s -> weight s <= fuel ->
  Forall (fun t => is_finished t = true) (Mutex.tasks (run_to_end fuel s)).
Proof.
  revert s. induction fuel as [|fuel IH]; intros s Hinv Hlive Hnone Hw.
  - cbn [run_to_end]. apply weight_zero_finished. unfold weight in Hw. lia.
  - cbn [run_to_end]. destruct (first_runnable s) as [i|] eqn:Hfirst.
    + destruct (first_runnable_from_some _ _ _ _ Hfirst) as [s' Hstep].
      rewrite Hstep. change (default s (Some s')) with s'. apply IH.
      * exact (step_inv i s s' Hinv Hstep).
      * exact (step_live i s s' Hinv Hlive Hstep).
      * exact (step_none_hangs i s s' Hstep Hnone).
      * pose proof (step_weight i s s' Hstep). lia.
    + destruct (finished_or_not (Mutex.tasks s)) as [Hall|Hex];
        [exact Hall|].
      exfalso.
      destruct (can_step s Hinv Hlive Hnone Hex) as (k & s' & Hstep).
      rewrite (first_runnable_none s Hfirst k) in Hstep. discriminate.
Qed.

Lemma run_to_end_inv_live (fuel : nat) (s : Mutex.state) :
  mutex_inv s -> mutex_live s ->
  mutex_inv (run_to_end fuel s) /\ mutex_live (run_to_end fuel s).
Proof.
  revert s. induction fuel as [|fuel IH]; intros s Hinv Hlive;
    cbn [run_to_end]; [now split|].
  destruct (first_runnable s) as [i|] eqn:Hfirst; [|now split].
  destruct (first_runnable_from_some _ _ _ _ Hfirst) as [s' Hstep].
  rewrite Hstep. change (default s (Some s')) with s'. apply IH.
  - exact (step_inv i s s' Hinv Hstep).
  - exact (step_live i s s' Hinv Hlive Hstep).
Qed.

Lemma weight_init (requests : list Mutex.request) :
  weight (Mutex.init requests)
  = list_sum (map (fun r => Mutex.req_awaits r + 2) requests).
Proof.
  unfold weight. cbn. induction requests as [|r rs IH]; cbn; [reflexivity|].
  now rewrite IH.
Qed.

(** Every profile request is served, as long as every [await] of every
    body completes.  Each step a request takes strictly lowers the work
    left, which at arrival is the number of [await]s of its body plus
    two; so from any state the requests reached, a loop that keeps
    running a runnable request finishes them all within that many
    steps, and then the lock is free and its queue empty. *)
Theorem every_request_is_served
    (requests : list Mutex.request) (schedule : list nat) :
  Forall (fun r => Mutex.req_hangs r = None) requests ->
  let s := Mutex.run schedule (Mutex.init requests) in
  weight s <= list_sum (map (fun r => Mutex.req_awaits r + 2) requests)
  /\ (forall i s', Mutex.step i s = Some s' -> weight s' < weight s)
  /\ let s_end := run_to_end (weight s) s in
     Forall (fun t => is_finished t = true) (Mutex.tasks s_end)
     /\ Mutex.locked s_end = false
     /\ Mutex.waiters s_end = [].
Proof.
  intros Hreq s.
  destruct (run_inv_live schedule (Mutex.init requests)
              (init_inv requests) (init_live requests)) as [Hinv Hlive].
  assert (Hnone : none_hangs s)
    by (apply run_none_hangs, init_none_hangs; exact Hreq).
  split; [|split; [intros i s'; apply step_weight|]].
  - rewrite <- weight_init. unfold s. clear.
    generalize (Mutex.init requests) as s0.
    induction schedule as [|i rest IH]; intros s0; cbn; [lia|].
    destruct (Mutex.step i s0) as [s1|] eqn:Hstep; cbn.
    + pose proof (step_weight i s0 s1 Hstep). specialize (IH s1). lia.
    + apply IH.
  - intros s_end.
    assert (Hfin : Forall (fun t => is_finished t = true)
                     (Mutex.tasks s_end))
      by (apply run_to_end_finishes;
          [exact Hinv | exact Hlive | exact Hnone | lia]).
    assert (Hend : mutex_inv s_end /\ mutex_live s_end)
      by (apply run_to_end_inv_live; assumption).
    destruct Hend as [Hinv' Hlive'].
    split; [exact Hfin|].
    assert (Hfree : Mutex.locked s_end = false).
    { destruct (Mutex.locked s_end) eqn:Hl; [|reflexivity]. exfalso.
      destruct (live_holder s_end Hlive' Hl) as (j & tj & Hj & Hb).
      rewrite Forall_forall in Hfin.
      assert (Hf : is_finished tj = true).
      { apply Hfin. apply list_elem_of_lookup. eauto. }
      unfold is_finished in Hf. unfold Mutex.in_body in Hb.
      destruct (Mutex.at_pc tj); discriminate. }
    split; [exact Hfree|].
    destruct (Mutex.waiters s_end) as [|[j b] rest] eqn:Hws; [reflexivity|].
    exfalso.
    destruct (live_waiters_wait s_end Hlive' j b) as (tj & Hj & Hwj).
    { rewrite Hws. now left. }
    rewrite Forall_forall in Hfin.
    assert (Hf : is_finished tj = true).
    { apply Hfin. apply list_elem_of_lookup. eauto. }
    unfold is_finished in Hf. unfold is_waiting in Hwj.
    destruct (Mutex.at_pc tj); discriminate.
Qed.

Lemma two_profiles_can_run :
  Forall (fun r => Mutex.req_hangs r = None)
    [Mutex.profile_request true Mutex.CpuProfile;
     Mutex.profile_request true Mutex.MemoryProfile]
  /\ exists i s',
       Mutex.step i
         (Mutex.run [0; 1]
            (Mutex.init [Mutex.profile_request true Mutex.CpuProfile;
                         Mutex.profile_request true Mutex.MemoryProfile]))
       = Some s'.
Proof.
  assert (Hreq : Forall (fun r => Mutex.req_hangs r = None)
                   [Mutex.profile_request true Mutex.CpuProfile;
                    Mutex.profile_request true Mutex.MemoryProfile])
    by (repeat constructor).
  split; [exact Hreq|].
  destruct (lock_never_deadlocks _ [0; 1] Hreq) as [Hall|Hstep];
    [|exact Hstep].
  exfalso. apply Forall_cons in Hall as [Hfirst _]. discriminate Hfirst.
Defined.

Lemma three_requests_are_served :
  Forall (fun r => Mutex.req_hangs r = None)
    [Mutex.profile_request true Mutex.CpuProfile;
     Mutex.profile_request true Mutex.MemoryProfile;
     Mutex.profile_request false Mutex.MemoryProfile]
  /\ Forall (fun t => is_finished t = true)
       (Mutex.tasks
          (run_to_end 12
             (Mutex.init [Mutex.profile_request true Mutex.CpuProfile;
                          Mutex.profile_request true Mutex.MemoryProfile;
                          Mutex.profile_request false Mutex.MemoryProfile]))).
Proof.
  assert (Hreq : Forall (fun r => Mutex.req_hangs r = None)
                   [Mutex.profile_request true Mutex.CpuProfile;
                    Mutex.profile_request true Mutex.MemoryProfile;
                    Mutex.profile_request false Mutex.MemoryProfile])
    by (repeat constructor).
  split; [exact Hreq|].
  exact (proj1 (proj2 (proj2 (every_request_is_served _ [] Hreq)))).
Defined.

(** ** A profile that sleeps for ever *)

Lemma stuck_step (s s' : Mutex.state) (i j k : nat) (t : Mutex.task) :
  mutex_inv s ->
  Mutex.tasks s !! i = Some t ->
  Mutex.at_pc t = Mutex.InBody k ->
  Mutex.hangs t k = true ->
  Mutex.step j s = Some s' ->
  Mutex.tasks s' !! i = Some t
  /\ (forall j' tj',
        Mutex.tasks s' !! j' = Some tj' -> is_finished tj' = true ->
        Mutex.tasks s !! j' = Some tj').
Proof.
  intros Hinv Hi Hpc Hhang.
  assert (Hb : Mutex.in_body t = true)
    by (unfold Mutex.in_body; now rewrite Hpc).
  pose proof (held_when_in_body s i t Hinv Hi Hb) as Hl.
  unfold Mutex.step.
  destruct (Mutex.tasks s !! j) as [tj|] eqn:Hj; [|discriminate].
  destruct (Mutex.at_pc tj) as [| |k'|] eqn:Hpcj; [| | |discriminate].
  - rewrite Hl. cbn [negb andb]. intros [= <-].
    assert (Hne : j <> i).
    { intros ->. rewrite Hi in Hj. injection Hj as ->. congruence. }
    split.
    + rewrite tasks_set_pc_ne by exact Hne. exact Hi.
    + intros j' tj' Hj' Hfin. destruct (decide (j = j')) as [<-|Hne'].
      * rewrite tasks_set_pc_eq in Hj'. cbn in Hj'. rewrite Hj in Hj'.
        injection Hj' as <-. discriminate Hfin.
      * rewrite tasks_set_pc_ne in Hj' by exact Hne'. exact Hj'.
  - rewrite (none_woken _ _ (inv_locked_none_woken s Hinv Hl)).
    discriminate.
  - assert (Hbj : Mutex.in_body tj = true)
      by (unfold Mutex.in_body; now rewrite Hpcj).
    assert (j = i) as -> by exact (inv_exclusive s Hinv _ _ _ _ Hj Hi Hbj Hb).
    rewrite Hi in Hj. injection Hj as <-.
    assert (k' = k) as -> by congruence.
    rewrite Hhang. discriminate.
Qed.

Lemma stuck_run (schedule : list nat) (s : Mutex.state) (i k : nat)
    (t : Mutex.task) :
  mutex_inv s ->
  Mutex.tasks s !! i = Some t ->
  Mutex.at_pc t = Mutex.InBody k ->
  Mutex.hangs t k = true ->
  mutex_inv (Mutex.run schedule s)
  /\ Mutex.tasks (Mutex.run schedule s) !! i = Some t
  /\ (forall j tj,
        Mutex.tasks (Mutex.run schedule s) !! j = Some tj ->
        is_finished tj = true ->
        Mutex.tasks s !! j = Some tj).
Proof.
  revert s. induction schedule as [|j rest IH]; intros s Hinv Hi Hpc Hhang.
  - cbn. auto.
  - cbn [Mutex.run]. destruct (Mutex.step j s) as [s1|] eqn:Hstep.
    + change (default s (Some s1)) with s1.
      destruct (stuck_step s s1 i j k t Hinv Hi Hpc Hhang Hstep)
        as [Hi1 Hfin1].
      destruct (IH s1 (step_inv j s s1 Hinv Hstep) Hi1 Hpc Hhang)
        as (Hinv' & Hi' & Hfin').
      split; [exact Hinv'|]. split; [exact Hi'|].
      intros j' tj Hj' Hfin. apply Hfin1; [|exact Hfin].
      now apply Hfin'.
    + change (default s None) with s. now apply IH.
Qed.

(** A profile that sleeps for ever keeps the lock for good.  Once a
    request is inside its body at an [await] that never completes,
    however the loop schedules the requests of that set-up from then
    on, the request is where it was and cannot run, the lock is held,
    no other request is inside its body, and no request has finished
    that had not finished before. *)
Theorem endless_profile_starves_the_rest
    (requests : list Mutex.request) (before after : list nat) (i k : nat)
    (t : Mutex.task) :
  let s := Mutex.run before (Mutex.init requests) in
  Mutex.tasks s !! i = Some t ->
  Mutex.at_pc t = Mutex.InBody k ->
  Mutex.hangs t k = true ->
  let s' := Mutex.run after s in
  Mutex.tasks s' !! i = Some t
  /\ Mutex.step i s' = None
  /\ Mutex.locked s' = true
  /\ (forall j tj,
        Mutex.tasks s' !! j = Some tj -> Mutex.in_body tj = true -> j = i)
  /\ (forall j tj,
        Mutex.tasks s' !! j = Some tj -> is_finished tj = true ->
        Mutex.tasks s !! j = Some tj).
Proof.
  intros s Hi Hpc Hhang s'.
  assert (Hinv : mutex_inv s) by apply run_inv, init_inv.
  destruct (stuck_run after s i k t Hinv Hi Hpc Hhang)
    as (Hinv' & Hi' & Hfin').
  assert (Hb : Mutex.in_body t = true)
    by (unfold Mutex.in_body; now rewrite Hpc).
  split; [exact Hi'|]. split; [|split; [|split]].
  - unfold Mutex.step, s'. rewrite Hi', Hpc, Hhang. reflexivity.
  - exact (held_when_in_body s' i t Hinv' Hi' Hb).
  - intros j tj Hj Hbj.
    exact (inv_exclusive s' Hinv' _ _ _ _ Hj Hi' Hbj Hb).
  - exact Hfin'.
Qed.

Lemma memory_profile_behind_an_endless_one :
  let s := Mutex.run [0; 1]
             (Mutex.init [Mutex.endless_request Mutex.CpuProfile;
                          Mutex.profile_request true Mutex.MemoryProfile]) in
  Mutex.at_pc <$> Mutex.tasks s = [Mutex.InBody 1; Mutex.Waiting]
  /\ Mutex.at_pc <$> Mutex.tasks (Mutex.run [1; 0; 1; 1; 0] s)
     = [Mutex.InBody 1; Mutex.Waiting]
  /\ Mutex.locked (Mutex.run [1; 0; 1; 1; 0] s) = true.
Proof.
  cbv zeta. split; [reflexivity|]. split; [reflexivity|].
  exact (proj1 (proj2 (proj2
           (endless_profile_starves_the_rest
              [Mutex.endless_request Mutex.CpuProfile;
               Mutex.profile_request true Mutex.MemoryProfile]
              [0; 1] [1; 0; 1; 1; 0] 0 1
              (Mutex.with_pc (Mutex.InBody 1)
                 (Mutex.arrive (Mutex.endless_request Mutex.CpuProfile)))
              eq_refl eq_refl eq_refl)))).
Defined.
